(** * passlib.utils.handlers: handler framework, MCF codec, backends

    A shallow embedding of the parts of [passlib/utils/handlers.py] and
    [passlib/exc.py] that implement the modular-crypt-format codec, the
    integer normaliser used for rounds, the generic handler life cycle
    (hash / verify / identify), backend selection and the prefix wrapper,
    followed by the properties proved about them.

    Conventions.
    - Python text ([str]) is a [string]; [bytes] is a [list byte].
    - A Python call that may raise returns a [result]: [Ok v] or [Raise e].
    - Python integers are unbounded, hence [Z]. *)

From Stdlib Require Import String Ascii ZArith List Lia Bool.
From Stdlib.Strings Require Import Byte.
Import ListNotations.

Local Open Scope string_scope.
Local Open Scope Z_scope.

(** ** Python values *)

(** The values that reach the functions below.  [PyObj m n] stands for an
    instance of any other class [n] defined in module [m]. *)
Inductive pyval : Type :=
| PyNone
| PyBool (b : bool)
| PyInt (n : Z)
| PyStr (s : string)
| PyBytes (b : list byte)
| PyObj (module name : string).

(** Keyword arguments, in call order. *)
Definition kwds : Type := list (string * pyval).

(** ** Exceptions (passlib/exc.py and the builtins that are raised) *)

Inductive exn : Type :=
| TypeError (msg : string)
| ValueError (msg : string)
| UnicodeDecodeError (encoding : string)
| PasswordValueError (msg : string)
| PasswordSizeError (max_size : Z) (msg : string)
| UnknownBackendError (hasher backend : string)
| MissingBackendError (msg : string)
| PasslibSecurityError (msg : string)
| AssertionError (msg : string)
| NotImplementedError (msg : string)
| RecursionError
| OtherError (cls msg : string).

Inductive result (A : Type) : Type :=
| Ok (a : A)
| Raise (e : exn).

Arguments Ok {A} a.
Arguments Raise {A} e.

Definition bind {A B : Type} (r : result A) (k : A -> result B) : result B :=
  match r with
  | Ok a => k a
  | Raise e => Raise e
  end.

Notation "x <- c ;; k" := (bind c (fun x => k))
  (at level 61, c at next level, right associativity).

(** [except ValueError]: the classes of [exn] that derive from
    [ValueError].  [PasswordValueError], [PasswordSizeError] and
    [UnknownBackendError] derive from it in exc.py, [UnicodeDecodeError]
    in the interpreter. *)
Definition is_ValueError (e : exn) : bool :=
  match e with
  | ValueError _ | UnicodeDecodeError _ | PasswordValueError _
  | PasswordSizeError _ _ | UnknownBackendError _ _ => true
  | _ => false
  end.

(** Warnings issued through [warnings.warn]: category and message. *)
Inductive warning : Type :=
| PasslibHashWarning (msg : string)
| PasslibConfigWarning (msg : string).

(** ** Text helpers (the [str] methods the code calls) *)

(** [s.startswith(p)] *)
Fixpoint startswith (s p : string) {struct p} : bool :=
  match p with
  | EmptyString => true
  | String a p' =>
      match s with
      | EmptyString => false
      | String b s' => Ascii.eqb a b && startswith s' p'
      end
  end.

(** [s[n:]] *)
Fixpoint slice_from (n : nat) (s : string) : string :=
  match n with
  | O => s
  | S k => match s with
           | EmptyString => EmptyString
           | String _ s' => slice_from k s'
           end
  end.

(** [sep.join(parts)] *)
Fixpoint join (sep : string) (parts : list string) : string :=
  match parts with
  | [] => ""
  | [p] => p
  | p :: rest => p ++ sep ++ join sep rest
  end.

(** [s.split(sep)] for a non-empty separator: occurrences of [sep] are
    found left to right without overlap.  [skip] counts the characters of
    the occurrence that is being passed over. *)
Fixpoint split_go (sep : string) (skip : nat) (s : string) : list string :=
  match s with
  | EmptyString => [""]
  | String c s' =>
      match skip with
      | S k => split_go sep k s'
      | O =>
          if startswith s sep
          then "" :: split_go sep (String.length sep - 1) s'
          else match split_go sep 0 s' with
               | f :: fs => String c f :: fs
               | [] => [String c ""]
               end
      end
  end.

(** [s.split(sep)]; an empty separator is a [ValueError]. *)
Definition split (s sep : string) : result (list string) :=
  match sep with
  | EmptyString => Raise (ValueError "empty separator")
  | _ => Ok (split_go sep 0 s)
  end.

(** [c in s] for a character [c]. *)
Fixpoint contains (s : string) (c : ascii) : bool :=
  match s with
  | EmptyString => false
  | String a s' => Ascii.eqb c a || contains s' c
  end.

(** Truth value of a text: [if s:]. *)
Definition truthy (s : string) : bool :=
  match s with
  | EmptyString => false
  | _ => true
  end.

(** [value or None] on a text. *)
Definition or_None (s : string) : option string :=
  if truthy s then Some s else None.

(** ** Integers as text: [str(n)], ["%x" % n], ["%d" % n] and [int(s, base)] *)

(** The digit characters of bases up to 36, lower case as [str] and [%x]
    print them. *)
Definition digit_char (d : Z) : ascii :=
  if d <? 10 then ascii_of_nat (Z.to_nat (48 + d))
  else ascii_of_nat (Z.to_nat (87 + d)).

(** Value of a digit character; [int] accepts both letter cases. *)
Definition digit_val (c : ascii) : option Z :=
  let n := Z.of_nat (nat_of_ascii c) in
  if (48 <=? n) && (n <=? 57) then Some (n - 48)
  else if (97 <=? n) && (n <=? 122) then Some (n - 87)
  else if (65 <=? n) && (n <=? 90) then Some (n - 55)
  else None.

(** Digits of [n >= 0] in [base], most significant first, put in front of
    [acc]. *)
Fixpoint to_digits (fuel : nat) (base n : Z) (acc : string) : string :=
  match fuel with
  | O => acc
  | S f =>
      let acc' := String (digit_char (n mod base)) acc in
      if n <? base then acc' else to_digits f base (n / base) acc'
  end.

Definition format_int (base n : Z) : string :=
  let m := Z.abs n in
  let ds := to_digits (S (Z.to_nat (Z.log2 m))) base m "" in
  if n <? 0 then String "-" ds else ds.

(** [str(n)], also what ["%d" % n] prints. *)
Definition str_of_int (n : Z) : string := format_int 10 n.

(** ["%x" % n] *)
Definition hex_of_int (n : Z) : string := format_int 16 n.

(** Texts made of digits of [base] only. *)
Fixpoint digit_string (base : Z) (s : string) : Prop :=
  match s with
  | EmptyString => True
  | String c s' =>
      (exists d, 0 <= d < base /\ c = digit_char d) /\ digit_string base s'
  end.

(** White space that [int] skips at both ends of its argument: the ASCII
    white space and, in the 8-bit range, U+0085 and U+00A0. *)
Definition is_space (c : ascii) : bool :=
  let n := nat_of_ascii c in
  (Nat.eqb n 32 || (Nat.leb 9 n && Nat.leb n 13)
   || Nat.eqb n 133 || Nat.eqb n 160)%bool.

Fixpoint lstrip (s : string) : string :=
  match s with
  | EmptyString => EmptyString
  | String c s' => if is_space c then lstrip s' else s
  end.

Fixpoint rstrip (s : string) : string :=
  match s with
  | EmptyString => EmptyString
  | String c s' =>
      let r := rstrip s' in
      if is_space c && negb (truthy r) then EmptyString else String c r
  end.

(** The digits of an [int] literal: digits below [base], with single
    underscores allowed between two digits.  [prev] tells whether the
    previous character was a digit. *)
Fixpoint parse_digits (base : Z) (s : string) (acc : Z) (prev : bool)
  : option Z :=
  match s with
  | EmptyString => if prev then Some acc else None
  | String c s' =>
      if Ascii.eqb c "_"
      then (if prev then parse_digits base s' acc false else None)
      else match digit_val c with
           | Some d =>
               if d <? base
               then parse_digits base s' (acc * base + d) true
               else None
           | None => None
           end
  end.

Definition is_letter (c lower upper : ascii) : bool :=
  Ascii.eqb c lower || Ascii.eqb c upper.

(** Base 0: the base is read off the literal's prefix; a literal that
    starts with 0 and has no prefix must be zero. *)
Definition detect_base (s : string) : Z * bool :=
  match s with
  | String z rest =>
      if Ascii.eqb z "0" then
        match rest with
        | String c _ =>
            if is_letter c "x" "X" then (16, false)
            else if is_letter c "o" "O" then (8, false)
            else if is_letter c "b" "B" then (2, false)
            else (10, true)
        | EmptyString => (10, true)
        end
      else (10, false)
  | EmptyString => (10, false)
  end.

(** The prefix 0x, 0o or 0b is skipped when it agrees with the base; one
    underscore may follow it. *)
Definition skip_base_prefix (base : Z) (s : string) : string :=
  match s with
  | String z (String c rest) =>
      if Ascii.eqb z "0"
         && (((base =? 16) && is_letter c "x" "X")
             || ((base =? 8) && is_letter c "o" "O")
             || ((base =? 2) && is_letter c "b" "B"))
      then match rest with
           | String u r => if Ascii.eqb u "_" then r else rest
           | EmptyString => rest
           end
      else s
  | _ => s
  end.

(** The sign of a literal and what follows it. *)
Definition split_sign (s : string) : bool * string :=
  match s with
  | String c r =>
      if Ascii.eqb c "+" then (false, r)
      else if Ascii.eqb c "-" then (true, r)
      else (false, s)
  | EmptyString => (false, s)
  end.

(** The literal accepted by [int(s, base)], for text within the 8-bit
    range: [None] when [int] rejects it. *)
Definition int_literal (s : string) (base : Z) : option Z :=
  let '(neg, s2) := split_sign (rstrip (lstrip s)) in
  let '(b, zero_only) := if base =? 0 then detect_base s2 else (base, false) in
  match parse_digits b (skip_base_prefix b s2) 0 false with
  | Some v =>
      if zero_only && negb (v =? 0) then None
      else Some (if neg then - v else v)
  | None => None
  end.

(** [int(s, base)].  The message of the rejected literal quotes the text
    the way [repr] does for printable characters. *)
Definition int_of_str (s : string) (base : Z) : result Z :=
  if (base =? 0) || ((2 <=? base) && (base <=? 36)) then
    match int_literal s base with
    | Some v => Ok v
    | None =>
        Raise (ValueError ("invalid literal for int() with base "
                           ++ str_of_int base ++ ": '" ++ s ++ "'"))
    end
  else Raise (ValueError "int() base must be >= 2 and <= 36, or 0").

(** ** Error constructors of passlib/exc.py *)

Module exc.

(** [_get_name(handler)]: a handler is represented by its [name]. *)
Definition _get_name (handler : option string) : string :=
  match handler with
  | Some name => name
  | None => "<unnamed>"
  end.

Definition type_name (value : pyval) : string :=
  match value with
  | PyNone => "None"
  | PyBool _ => "bool"
  | PyInt _ => "int"
  | PyStr _ => "str"
  | PyBytes _ => "bytes"
  | PyObj module name =>
      if truthy module
         && negb (String.eqb module "__builtin__" || String.eqb module "builtins")
      then module ++ "." ++ name
      else name
  end.

Definition ExpectedTypeError (value : pyval) (expected param : string) : exn :=
  TypeError (param ++ " must be " ++ expected ++ ", not " ++ type_name value).

Definition ExpectedStringError (value : pyval) (param : string) : exn :=
  ExpectedTypeError value "str or bytes" param.

Definition default_size_msg : string :=
  "password exceeds maximum allowed size".

Definition MissingDigestError (handler : option string) : exn :=
  let name := _get_name handler in
  ValueError ("expected " ++ name ++ " hash, got " ++ name
              ++ " config string instead").

Definition InvalidHashError (handler : option string) : exn :=
  ValueError ("not a valid " ++ _get_name handler ++ " hash").

Definition MalformedHashError (handler : option string)
           (reason : option string) : exn :=
  let text := "malformed " ++ _get_name handler ++ " hash" in
  match reason with
  | Some r => if truthy r then ValueError (text ++ " (" ++ r ++ ")")
              else ValueError text
  | None => ValueError text
  end.

Definition ZeroPaddedRoundsError (handler : option string) : exn :=
  MalformedHashError handler (Some "zero-padded rounds").

Definition ChecksumSizeError (handler : string) (checksum_size : Z)
           (raw : bool) : exn :=
  let unit := if raw then "bytes" else "chars" in
  MalformedHashError (Some handler)
    (Some ("checksum must be exactly " ++ str_of_int checksum_size
           ++ " " ++ unit)).

End exc.

(** ** Module-level helpers of passlib/utils/handlers.py *)

Definition _UDOLLAR : string := "$".
Definition _UZERO : string := "0".

(** [bytes.decode("latin-1")]: every byte is a character. *)
Definition decode_latin1 (b : list byte) : string := string_of_list_byte b.

(** [bytes.decode("ascii")] *)
Definition decode_ascii (b : list byte) : result string :=
  if forallb (fun x => (Byte.to_N x <? 128)%N) b
  then Ok (string_of_list_byte b)
  else Raise (UnicodeDecodeError "ascii").

(** The step of [parse_mc3] that validates and parses the rounds
    portion. *)
Definition rounds_field_value (rounds : string) (rounds_base : Z)
           (default_rounds : option Z) (handler : option string)
  : result Z :=
  if startswith rounds _UZERO && negb (String.eqb rounds _UZERO)
  then Raise (exc.ZeroPaddedRoundsError handler)
  else if truthy rounds then int_of_str rounds rounds_base
  else match default_rounds with
       | None =>
           Raise (exc.MalformedHashError handler (Some "empty rounds field"))
       | Some d => Ok d
       end.

Section module_functions.

(** [passlib.utils.to_unicode(source, encoding, param)] and
    [passlib.utils.MAX_PASSWORD_SIZE] are imported from a module that is
    not part of these sources, and [bytes.decode("utf-8")] is the
    interpreter's ([None] stands for its [UnicodeDecodeError]). *)
Variable to_unicode : pyval -> string -> string -> result string.
Variable MAX_PASSWORD_SIZE : Z.
Variable decode_utf8 : list byte -> option string.

(** [len(secret)] for the two accepted types. *)
Definition validate_secret (secret : pyval) : result unit :=
  match secret with
  | PyStr s =>
      if Z.of_nat (String.length s) >? MAX_PASSWORD_SIZE
      then Raise (PasswordSizeError MAX_PASSWORD_SIZE exc.default_size_msg)
      else Ok tt
  | PyBytes b =>
      if Z.of_nat (List.length b) >? MAX_PASSWORD_SIZE
      then Raise (PasswordSizeError MAX_PASSWORD_SIZE exc.default_size_msg)
      else Ok tt
  | _ => Raise (exc.ExpectedStringError secret "secret")
  end.

Definition to_unicode_for_identify (hash : pyval) : result string :=
  match hash with
  | PyStr s => Ok s
  | PyBytes b =>
      match decode_utf8 b with
      | Some s => Ok s
      | None => Ok (decode_latin1 b)
      end
  | _ => Raise (exc.ExpectedStringError hash "hash")
  end.

Definition parse_mc2 (hash : pyval) (prefix sep : string)
           (handler : option string) : result (string * option string) :=
  hash <- to_unicode hash "ascii" "hash" ;;
  if negb (startswith hash prefix) then Raise (exc.InvalidHashError handler)
  else
    parts <- split (slice_from (String.length prefix) hash) sep ;;
    match parts with
    | [salt; chk] => Ok (salt, or_None chk)
    | [salt] => Ok (salt, None)
    | _ => Raise (exc.MalformedHashError handler None)
    end.

Definition parse_mc3 (hash : pyval) (prefix sep : string) (rounds_base : Z)
           (default_rounds : option Z) (handler : option string)
  : result (Z * string * option string) :=
  hash <- to_unicode hash "ascii" "hash" ;;
  if negb (startswith hash prefix) then Raise (exc.InvalidHashError handler)
  else
    parts <- split (slice_from (String.length prefix) hash) sep ;;
    fields <-
      match parts with
      | [rounds; salt; chk] => Ok (rounds, salt, Some chk)
      | [rounds; salt] => Ok (rounds, salt, None)
      | _ => Raise (exc.MalformedHashError handler None)
      end ;;
    let '(rounds, salt, chk) := fields in
    rounds <- rounds_field_value rounds rounds_base default_rounds handler ;;
    Ok (rounds, salt, match chk with
                      | Some c => or_None c
                      | None => None
                      end).

End module_functions.

(** [if checksum:] on an optional text. *)
Definition checksum_given (checksum : option string) : option string :=
  match checksum with
  | Some c => or_None c
  | None => None
  end.

Definition render_mc2 (ident salt : string) (checksum : option string)
           (sep : string) : string :=
  match checksum_given checksum with
  | Some c => join "" [ident; salt; sep; c]
  | None => join "" [ident; salt]
  end.

(** The [assert rounds_base == 10] is an [AssertionError] for any other
    base. *)
Definition render_mc3 (ident : string) (rounds : option Z) (salt : string)
           (checksum : option string) (sep : string) (rounds_base : Z)
  : result string :=
  rounds <-
    match rounds with
    | None => Ok ""
    | Some r =>
        if rounds_base =? 16 then Ok (hex_of_int r)
        else if rounds_base =? 10 then Ok (str_of_int r)
        else Raise (AssertionError "")
    end ;;
  match checksum_given checksum with
  | Some c => Ok (join "" [ident; rounds; sep; salt; sep; c])
  | None => Ok (join "" [ident; rounds; sep; salt])
  end.

(** [isinstance(value, int)]: integers, and booleans since [bool] derives
    from [int]. *)
Definition as_int (value : pyval) : option Z :=
  match value with
  | PyInt n => Some n
  | PyBool b => Some (if b then 1 else 0)
  | _ => None
  end.

(** [if max and ...]: the bound counts when it is neither [None] nor 0. *)
Definition bound_given (max : option Z) : option Z :=
  match max with
  | Some m => if m =? 0 then None else Some m
  | None => None
  end.

(** [norm_integer(handler, value, min, max, param, relaxed)]: the warnings
    issued, in order, and the outcome. *)
Definition norm_integer (handler : string) (value : pyval) (min : Z)
           (max : option Z) (param : string) (relaxed : bool)
  : list warning * result Z :=
  match as_int value with
  | None => ([], Raise (exc.ExpectedTypeError value "integer" param))
  | Some v =>
      let low :=
        if v <? min then
          let msg := handler ++ ": " ++ param ++ " (" ++ str_of_int v
                     ++ ") is too low, must be at least " ++ str_of_int min in
          if relaxed then ([PasslibHashWarning msg], Ok min)
          else ([], Raise (ValueError msg))
        else ([], Ok v) in
      match low with
      | (ws, Raise e) => (ws, Raise e)
      | (ws, Ok v1) =>
          match bound_given max with
          | Some mx =>
              if v1 >? mx then
                let msg := handler ++ ": " ++ param ++ " (" ++ str_of_int v1
                           ++ ") is too large, cannot be more than "
                           ++ str_of_int mx in
                if relaxed then ((ws ++ [PasslibHashWarning msg])%list, Ok mx)
                else (ws, Raise (ValueError msg))
              else (ws, Ok v1)
          | None => (ws, Ok v1)
          end
      end
  end.

(** ** HasRounds: the algorithm's hard limits on rounds *)

Module HasRounds.

Record class : Type := {
  name : string;
  min_rounds : Z;
  max_rounds : option Z
}.

Definition _norm_rounds (cls : class) (rounds : pyval) (relaxed : bool)
           (param : string) : list warning * result Z :=
  norm_integer (name cls) rounds (min_rounds cls) (max_rounds cls)
    param relaxed.

End HasRounds.

(** [len(value)] of a text or bytes value. *)
Definition py_len (value : pyval) : Z :=
  match value with
  | PyStr s => Z.of_nat (String.length s)
  | PyBytes b => Z.of_nat (List.length b)
  | _ => 0
  end.

(** [value.__class__.__name__] *)
Definition class_name (value : pyval) : string :=
  match value with
  | PyNone => "NoneType"
  | PyObj _ name => name
  | _ => exc.type_name value
  end.

(** [any(c not in cs for c in checksum)] *)
Fixpoint any_not_in (cs s : string) : bool :=
  match s with
  | EmptyString => false
  | String c s' => negb (contains cs c) || any_not_in cs s'
  end.

(** ** GenericHandler: the life cycle shared by the handlers *)

Module GenericHandler.

(** A handler instance.  [settings] gathers what the mixins store on the
    instance (salt, rounds, ident, user, ...). *)
Record instance (S : Type) : Type := {
  settings : S;
  checksum : option pyval;
  use_defaults : bool
}.

Arguments settings {S} _.
Arguments checksum {S} _.
Arguments use_defaults {S} _.

(** The class attributes the generic code reads. *)
Record attributes : Type := {
  name : string;
  context_kwds : list string;
  ident : option string;
  _hash_regex : option (string -> bool);
  checksum_size : option Z;
  checksum_chars : option string;
  _checksum_is_bytes : bool
}.

(** A handler class: its attributes and the methods a subclass
    provides.  [construct rng kwds] is [cls(use_defaults=True, **kwds)],
    which may draw a salt or rounds from the generator [rng];
    [_calc_checksum self secret] is the method called on the instance
    [self], of which it may read the settings, the checksum and
    [use_defaults]. *)
Record class (S Rng : Type) : Type := {
  attrs : attributes;
  construct : Rng -> kwds -> result S;
  from_string : pyval -> kwds -> result (instance S);
  to_string : instance S -> result string;
  _calc_checksum : instance S -> pyval -> result pyval
}.

Arguments attrs {S Rng} _.
Arguments construct {S Rng} _ _ _.
Arguments from_string {S Rng} _ _ _.
Arguments to_string {S Rng} _ _.
Arguments _calc_checksum {S Rng} _ _ _.

(** [extract_settings_kwds(handler, kwds)]: the settings popped from
    [kwds], and what is left in [kwds]. *)
Definition extract_settings_kwds (context_keys : list string) (kw : kwds)
  : kwds * kwds :=
  partition (fun kv => negb (existsb (String.eqb (fst kv)) context_keys)) kw.

(** [self._norm_checksum(checksum, relaxed)]: the warnings issued and
    the outcome. *)
Definition _norm_checksum (self : attributes) (checksum : pyval)
           (relaxed : bool) : list warning * result pyval :=
  let raw := _checksum_is_bytes self in
  let converted : list warning * result pyval :=
    if raw then
      match checksum with
      | PyBytes _ => ([], Ok checksum)
      | _ => ([], Raise (exc.ExpectedTypeError checksum "bytes" "checksum"))
      end
    else
      match checksum with
      | PyStr _ => ([], Ok checksum)
      | PyBytes b =>
          if relaxed
          then ([PasslibHashWarning "checksum should be unicode, not bytes"],
                s <- decode_ascii b ;; Ok (PyStr s))
          else ([], Raise (exc.ExpectedTypeError checksum "str" "checksum"))
      | _ => ([], Raise (exc.ExpectedTypeError checksum "str" "checksum"))
      end in
  match converted with
  | (ws, Raise e) => (ws, Raise e)
  | (ws, Ok chk) =>
      let wrong_size :=
        match bound_given (checksum_size self) with
        | Some cc => negb (py_len chk =? cc)
        | None => false
        end in
      if wrong_size
      then (ws, Raise (exc.ChecksumSizeError (name self)
                         (match checksum_size self with
                          | Some cc => cc
                          | None => 0
                          end) raw))
      else
        let bad_chars :=
          if raw then false
          else match checksum_chars self, chk with
               | Some cs, PyStr s => truthy cs && any_not_in cs s
               | _, _ => false
               end in
        if bad_chars
        then (ws, Raise (ValueError ("invalid characters in " ++ name self
                                     ++ " checksum")))
        else (ws, Ok chk)
  end.

Section methods.

Context {S Rng : Type}.

(** Imported from modules that are not part of these sources:
    [passlib.utils.consteq], [passlib.utils.MAX_PASSWORD_SIZE]; the
    interpreter's [bytes.decode("utf-8")]; and [cls.using], which
    each mixin extends and which returns the configured subclass. *)
Variable consteq : pyval -> pyval -> result bool.
Variable MAX_PASSWORD_SIZE : Z.
Variable decode_utf8 : list byte -> option string.
Variable using_ : class S Rng -> kwds -> result (class S Rng).

Definition identify (cls : class S Rng) (hash : pyval) : result bool :=
  hash <- to_unicode_for_identify decode_utf8 hash ;;
  if negb (truthy hash) then Ok false
  else
    match ident (attrs cls) with
    | Some ident => Ok (startswith hash ident)
    | None =>
        match _hash_regex (attrs cls) with
        | Some pat => Ok (pat hash)
        | None =>
            match from_string cls (PyStr hash) [] with
            | Ok _ => Ok true
            | Raise e => if is_ValueError e then Ok false else Raise e
            end
        end
    end.

(** The statements of [hash] that follow the handling of settings
    keywords.  The instance that [cls(use_defaults=True, ...)] returns
    has no checksum yet when [_calc_checksum] is called on it. *)
Definition hash_with_context (cls : class S Rng) (secret : pyval)
           (kw : kwds) (rng : Rng) : result string :=
  _ <- validate_secret MAX_PASSWORD_SIZE secret ;;
  st <- construct cls rng kw ;;
  chk <- _calc_checksum cls {| settings := st; checksum := None;
                               use_defaults := true |} secret ;;
  to_string cls {| settings := st; checksum := Some chk;
                   use_defaults := true |}.

(** [hash(secret, **kwds)].  Settings keywords are forwarded to
    [cls.using(settings).hash(secret, kwds)]; [fuel] bounds the
    depth of that recursion as the interpreter's recursion limit does
    (the deprecation warning it issues is not recorded). *)
Fixpoint hash (fuel : nat) (cls : class S Rng) (secret : pyval)
         (kw : kwds) (rng : Rng) : result string :=
  match fuel with
  | O => Raise RecursionError
  | Datatypes.S fuel' =>
      match kw with
      | [] => hash_with_context cls secret kw rng
      | _ :: _ =>
          let '(settings, rest) :=
            extract_settings_kwds (context_kwds (attrs cls)) kw in
          match settings with
          | [] => hash_with_context cls secret rest rng
          | _ :: _ =>
              sub <- using_ cls settings ;;
              hash fuel' sub secret rest rng
          end
      end
  end.

Definition verify (cls : class S Rng) (secret hash : pyval)
           (context : kwds) : result bool :=
  _ <- validate_secret MAX_PASSWORD_SIZE secret ;;
  self <- from_string cls hash context ;;
  match checksum self with
  | None => Raise (exc.MissingDigestError (Some (name (attrs cls))))
  | Some chk =>
      c <- _calc_checksum cls self secret ;;
      consteq c chk
  end.

End methods.

End GenericHandler.

(** ** StaticHandler: handlers without settings *)

Module StaticHandler.

(** The attributes and methods a static handler declares.  [C] is the
    context its mixins store on the instance (user, encoding);
    [init_context] is what their constructors do with the context
    keywords; [_calc_checksum self secret] is the method called on the
    instance [self]. *)
Record class (C : Type) : Type := {
  attrs : GenericHandler.attributes;
  _hash_prefix : string;
  _norm_hash : string -> string;
  init_context : kwds -> result C;
  _calc_checksum : GenericHandler.instance C -> pyval -> result pyval
}.

Arguments attrs {C} _.
Arguments _hash_prefix {C} _.
Arguments _norm_hash {C} _ _.
Arguments init_context {C} _ _.
Arguments _calc_checksum {C} _ _ _.

Section methods.

Context {C : Type}.
Variable to_unicode : pyval -> string -> string -> result string.

(** [cls(checksum=hash, **context)]: the mixins take their context
    keywords, [GenericHandler.__init__] normalises the checksum. *)
Definition init_with_checksum (cls : class C) (checksum : pyval)
           (context : kwds) : result (GenericHandler.instance C) :=
  st <- init_context cls context ;;
  chk <- snd (GenericHandler._norm_checksum (attrs cls) checksum false) ;;
  Ok {| GenericHandler.settings := st;
        GenericHandler.checksum := Some chk;
        GenericHandler.use_defaults := false |}.

Definition from_string (cls : class C) (hash : pyval) (context : kwds)
  : result (GenericHandler.instance C) :=
  hash <- to_unicode hash "ascii" "hash" ;;
  let hash := _norm_hash cls hash in
  hash <-
    (if truthy (_hash_prefix cls) then
       if startswith hash (_hash_prefix cls)
       then Ok (slice_from (String.length (_hash_prefix cls)) hash)
       else Raise (exc.InvalidHashError
                     (Some (GenericHandler.name (attrs cls))))
     else Ok hash) ;;
  init_with_checksum cls (PyStr hash) context.

(** [self._hash_prefix + self.checksum] *)
Definition to_string (cls : class C)
           (self : GenericHandler.instance C) : result string :=
  match GenericHandler.checksum self with
  | Some (PyStr chk) => Ok (_hash_prefix cls ++ chk)
  | Some v =>
      Raise (TypeError ("can only concatenate str (not "
                        ++ class_name v ++ ") to str"))
  | None =>
      Raise (TypeError ("can only concatenate str (not "
                        ++ class_name PyNone ++ ") to str"))
  end.

(** The static handler as a handler class; it draws nothing from the
    generator. *)
Definition generic {Rng : Type} (cls : class C)
  : GenericHandler.class C Rng :=
  {| GenericHandler.attrs := attrs cls;
     GenericHandler.construct := fun _ kw => init_context cls kw;
     GenericHandler.from_string := from_string cls;
     GenericHandler.to_string := to_string cls;
     GenericHandler._calc_checksum := _calc_checksum cls |}.

End methods.

End StaticHandler.

(** ** BackendMixin: selection among the backends of a handler *)

Module BackendMixin.

(** [loader name dryrun] is the call
    [cls._get_backend_loader(name)(name=name, dryrun=dryrun)]: the value
    the loader returns, or the exception it raises. *)
Record class : Type := {
  name : string;
  backends : list string;
  _no_backend_suggestion : option string;
  loader : string -> bool -> result pyval
}.

(** The class attributes [set_backend] reads and writes. *)
Record state : Type := {
  __backend : option string;
  _pending_backend : option string;
  _pending_dry_run : bool
}.

(** [_set_backend(name, dryrun)] (the value's repr is left out of the
    assertion's message). *)
Definition _set_backend (cls : class) (name' : string) (dryrun : bool)
  : result unit :=
  ok <- loader cls name' dryrun ;;
  match ok with
  | PyBool false =>
      Raise (MissingBackendError
               (name cls ++ ": backend not available: " ++ name'))
  | PyBool true => Ok tt
  | _ => Raise (AssertionError "backend loaders must return True or False")
  end.

(** [if cls.__backend] *)
Definition loaded (st : state) : bool :=
  match __backend st with
  | Some b => truthy b
  | None => false
  end.

(** [name == cls.__backend] *)
Definition is_active (st : state) (name' : string) : bool :=
  match __backend st with
  | Some b => String.eqb name' b
  | None => false
  end.

Definition no_backends_error (cls : class) : exn :=
  let msg := name cls ++ ": no backends available" in
  match _no_backend_suggestion cls with
  | Some suggestion =>
      if truthy suggestion then MissingBackendError (msg ++ suggestion)
      else MissingBackendError msg
  | None => MissingBackendError msg
  end.

(** The loop of [set_backend] over the candidates, [attempt] being the
    recursive call [cls.set_backend(name, dryrun=dryrun)]. *)
Fixpoint first_available (cls : class)
         (attempt : string -> state -> state * result string)
         (candidates : list string) (default_error : option exn)
         (st : state) : state * result string :=
  match candidates with
  | [] =>
      match default_error with
      | Some err => (st, Raise err)
      | None => (st, Raise (no_backends_error cls))
      end
  | candidate :: rest =>
      match attempt candidate st with
      | (st', Ok active) => (st', Ok active)
      | (st', Raise (MissingBackendError _)) =>
          first_available cls attempt rest default_error st'
      | (st', Raise (PasslibSecurityError msg)) =>
          first_available cls attempt rest
            (match default_error with
             | None => Some (PasslibSecurityError msg)
             | Some err => Some err
             end) st'
      | (st', Raise err) => (st', Raise err)
      end
  end.

(** [set_backend(name, dryrun)] on the class that owns the backend
    ([_get_backend_owner] returns [cls]).  [fuel] bounds the depth of
    the recursion as the interpreter's recursion limit does. *)
Fixpoint set_backend (fuel : nat) (cls : class) (name' : string)
         (dryrun : bool) (st : state) : state * result string :=
  match fuel with
  | O => (st, Raise RecursionError)
  | S fuel' =>
      if (String.eqb name' "any" && loaded st)
         || (truthy name' && is_active st name')
      then
        match __backend st with
        | Some active => (st, Ok active)
        | None => (st, Raise (AssertionError "no active backend"))
        end
      else if String.eqb name' "any" || String.eqb name' "default" then
        first_available cls
          (fun candidate => set_backend fuel' cls candidate dryrun)
          (backends cls) None st
      else if negb (existsb (String.eqb name') (backends cls)) then
        (st, Raise (UnknownBackendError (name cls) name'))
      else
        let orig := (_pending_backend st, _pending_dry_run st) in
        let outcome := _set_backend cls name' dryrun in
        let restored :=
          {| __backend := __backend st;
             _pending_backend := fst orig;
             _pending_dry_run := snd orig |} in
        match outcome with
        | Raise err => (restored, Raise err)
        | Ok _ =>
            if dryrun then (restored, Ok name')
            else ({| __backend := Some name';
                     _pending_backend := fst orig;
                     _pending_dry_run := snd orig |}, Ok name')
        end
  end.

(** [name and name == cls.__backend]: the named backend is the active
    one already. *)
Definition already_active (st : state) (name' : string) : bool :=
  truthy name' && is_active st name'.

(** The state after [cls.__backend = name]. *)
Definition activate (st : state) (name' : string) : state :=
  {| __backend := Some name';
     _pending_backend := _pending_backend st;
     _pending_dry_run := _pending_dry_run st |}.

(** The first security refusal among the outcomes of the candidates'
    loaders, in order. *)
Fixpoint first_refusal (cls : class) (dryrun : bool)
         (candidates : list string) : option exn :=
  match candidates with
  | [] => None
  | candidate :: rest =>
      match loader cls candidate dryrun with
      | Raise (PasslibSecurityError msg) => Some (PasslibSecurityError msg)
      | _ => first_refusal cls dryrun rest
      end
  end.

(** A candidate the loop passes over: its loader returns [False], or
    raises [MissingBackendError] or [PasslibSecurityError]. *)
Definition passed_over (cls : class) (dryrun : bool) (candidate : string)
  : bool :=
  match loader cls candidate dryrun with
  | Ok (PyBool false) => true
  | Raise (MissingBackendError _) => true
  | Raise (PasslibSecurityError _) => true
  | _ => false
  end.

(** A candidate the loop passes over in the state [st]: it is not the
    active backend, so that its loader is called, and the outcome of its
    loader is passed over. *)
Definition passed_over_in (cls : class) (dryrun : bool) (st : state)
           (candidate : string) : bool :=
  negb (already_active st candidate) && passed_over cls dryrun candidate.

End BackendMixin.

(** ** PrefixWrapper: a handler under another prefix *)

Module PrefixWrapper.

(** The wrapper's attributes; of the wrapped handler, its name and its
    [identify] method. *)
Record class : Type := {
  name : string;
  prefix : string;
  orig_prefix : string;
  wrapped_name : string;
  wrapped_identify : pyval -> result bool
}.

Section methods.

Variable decode_utf8 : list byte -> option string.

Definition _unwrap_hash (self : class) (hash : string) : result string :=
  if negb (startswith hash (prefix self))
  then Raise (exc.InvalidHashError (Some (name self)))
  else Ok (orig_prefix self
           ++ slice_from (String.length (prefix self)) hash).

(** A value that is neither text nor bytes has no [startswith]. *)
Definition _wrap_hash (self : class) (hash : pyval) : result string :=
  hash <-
    match hash with
    | PyStr s => Ok s
    | PyBytes b => decode_ascii b
    | _ => Raise (OtherError "AttributeError"
                    ("'" ++ class_name hash
                     ++ "' object has no attribute 'startswith'"))
    end ;;
  if negb (startswith hash (orig_prefix self))
  then Raise (exc.InvalidHashError (Some (wrapped_name self)))
  else Ok (prefix self
           ++ slice_from (String.length (orig_prefix self)) hash).

Definition identify (self : class) (hash : pyval) : result bool :=
  hash <- to_unicode_for_identify decode_utf8 hash ;;
  if negb (startswith hash (prefix self)) then Ok false
  else
    hash <- _unwrap_hash self hash ;;
    wrapped_identify self (PyStr hash).

End methods.

End PrefixWrapper.

(** ** Canonical hash strings *)

(** A checksum that [render_mc2] and [render_mc3] write: none, or a
    non-empty text without the separator. *)
Definition valid_checksum (checksum : option string) : Prop :=
  match checksum with
  | Some c => truthy c = true /\ contains c "$" = false
  | None => True
  end.

(** A 2-part string is canonical when it has the prefix and one field, or
    two fields with a non-empty checksum. *)
Definition canonical_mc2 (prefix x : string) : Prop :=
  startswith x prefix = true /\
  match split_go "$" 0 (slice_from (String.length prefix) x) with
  | [_] => True
  | [_; chk] => truthy chk = true
  | _ => False
  end.

(** A 3-part string is canonical when moreover its rounds field is the
    decimal writing of an integer. *)
Definition canonical_mc3 (prefix x : string) : Prop :=
  startswith x prefix = true /\
  match split_go "$" 0 (slice_from (String.length prefix) x) with
  | [rounds; _] => exists n, rounds = str_of_int n
  | [rounds; _; chk] => (exists n, rounds = str_of_int n) /\ truthy chk = true
  | _ => False
  end.

(** [isinstance(value, (str, bytes))] *)
Definition is_text_or_bytes (value : pyval) : bool :=
  match value with
  | PyStr _ | PyBytes _ => true
  | _ => false
  end.

(** [s.isascii()] *)
Fixpoint is_ascii (s : string) : bool :=
  match s with
  | EmptyString => true
  | String c s' => Nat.ltb (nat_of_ascii c) 128 && is_ascii s'
  end.

(** The values that [consteq] compares: bytes, and text made of ASCII
    characters. *)
Definition is_ascii_or_bytes (value : pyval) : bool :=
  match value with
  | PyStr s => is_ascii s
  | PyBytes _ => true
  | _ => false
  end.

(** ** Concrete handlers on which the definitions are run *)

Module Samples.

(** [bytes.decode("utf-8")] on the byte strings whose characters fit
    the 8-bit characters of [string]: the ASCII bytes, and the two-byte
    sequences that write U+0080 to U+00FF.  [None] is returned for any
    other byte string. *)
Fixpoint decode_utf8 (b : list byte) : option string :=
  match b with
  | [] => Some EmptyString
  | x :: rest =>
      let n := N.to_nat (Byte.to_N x) in
      if Nat.ltb n 128 then
        match decode_utf8 rest with
        | Some s => Some (String (ascii_of_nat n) s)
        | None => None
        end
      else if Nat.eqb n 194 || Nat.eqb n 195 then
        match rest with
        | y :: rest' =>
            let m := N.to_nat (Byte.to_N y) in
            if Nat.leb 128 m && Nat.ltb m 192 then
              match decode_utf8 rest' with
              | Some s =>
                  Some (String (ascii_of_nat
                                  (if Nat.eqb n 194 then m else m + 64)) s)
              | None => None
              end
            else None
        | [] => None
        end
      else None
  end.

(** A conversion with [to_unicode]'s interface: text is returned as it
    is, bytes are decoded with the named encoding (of which three are
    known here), anything else is a [TypeError]. *)
Definition to_unicode (source : pyval) (encoding param : string)
  : result string :=
  match source with
  | PyStr s => Ok s
  | PyBytes b =>
      if String.eqb encoding "latin-1" then Ok (decode_latin1 b)
      else if String.eqb encoding "ascii" then decode_ascii b
      else if String.eqb encoding "utf-8" then
        match decode_utf8 b with
        | Some s => Ok s
        | None => Raise (UnicodeDecodeError "utf-8")
        end
      else Raise (OtherError "LookupError" ("unknown encoding: " ++ encoding))
  | _ => Raise (exc.ExpectedStringError source param)
  end.

(** A comparison with [consteq]'s interface, after [hmac.compare_digest]:
    equality of two byte strings or of two texts of ASCII characters; a
    text with another character, and operands of other or of different
    types, are a [TypeError]. *)
Definition consteq (left right : pyval) : result bool :=
  match left, right with
  | PyStr a, PyStr b =>
      if is_ascii a && is_ascii b then Ok (String.eqb a b)
      else Raise (TypeError
                    "comparing strings with non-ASCII characters is not supported")
  | PyBytes a, PyBytes b =>
      Ok (String.eqb (string_of_list_byte a) (string_of_list_byte b))
  | _, _ =>
      Raise (TypeError
               ("unsupported operand types(s) or combination of types: '"
                ++ class_name left ++ "' and '" ++ class_name right ++ "'"))
  end.

(** A [using] that accepts no settings. *)
Definition no_using {S Rng : Type} (cls : GenericHandler.class S Rng)
           (settings : kwds) : result (GenericHandler.class S Rng) :=
  Raise (TypeError "unexpected keyword argument").

(** The hexadecimal digits in both letter cases, for the constant
    [HEX_CHARS] that [nthash] takes from [passlib.utils.binary]. *)
Definition HEX_CHARS : string := "0123456789abcdefABCDEF".

(** [str.lower] on the ASCII letters. *)
Definition lower_char (c : ascii) : ascii :=
  let n := nat_of_ascii c in
  if (Nat.leb 65 n && Nat.leb n 90)%bool then ascii_of_nat (n + 32) else c.

Fixpoint lower (s : string) : string :=
  match s with
  | EmptyString => EmptyString
  | String c s' => String (lower_char c) (lower s')
  end.

(** A static handler whose checksum is the text of the secret. *)
Definition plain : StaticHandler.class unit :=
  {| StaticHandler.attrs :=
       {| GenericHandler.name := "plain";
          GenericHandler.context_kwds := [];
          GenericHandler.ident := None;
          GenericHandler._hash_regex := None;
          GenericHandler.checksum_size := None;
          GenericHandler.checksum_chars := None;
          GenericHandler._checksum_is_bytes := false |};
     StaticHandler._hash_prefix := "";
     StaticHandler._norm_hash := fun h => h;
     StaticHandler.init_context := fun _ => Ok tt;
     StaticHandler._calc_checksum :=
       fun _ secret => s <- to_unicode secret "utf-8" "secret" ;;
                       Ok (PyStr s) |}.

(** [nthash] of passlib/handlers/windows.py; its digest (MD4 of the
    UTF-16 secret) lies outside this development. *)
Definition nthash : StaticHandler.class unit :=
  {| StaticHandler.attrs :=
       {| GenericHandler.name := "nthash";
          GenericHandler.context_kwds := [];
          GenericHandler.ident := None;
          GenericHandler._hash_regex := None;
          GenericHandler.checksum_size := Some 32;
          GenericHandler.checksum_chars := Some HEX_CHARS;
          GenericHandler._checksum_is_bytes := false |};
     StaticHandler._hash_prefix := "";
     StaticHandler._norm_hash := lower;
     StaticHandler.init_context := fun _ => Ok tt;
     StaticHandler._calc_checksum :=
       fun _ _ => Raise (NotImplementedError "md4") |}.

(** [bsd_nthash] of passlib/handlers/windows.py. *)
Definition bsd_nthash : PrefixWrapper.class :=
  {| PrefixWrapper.name := "bsd_nthash";
     PrefixWrapper.prefix := "$3$$";
     PrefixWrapper.orig_prefix := "";
     PrefixWrapper.wrapped_name := "nthash";
     PrefixWrapper.wrapped_identify :=
       GenericHandler.identify decode_utf8
         (@StaticHandler.generic unit to_unicode unit nthash) |}.

(** A handler that leaves [from_string] as [GenericHandler] declares
    it. *)
Definition abstract : GenericHandler.class unit unit :=
  {| GenericHandler.attrs :=
       {| GenericHandler.name := "abstract";
          GenericHandler.context_kwds := [];
          GenericHandler.ident := None;
          GenericHandler._hash_regex := None;
          GenericHandler.checksum_size := None;
          GenericHandler.checksum_chars := None;
          GenericHandler._checksum_is_bytes := false |};
     GenericHandler.construct := fun _ _ => Ok tt;
     GenericHandler.from_string :=
       fun _ _ => Raise (NotImplementedError "must implement from_string()");
     GenericHandler.to_string :=
       fun _ => Raise (NotImplementedError "must implement from_string()");
     GenericHandler._calc_checksum :=
       fun _ _ => Raise (NotImplementedError "must implement _calc_checksum()")
  |}.

(** A handler with rounds between 1000 and 9999. *)
Definition rounds_1000_9999 : HasRounds.class :=
  {| HasRounds.name := "sample";
     HasRounds.min_rounds := 1000;
     HasRounds.max_rounds := Some 9999 |}.

(** Three backends: the first is refused for security, the second is
    not installed, the third loads. *)
Definition three_backends : BackendMixin.class :=
  {| BackendMixin.name := "sample";
     BackendMixin.backends := ["native"; "os_crypt"; "builtin"];
     BackendMixin._no_backend_suggestion := None;
     BackendMixin.loader :=
       fun name _ =>
         if String.eqb name "native"
         then Raise (PasslibSecurityError "native backend is vulnerable")
         else if String.eqb name "os_crypt" then Ok (PyBool false)
         else Ok (PyBool true) |}.

(** Two backends, neither usable: the first is not installed, the
    second is refused. *)
Definition no_safe_backend : BackendMixin.class :=
  {| BackendMixin.name := "sample";
     BackendMixin.backends := ["os_crypt"; "native"];
     BackendMixin._no_backend_suggestion := None;
     BackendMixin.loader :=
       fun name _ =>
         if String.eqb name "native"
         then Raise (PasslibSecurityError "native backend is vulnerable")
         else Ok (PyBool false) |}.

Definition unresolved : BackendMixin.state :=
  {| BackendMixin.__backend := None;
     BackendMixin._pending_backend := None;
     BackendMixin._pending_dry_run := false |}.

End Samples.

(** ** Further functions of passlib/utils/handlers.py *)

(** [s[:n]] for [n >= 0] *)
Fixpoint slice_to (n : nat) (s : string) : string :=
  match n with
  | O => EmptyString
  | S k => match s with
           | EmptyString => EmptyString
           | String c s' => String c (slice_to k s')
           end
  end.

(** [value[:k]] on a text or bytes value; a negative [k] counts from the
    end. *)
Definition py_slice_to (k : Z) (value : pyval) : pyval :=
  let keep (len : nat) : nat :=
    if k <? 0 then (len - Z.to_nat (- k))%nat else Z.to_nat k in
  match value with
  | PyStr s => PyStr (slice_to (keep (String.length s)) s)
  | PyBytes b => PyBytes (firstn (keep (List.length b)) b)
  | _ => value
  end.

(** [c * n]: the character [c] repeated, nothing for [n <= 0]. *)
Fixpoint repeat_char (c : ascii) (n : nat) : string :=
  match n with
  | O => EmptyString
  | S k => String c (repeat_char c k)
  end.

(** [repr(value)], as far as the messages below need it: exact for
    [None], booleans and integers; for text and bytes, the quoting that
    [repr] gives to printable characters other than quote and backslash;
    for other objects, the default writing without the address. *)
Definition py_repr (value : pyval) : string :=
  match value with
  | PyNone => "None"
  | PyBool true => "True"
  | PyBool false => "False"
  | PyInt n => str_of_int n
  | PyStr s => "'" ++ s ++ "'"
  | PyBytes b => "b'" ++ string_of_list_byte b ++ "'"
  | PyObj module name => "<" ++ module ++ "." ++ name ++ " object>"
  end.

(** [parse_int(source, base, default, param, handler)] *)
Definition parse_int (source : string) (base : Z) (default : option Z)
           (param : string) (handler : option string) : result Z :=
  if startswith source _UZERO && negb (String.eqb source _UZERO)
  then Raise (exc.MalformedHashError handler
                (Some ("zero-padded " ++ param ++ " field")))
  else if truthy source then int_of_str source base
  else match default with
       | None =>
           Raise (exc.MalformedHashError handler
                    (Some ("empty " ++ param ++ " field")))
       | Some d => Ok d
       end.

(** ** HasRounds: the application's desired range *)

Module DesiredRounds.

(** [min_desired_rounds] and [max_desired_rounds] of a class
    ([None] when unset). *)
Record class : Type := {
  min_desired_rounds : option Z;
  max_desired_rounds : option Z
}.

Definition _clip_to_desired_rounds (cls : class) (rounds : Z) : Z :=
  let mnd := match bound_given (min_desired_rounds cls) with
             | Some m => m
             | None => 0
             end in
  if rounds <? mnd then mnd
  else match bound_given (max_desired_rounds cls) with
       | Some mxd => if rounds >? mxd then mxd else rounds
       | None => rounds
       end.

(** [HasRounds._calc_needs_update] on an instance with the given rounds;
    [inherited] is what [super()._calc_needs_update] returns. *)
Definition _calc_needs_update (cls : class) (rounds : Z) (inherited : bool)
  : bool :=
  match bound_given (min_desired_rounds cls) with
  | Some m => if rounds <? m then true
              else match bound_given (max_desired_rounds cls) with
                   | Some mx => if rounds >? mx then true else inherited
                   | None => inherited
                   end
  | None => match bound_given (max_desired_rounds cls) with
            | Some mx => if rounds >? mx then true else inherited
            | None => inherited
            end
  end.

End DesiredRounds.

(** ** HasSalt *)

Module HasSalt.

Record class : Type := {
  name : string;
  min_salt_size : Z;
  max_salt_size : option Z;
  salt_chars : option string;
  _salt_is_bytes : bool;
  _salt_unit : string
}.

(** [mn == mx] between a size and an optional size. *)
Definition same_size (mn : Z) (mx : option Z) : bool :=
  match mx with
  | Some m => mn =? m
  | None => false
  end.

Definition _truncate_salt (salt : pyval) (mx : Z) : pyval :=
  py_slice_to mx salt.

Definition size_message (cls : class) (which : string) (exact : bool)
           (loose : string) (size : Z) : string :=
  "salt too " ++ which ++ " (" ++ name cls ++ " requires "
  ++ (if exact then "exactly" else loose) ++ " " ++ str_of_int size ++ " "
  ++ _salt_unit cls ++ ")".

(** The first steps of [_norm_salt]: the check of the type and, for a
    text salt, of the characters. *)
Definition check_type_and_chars (cls : class) (salt : pyval) (relaxed : bool)
  : result pyval :=
  if _salt_is_bytes cls then
    match salt with
    | PyBytes _ => Ok salt
    | _ => Raise (exc.ExpectedTypeError salt "bytes" "salt")
    end
  else
    s <- match salt with
         | PyStr s => Ok s
         | PyBytes b =>
             if relaxed then decode_ascii b
             else Raise (exc.ExpectedTypeError salt "str" "salt")
         | _ => Raise (exc.ExpectedTypeError salt "str" "salt")
         end ;;
    match salt_chars cls with
    | Some sc =>
        if any_not_in sc s
        then Raise (ValueError ("invalid characters in " ++ name cls
                                ++ " salt"))
        else Ok (PyStr s)
    | None => Ok (PyStr s)
    end.

(** [_norm_salt(salt, relaxed)]: the warnings issued and the outcome. *)
Definition _norm_salt (cls : class) (salt : pyval) (relaxed : bool)
  : list warning * result pyval :=
  match check_type_and_chars cls salt relaxed with
  | Raise e => ([], Raise e)
  | Ok salt =>
      let mn := min_salt_size cls in
      if negb (mn =? 0) && (py_len salt <? mn)
      then ([], Raise (ValueError
                         (size_message cls "small"
                            (same_size mn (max_salt_size cls)) ">=" mn)))
      else
        match bound_given (max_salt_size cls) with
        | Some mx =>
            if py_len salt >? mx then
              let msg := size_message cls "large" (mx =? mn) "<=" mx in
              if relaxed
              then ([PasslibHashWarning msg], Ok (_truncate_salt salt mx))
              else ([], Raise (ValueError msg))
            else ([], Ok salt)
        | None => ([], Ok salt)
        end
  end.

(** [_clip_to_valid_salt_size(salt_size, param, relaxed)] *)
Definition _clip_to_valid_salt_size (cls : class) (salt_size : Z)
           (param : string) (relaxed : bool) : list warning * result Z :=
  let mn := min_salt_size cls in
  if same_size mn (max_salt_size cls) then
    if negb (salt_size =? mn) then
      let msg := name cls ++ ": " ++ param ++ " (" ++ str_of_int salt_size
                 ++ ") must be exactly " ++ str_of_int mn in
      if relaxed then ([PasslibHashWarning msg], Ok mn)
      else ([], Raise (ValueError msg))
    else ([], Ok mn)
  else
    let low :=
      if salt_size <? mn then
        let msg := name cls ++ ": " ++ param ++ " (" ++ str_of_int salt_size
                   ++ ") below min_salt_size (" ++ str_of_int mn ++ ")" in
        if relaxed then ([PasslibHashWarning msg], Ok mn)
        else ([], Raise (ValueError msg))
      else ([], Ok salt_size) in
    match low with
    | (ws, Raise e) => (ws, Raise e)
    | (ws, Ok size) =>
        match bound_given (max_salt_size cls) with
        | Some mx =>
            if size >? mx then
              let msg := name cls ++ ": " ++ param ++ " (" ++ str_of_int size
                         ++ ") above max_salt_size (" ++ str_of_int mx ++ ")" in
              if relaxed then ((ws ++ [PasslibHashWarning msg])%list, Ok mx)
              else (ws, Raise (ValueError msg))
            else (ws, Ok size)
        | None => (ws, Ok size)
        end
    end.

End HasSalt.

(** ** HasManyIdents *)

Module HasManyIdents.

(** [ident_aliases] is a dictionary: its keys are distinct. *)
Record class : Type := {
  name : string;
  ident_values : list string;
  ident_aliases : option (list (string * string))
}.

(** [value in iv] *)
Definition is_ident_value (cls : class) (value : string) : bool :=
  existsb (String.eqb value) (ident_values cls).

(** [ia[ident]], [None] for the [KeyError]. *)
Definition alias_of (cls : class) (ident : string) : option string :=
  match ident_aliases cls with
  | Some ia =>
      match find (fun kv => String.eqb ident (fst kv)) ia with
      | Some kv => Some (snd kv)
      | None => None
      end
  | None => None
  end.

(** [_norm_ident(ident)]; its [assert ident is not None] is an
    [AssertionError]. *)
Definition _norm_ident (cls : class) (ident : pyval) : result string :=
  ident <- match ident with
           | PyNone => Raise (AssertionError "")
           | PyBytes b => s <- decode_ascii b ;; Ok (PyStr s)
           | _ => Ok ident
           end ;;
  match ident with
  | PyStr s =>
      if is_ident_value cls s then Ok s
      else match alias_of cls s with
           | Some value =>
               if is_ident_value cls value then Ok value
               else Raise (ValueError ("invalid ident: " ++ py_repr ident))
           | None => Raise (ValueError ("invalid ident: " ++ py_repr ident))
           end
  | _ => Raise (ValueError ("invalid ident: " ++ py_repr ident))
  end.

Section methods.

Variable to_unicode : pyval -> string -> string -> result string.
Variable decode_utf8 : list byte -> option string.

(** [hash.startswith(cls.ident_values)] *)
Definition identify (cls : class) (hash : pyval) : result bool :=
  hash <- to_unicode_for_identify decode_utf8 hash ;;
  Ok (existsb (startswith hash) (ident_values cls)).

(** The loop of [_parse_ident] over the identifiers. *)
Fixpoint first_ident (hash : string) (idents : list string)
  : option (string * string) :=
  match idents with
  | [] => None
  | ident :: rest =>
      if startswith hash ident
      then Some (ident, slice_from (String.length ident) hash)
      else first_ident hash rest
  end.

Definition _parse_ident (cls : class) (hash : pyval)
  : result (string * string) :=
  hash <- to_unicode hash "ascii" "hash" ;;
  match first_ident hash (ident_values cls) with
  | Some found => Ok found
  | None => Raise (exc.InvalidHashError (Some (name cls)))
  end.

End methods.

End HasManyIdents.

(** ** GenericHandler: configuration strings *)

Module GenConfig.

Section methods.

Context {S Rng : Type}.
Variable MAX_PASSWORD_SIZE : Z.

(** [self._stub_checksum].  [at_min_rounds] is given for a handler that
    derives from [HasRounds]: the settings with [rounds] set to
    [min_rounds or 1], under which the checksum of the empty secret is
    computed. *)
Definition _stub_checksum (cls : GenericHandler.class S Rng)
           (at_min_rounds : option (S -> S))
           (self : GenericHandler.instance S) : result pyval :=
  let attrs := GenericHandler.attrs cls in
  let fixed : option pyval :=
    match bound_given (GenericHandler.checksum_size attrs) with
    | Some size =>
        if GenericHandler._checksum_is_bytes attrs
        then Some (PyBytes (repeat x00 (Z.to_nat size)))
        else match GenericHandler.checksum_chars attrs with
             | Some (String c _) =>
                 Some (PyStr (repeat_char c (Z.to_nat size)))
             | _ => None
             end
    | None => None
    end in
  match fixed with
  | Some stub => Ok stub
  | None =>
      match at_min_rounds with
      | Some lower =>
          GenericHandler._calc_checksum cls
            {| GenericHandler.settings :=
                 lower (GenericHandler.settings self);
               GenericHandler.checksum := GenericHandler.checksum self;
               GenericHandler.use_defaults :=
                 GenericHandler.use_defaults self |} (PyStr "")
      | None => GenericHandler._calc_checksum cls self (PyStr "")
      end
  end.

(** [genhash(secret, config, context)] (the deprecation warning of its
    decorator is not recorded). *)
Definition genhash (cls : GenericHandler.class S Rng)
           (secret config : pyval) (context : kwds) : result string :=
  match config with
  | PyNone => Raise (TypeError "config must be string")
  | _ =>
      _ <- validate_secret MAX_PASSWORD_SIZE secret ;;
      self <- GenericHandler.from_string cls config context ;;
      chk <- GenericHandler._calc_checksum cls self secret ;;
      GenericHandler.to_string cls
        {| GenericHandler.settings := GenericHandler.settings self;
           GenericHandler.checksum := Some chk;
           GenericHandler.use_defaults := GenericHandler.use_defaults self |}
  end.

End methods.

End GenConfig.

(** ** BackendMixin: the other entry points *)

Module Backends.

(** [return cls.__backend] *)
Definition active_backend (st : BackendMixin.state)
  : BackendMixin.state * result string :=
  match BackendMixin.__backend st with
  | Some active => (st, Ok active)
  | None => (st, Raise (AssertionError "no active backend"))
  end.

(** [get_backend()] *)
Definition get_backend (fuel : nat) (cls : BackendMixin.class)
           (st : BackendMixin.state) : BackendMixin.state * result string :=
  if negb (BackendMixin.loaded st) then
    match BackendMixin.set_backend fuel cls "any" false st with
    | (st', Raise err) => (st', Raise err)
    | (st', Ok _) =>
        if BackendMixin.loaded st' then active_backend st'
        else (st', Raise (AssertionError
                            "set_backend() failed to load a default backend"))
    end
  else active_backend st.

(** [has_backend(name)] *)
Definition has_backend (fuel : nat) (cls : BackendMixin.class)
           (name : string) (st : BackendMixin.state)
  : BackendMixin.state * result bool :=
  match BackendMixin.set_backend fuel cls name true st with
  | (st', Ok _) => (st', Ok true)
  | (st', Raise (MissingBackendError _)) => (st', Ok false)
  | (st', Raise (PasslibSecurityError _)) => (st', Ok false)
  | (st', Raise err) => (st', Raise err)
  end.

End Backends.

(** ** PrefixWrapper: construction, hash and verify *)

Module Wrapper.

(** The handling of [ident] in [PrefixWrapper.__init__]: what is stored
    in [_ident], [None] when no [ident] was passed. *)
Definition init_ident (prefix : string) (ident : pyval)
  : result (option string) :=
  match ident with
  | PyNone => Ok None
  | _ =>
      ident <- match ident with
               | PyBool true =>
                   if truthy prefix then Ok (PyStr prefix)
                   else Raise (ValueError "no prefix specified")
               | _ => Ok ident
               end ;;
      ident <- match ident with
               | PyStr s => Ok s
               | PyBytes b => decode_ascii b
               | _ => Raise (TypeError ("'" ++ class_name ident
                                        ++ "' object is not subscriptable"))
               end ;;
      if negb (String.eqb (slice_to (String.length prefix) ident)
                 (slice_to (String.length ident) prefix))
      then Raise (ValueError "ident must agree with prefix")
      else Ok (Some ident)
  end.

Section methods.

Variable to_unicode : pyval -> string -> string -> result string.

(** [wrapped_hash] and [wrapped_verify] are the methods of the wrapped
    handler. *)
Variable wrapped_hash : pyval -> kwds -> result string.
Variable wrapped_verify : pyval -> pyval -> kwds -> result bool.

Definition hash (self : PrefixWrapper.class) (secret : pyval) (kw : kwds)
  : result string :=
  h <- wrapped_hash secret kw ;;
  PrefixWrapper._wrap_hash self (PyStr h).

Definition verify (self : PrefixWrapper.class) (secret hash : pyval)
           (kw : kwds) : result bool :=
  hash <- to_unicode hash "ascii" "hash" ;;
  hash <- PrefixWrapper._unwrap_hash self hash ;;
  wrapped_verify secret (PyStr hash) kw.

End methods.

End Wrapper.

(** ** passlib/handlers/windows.py *)

Module windows.

(** [str.lower] within the 8-bit range: the ASCII capitals, and the
    capitals from U+00C0 to U+00DE other than the multiplication sign. *)
Definition lower_char (c : ascii) : ascii :=
  let n := nat_of_ascii c in
  if ((Nat.leb 65 n && Nat.leb n 90)
      || (Nat.leb 192 n && Nat.leb n 222 && negb (Nat.eqb n 215)))%bool
  then ascii_of_nat (n + 32)
  else c.

Fixpoint lower (s : string) : string :=
  match s with
  | EmptyString => EmptyString
  | String c s' => String (lower_char c) (lower s')
  end.

(** The attributes of a static handler without context keywords whose
    checksum is 32 characters of [HEX_CHARS], as [nthash] declares them;
    [HEX_CHARS] is imported from [passlib.utils.binary], which is not part
    of these sources. *)
Definition hex32 (HEX_CHARS : string) (name : string)
  : GenericHandler.attributes :=
  {| GenericHandler.name := name;
     GenericHandler.context_kwds := [];
     GenericHandler.ident := None;
     GenericHandler._hash_regex := None;
     GenericHandler.checksum_size := Some 32;
     GenericHandler.checksum_chars := Some HEX_CHARS;
     GenericHandler._checksum_is_bytes := false |}.

(** [nthash]: a static handler without prefix whose [_norm_hash] lowers
    the case; [digest] is its [_calc_checksum], the hexadecimal writing of
    the MD4 digest, which lies outside this development. *)
Definition nthash (HEX_CHARS : string) (digest : pyval -> result pyval)
  : StaticHandler.class unit :=
  {| StaticHandler.attrs := hex32 HEX_CHARS "nthash";
     StaticHandler._hash_prefix := "";
     StaticHandler._norm_hash := lower;
     StaticHandler.init_context := fun _ => Ok tt;
     StaticHandler._calc_checksum := fun _ secret => digest secret |}.

End windows.

(** ** Further sample handlers *)

Module MoreSamples.

(** A handler whose salt is a text of two to four of the letters a, b
    and c. *)
Definition salted : HasSalt.class :=
  {| HasSalt.name := "sample";
     HasSalt.min_salt_size := 2;
     HasSalt.max_salt_size := Some 4;
     HasSalt.salt_chars := Some "abc";
     HasSalt._salt_is_bytes := false;
     HasSalt._salt_unit := "chars" |}.

(** The identifiers and aliases that [bcrypt] declares. *)
Definition many_idents : HasManyIdents.class :=
  {| HasManyIdents.name := "bcrypt";
     HasManyIdents.ident_values := ["$2$"; "$2a$"; "$2x$"; "$2y$"; "$2b$"];
     HasManyIdents.ident_aliases :=
       Some [("2", "$2$"); ("2a", "$2a$"); ("2y", "$2y$"); ("2b", "$2b$")] |}.

(** A text of one character outside ASCII, U+00E9. *)
Definition e_acute : string := String (ascii_of_nat 233) EmptyString.

(** A secret of 4097 characters. *)
Definition long_secret : pyval := PyStr (repeat_char "a" 4097).

(** A static handler whose [_calc_checksum], as that of [lmhash] in
    passlib/handlers/windows.py, checks the truncation policy when
    [use_defaults] is set and not otherwise; [truncate_error] is set,
    [truncate_size] is 14, and the checksum is the text of the secret. *)
Definition truncating : StaticHandler.class unit :=
  {| StaticHandler.attrs :=
       {| GenericHandler.name := "truncating";
          GenericHandler.context_kwds := [];
          GenericHandler.ident := None;
          GenericHandler._hash_regex := None;
          GenericHandler.checksum_size := None;
          GenericHandler.checksum_chars := None;
          GenericHandler._checksum_is_bytes := false |};
     StaticHandler._hash_prefix := "";
     StaticHandler._norm_hash := fun h => h;
     StaticHandler.init_context := fun _ => Ok tt;
     StaticHandler._calc_checksum :=
       fun self secret =>
         _ <- (if GenericHandler.use_defaults self
                  && (py_len secret >? 14)
               then Raise (PasswordSizeError 14
                             "Password too long (truncating truncates to 14 characters)")
               else Ok tt) ;;
         s <- Samples.to_unicode secret "utf-8" "secret" ;;
         Ok (PyStr s) |}.

(** A state in which the refused backend of [Samples.no_safe_backend] is
    the active one. *)
Definition native_active : BackendMixin.state :=
  {| BackendMixin.__backend := Some "native";
     BackendMixin._pending_backend := None;
     BackendMixin._pending_dry_run := false |}.

End MoreSamples.

(** * Properties *)

(** ** Text *)

Lemma startswith_app (p s : string) : startswith (p ++ s) p = true.
Proof.
  induction p as [|a p IH]; simpl; [reflexivity|].
  now rewrite Ascii.eqb_refl, IH.
Qed.

Lemma slice_from_app (p s : string) :
  slice_from (String.length p) (p ++ s) = s.
Proof. induction p as [|a p IH]; simpl; auto. Qed.

Lemma startswith_slice (h p : string) :
  startswith h p = true -> p ++ slice_from (String.length p) h = h.
Proof.
  revert h; induction p as [|a p IH]; intros h H; simpl in *; [reflexivity|].
  destruct h as [|b h]; [discriminate|].
  apply andb_prop in H as [Hab Hp].
  apply Ascii.eqb_eq in Hab; subst b.
  now rewrite IH.
Qed.

Lemma length_app (a b : string) :
  String.length (a ++ b) = (String.length a + String.length b)%nat.
Proof. induction a as [|x a IH]; simpl; [reflexivity | now rewrite IH]. Qed.

(** ** Splitting on a one-character separator *)

Section split_char.

Variable d : ascii.

Local Abbreviation sep := (String d "").

Lemma split_go_cons (c : ascii) (s : string) :
  split_go sep 0 (String c s) =
  if Ascii.eqb d c then "" :: split_go sep 0 s
  else match split_go sep 0 s with
       | f :: fs => String c f :: fs
       | [] => [String c ""]
       end.
Proof.
  simpl.
  destruct (Ascii.eqb d c); reflexivity.
Qed.

Lemma split_go_not_nil (s : string) : split_go sep 0 s <> [].
Proof.
  induction s as [|c s IH]; [discriminate|].
  rewrite split_go_cons.
  destruct (Ascii.eqb d c); [discriminate|].
  destruct (split_go sep 0 s); discriminate.
Qed.

(** A text without the separator is a single field. *)
Lemma split_go_single (a : string) :
  contains a d = false -> split_go sep 0 a = [a].
Proof.
  induction a as [|c a IH]; intros H; [reflexivity|].
  simpl in H. apply orb_false_elim in H as [Hc Ha].
  rewrite split_go_cons, Hc, (IH Ha). reflexivity.
Qed.

(** The first field ends at the first separator. *)
Lemma split_go_field (a rest : string) :
  contains a d = false ->
  split_go sep 0 (a ++ String d rest) = a :: split_go sep 0 rest.
Proof.
  induction a as [|c a IH]; intros H.
  - cbn [append]. rewrite split_go_cons, Ascii.eqb_refl. reflexivity.
  - simpl in H. apply orb_false_elim in H as [Hc Ha].
    cbn [append]. rewrite split_go_cons, Hc, (IH Ha). reflexivity.
Qed.

(** Joining the fields gives the text back. *)
Lemma join_split_go (s : string) : join sep (split_go sep 0 s) = s.
Proof.
  induction s as [|c s IH]; [reflexivity|].
  rewrite split_go_cons.
  destruct (Ascii.eqb d c) eqn:E.
  - apply Ascii.eqb_eq in E; subst c.
    pose proof (split_go_not_nil s) as Hn.
    destruct (split_go sep 0 s) as [|f fs] eqn:Es; [congruence|].
    change (join sep ("" :: f :: fs)) with ("" ++ sep ++ join sep (f :: fs)).
    rewrite IH. reflexivity.
  - pose proof (split_go_not_nil s) as Hn.
    destruct (split_go sep 0 s) as [|f fs] eqn:Es; [congruence|].
    destruct fs as [|g gs].
    + simpl in *. now rewrite IH.
    + change (join sep (String c f :: g :: gs))
        with (String c (f ++ sep ++ join sep (g :: gs))).
      change (join sep (f :: g :: gs))
        with (f ++ sep ++ join sep (g :: gs)) in IH.
      now rewrite IH.
Qed.

(** No field contains the separator. *)
Lemma split_go_fields_clean (s : string) :
  Forall (fun f => contains f d = false) (split_go sep 0 s).
Proof.
  induction s as [|c s IH]; [repeat constructor|].
  rewrite split_go_cons.
  destruct (Ascii.eqb d c) eqn:E.
  - constructor; [reflexivity | exact IH].
  - destruct (split_go sep 0 s) as [|f fs].
    + repeat constructor. simpl. now rewrite E.
    + inversion IH; subst. constructor; [|assumption].
      simpl. now rewrite E.
Qed.

End split_char.

(** ** Integers as text *)

Lemma digit_cases (P : Z -> bool) :
  forallb P (map Z.of_nat (seq 0 36)) = true ->
  forall d, 0 <= d < 36 -> P d = true.
Proof.
  intros H d Hd. rewrite forallb_forall in H. apply H.
  replace d with (Z.of_nat (Z.to_nat d)) by lia.
  apply in_map, in_seq. lia.
Qed.

Lemma digit_val_char (d : Z) :
  0 <= d < 36 -> digit_val (digit_char d) = Some d.
Proof.
  intros Hd.
  assert (Hall : forallb (fun d => match digit_val (digit_char d) with
                                   | Some d' => d' =? d
                                   | None => false
                                   end) (map Z.of_nat (seq 0 36)) = true)
    by (vm_compute; reflexivity).
  pose proof (digit_cases _ Hall d Hd) as H. cbv beta in H.
  destruct (digit_val (digit_char d)); [|discriminate].
  apply Z.eqb_eq in H. now subst.
Qed.

(** A digit is none of the characters that [int] and [split] treat
    specially. *)
Lemma digit_char_plain (d : Z) :
  0 <= d < 36 ->
  Ascii.eqb (digit_char d) "_" = false /\
  Ascii.eqb (digit_char d) "+" = false /\
  Ascii.eqb (digit_char d) "-" = false /\
  Ascii.eqb "$" (digit_char d) = false /\
  is_space (digit_char d) = false.
Proof.
  intros Hd.
  assert (Hall : forallb (fun d =>
            negb (Ascii.eqb (digit_char d) "_")
            && negb (Ascii.eqb (digit_char d) "+")
            && negb (Ascii.eqb (digit_char d) "-")
            && negb (Ascii.eqb "$" (digit_char d))
            && negb (is_space (digit_char d)))
          (map Z.of_nat (seq 0 36)) = true)
    by (vm_compute; reflexivity).
  pose proof (digit_cases _ Hall d Hd) as H. cbv beta in H.
  repeat (apply andb_prop in H as [H ?]).
  repeat split; now apply negb_true_iff.
Qed.

Lemma digit_char_nonzero (d : Z) :
  1 <= d < 36 -> Ascii.eqb (digit_char d) "0" = false.
Proof.
  intros Hd.
  assert (Hall : forallb (fun d => (d =? 0)
                                   || negb (Ascii.eqb (digit_char d) "0"))
                   (map Z.of_nat (seq 0 36)) = true)
    by (vm_compute; reflexivity).
  assert (Hr : 0 <= d < 36) by lia.
  pose proof (digit_cases _ Hall d Hr) as H. cbv beta in H.
  apply orb_prop in H as [H|H]; [apply Z.eqb_eq in H; lia|].
  now apply negb_true_iff.
Qed.

Section digits.

Variable base : Z.
Hypothesis base_range : 2 <= base <= 36.

Lemma to_digits_digit_string (fuel : nat) (n : Z) (acc : string) :
  digit_string base acc -> digit_string base (to_digits fuel base n acc).
Proof.
  revert n acc; induction fuel as [|f IH]; intros n acc Hacc; simpl; auto.
  assert (Hd : digit_string base (String (digit_char (n mod base)) acc)).
  { split; [|assumption]. exists (n mod base). split; [|reflexivity].
    apply Z.mod_pos_bound. lia. }
  destruct (n <? base); [exact Hd | now apply IH].
Qed.

Lemma digit_string_lstrip (s : string) :
  digit_string base s -> lstrip s = s.
Proof.
  destruct s as [|c s]; simpl; [reflexivity|].
  intros [(d & Hd & ->) _].
  assert (Hr : 0 <= d < 36) by lia.
  destruct (digit_char_plain d Hr) as (_ & _ & _ & _ & Hs).
  now rewrite Hs.
Qed.

Lemma digit_string_rstrip (s : string) :
  digit_string base s -> rstrip s = s.
Proof.
  induction s as [|c s IH]; simpl; [reflexivity|].
  intros [(d & Hd & ->) Hs].
  assert (Hr : 0 <= d < 36) by lia.
  destruct (digit_char_plain d Hr) as (_ & _ & _ & _ & Hsp).
  now rewrite Hsp, (IH Hs).
Qed.

Lemma digit_string_no_dollar (s : string) :
  digit_string base s -> contains s "$" = false.
Proof.
  induction s as [|c s IH]; cbn [contains digit_string]; [reflexivity|].
  intros [(d & Hd & ->) Hs].
  assert (Hr : 0 <= d < 36) by lia.
  destruct (digit_char_plain d Hr) as (_ & _ & _ & Hdl & _).
  now rewrite Hdl, (IH Hs).
Qed.

(** Reading back the digits that [to_digits] wrote. *)
Lemma parse_to_digits (fuel : nat) :
  forall n acc a prev,
    fuel <> O -> 0 <= n < 2 ^ Z.of_nat fuel ->
    exists a',
      parse_digits base (to_digits fuel base n acc) a prev
      = parse_digits base acc a' true
      /\ (a = 0 -> a' = n).
Proof.
  induction fuel as [|f IH]; intros n acc a prev Hf Hn; [congruence|].
  assert (Hm : 0 <= n mod base < base) by (apply Z.mod_pos_bound; lia).
  assert (Hr : 0 <= n mod base < 36) by lia.
  destruct (digit_char_plain _ Hr) as (Hu & _).
  assert (Hstep : forall s a0 p0,
             parse_digits base (String (digit_char (n mod base)) s) a0 p0
             = parse_digits base s (a0 * base + n mod base) true).
  { intros s a0 p0. simpl. rewrite Hu, (digit_val_char _ Hr).
    destruct (Z.ltb_spec (n mod base) base); [reflexivity | lia]. }
  simpl. destruct (Z.ltb_spec n base) as [Hlt|Hge].
  - rewrite Hstep. eexists; split; [reflexivity|].
    intros ->. rewrite Z.mod_small by lia. lia.
  - assert (Hq : 0 < n / base) by (apply Z.div_str_pos; lia).
    assert (Hq2 : n / base < 2 ^ Z.of_nat f).
    { apply Z.div_lt_upper_bound; [lia|].
      rewrite Nat2Z.inj_succ, Z.pow_succ_r in Hn by lia.
      nia. }
    assert (Hf' : f <> O).
    { intros ->. simpl in Hq2. lia. }
    destruct (IH (n / base) (String (digit_char (n mod base)) acc) a prev Hf')
      as (a'' & Heq & Ha''); [lia|].
    rewrite Heq, Hstep. eexists; split; [reflexivity|].
    intros Ha. rewrite (Ha'' Ha).
    rewrite (Z.div_mod n base) at 3 by lia. lia.
Qed.

(** A positive number starts with a digit other than 0. *)
Lemma to_digits_head (fuel : nat) :
  forall n acc,
    fuel <> O -> 0 < n < 2 ^ Z.of_nat fuel ->
    exists d rest,
      1 <= d < base /\
      to_digits fuel base n acc = String (digit_char d) rest.
Proof.
  induction fuel as [|f IH]; intros n acc Hf Hn; [congruence|].
  simpl. destruct (Z.ltb_spec n base) as [Hlt|Hge].
  - exists (n mod base), acc. rewrite Z.mod_small by lia. split; [lia|].
    reflexivity.
  - assert (Hq : 0 < n / base) by (apply Z.div_str_pos; lia).
    assert (Hq2 : n / base < 2 ^ Z.of_nat f).
    { apply Z.div_lt_upper_bound; [lia|].
      rewrite Nat2Z.inj_succ, Z.pow_succ_r in Hn by lia.
      nia. }
    assert (Hf' : f <> O).
    { intros ->. simpl in Hq2. lia. }
    apply IH; [assumption | lia].
Qed.

Lemma log2_fuel (m : Z) :
  0 <= m -> 0 <= m < 2 ^ Z.of_nat (S (Z.to_nat (Z.log2 m))).
Proof.
  intros Hm. split; [assumption|].
  rewrite Nat2Z.inj_succ, Z2Nat.id by apply Z.log2_nonneg.
  destruct (Z.eq_dec m 0) as [->|Hne]; [reflexivity|].
  apply Z.log2_spec. lia.
Qed.

(** The digits of a non-negative number: what they are made of and what
    [int] reads in them. *)
Lemma natural_digits (m : Z) :
  0 <= m ->
  let ds := to_digits (S (Z.to_nat (Z.log2 m))) base m "" in
  digit_string base ds
  /\ parse_digits base ds 0 false = Some m
  /\ (exists c rest, ds = String c rest
                     /\ Ascii.eqb c "+" = false /\ Ascii.eqb c "-" = false
                     /\ (Ascii.eqb c "0" = false \/ rest = "")).
Proof.
  intros Hm ds.
  assert (Hfuel := log2_fuel m Hm).
  split; [now apply to_digits_digit_string|].
  split.
  - destruct (parse_to_digits (S (Z.to_nat (Z.log2 m))) m "" 0 false
                (Nat.neq_succ_0 _) Hfuel) as (a' & Heq & Ha').
    unfold ds. rewrite Heq, (Ha' eq_refl). reflexivity.
  - destruct (Z.eq_dec m 0) as [->|Hne].
    + exists "0"%char, "". repeat split; auto.
      unfold ds. simpl.
      destruct (Z.ltb_spec 0 base); [|lia].
      rewrite Z.mod_0_l by lia. reflexivity.
    + destruct (to_digits_head (S (Z.to_nat (Z.log2 m))) m ""
                  (Nat.neq_succ_0 _)) as (d & rest & Hd & Heq); [lia|].
      exists (digit_char d), rest.
      assert (Hr : 0 <= d < 36) by lia.
      destruct (digit_char_plain d Hr) as (_ & Hp & Hmi & _).
      repeat split; auto.
      left. apply digit_char_nonzero. lia.
Qed.

Lemma skip_base_prefix_plain (c : ascii) (rest : string) :
  Ascii.eqb c "0" = false \/ rest = "" ->
  skip_base_prefix base (String c rest) = String c rest.
Proof.
  intros [H| ->]; simpl; [|reflexivity].
  destruct rest; [reflexivity|]. now rewrite H.
Qed.

(** [int] reads back what [str] and [%x] write. *)
Lemma int_literal_format_int (n : Z) :
  int_literal (format_int base n) base = Some n.
Proof.
  unfold format_int.
  destruct (natural_digits (Z.abs n) (Z.abs_nonneg n))
    as (Hds & Hparse & c & rest & Heq & Hplus & Hminus & Hzero).
  set (ds := to_digits _ base (Z.abs n) "") in *.
  assert (Hb0 : (base =? 0) = false) by (apply Z.eqb_neq; lia).
  unfold int_literal.
  destruct (Z.ltb_spec n 0) as [Hneg|Hpos].
  - replace (rstrip (lstrip (String "-" ds))) with (String "-" ds).
    2:{ simpl. now rewrite (digit_string_rstrip _ Hds). }
    simpl split_sign. rewrite Hb0, Heq, (skip_base_prefix_plain _ _ Hzero).
    rewrite <- Heq, Hparse. simpl. f_equal. lia.
  - rewrite (digit_string_lstrip _ Hds), (digit_string_rstrip _ Hds).
    rewrite Heq. unfold split_sign. rewrite Hplus, Hminus, Hb0.
    rewrite (skip_base_prefix_plain _ _ Hzero), <- Heq, Hparse.
    simpl. f_equal. lia.
Qed.

Lemma int_of_str_format_int (n : Z) :
  int_of_str (format_int base n) base = Ok n.
Proof.
  unfold int_of_str. rewrite int_literal_format_int.
  destruct (Z.leb_spec 2 base); [|lia].
  destruct (Z.leb_spec base 36); [|lia].
  now rewrite orb_true_r.
Qed.

(** The written number is not empty, not zero-padded, and holds no
    separator. *)
Lemma format_int_shape (n : Z) :
  truthy (format_int base n) = true
  /\ startswith (format_int base n) _UZERO
     && negb (String.eqb (format_int base n) _UZERO) = false
  /\ contains (format_int base n) "$" = false.
Proof.
  unfold format_int.
  destruct (natural_digits (Z.abs n) (Z.abs_nonneg n))
    as (Hds & _ & c & rest & Heq & _ & _ & Hzero).
  set (ds := to_digits _ base (Z.abs n) "") in *.
  destruct (n <? 0).
  - repeat split; try reflexivity.
    simpl. now apply digit_string_no_dollar.
  - rewrite Heq. split; [reflexivity|]. split.
    + unfold _UZERO. cbn [startswith].
      destruct (Ascii.eqb_spec "0" c) as [<-|Hne]; [|reflexivity].
      destruct Hzero as [Hz| ->]; [discriminate Hz | reflexivity].
    + rewrite <- Heq. now apply digit_string_no_dollar.
Qed.

End digits.

(** ** The MCF codec *)

Lemma raise_inj {A : Type} (e e' : exn) : @Raise A e = Raise e' -> e = e'.
Proof. intros H. now inversion H. Qed.

(** The two kinds of hash-format error never carry the same message. *)
Lemma invalid_is_not_malformed (handler handler' : option string)
      (reason : option string) :
  exc.InvalidHashError handler <> exc.MalformedHashError handler' reason.
Proof.
  unfold exc.InvalidHashError, exc.MalformedHashError.
  destruct reason as [r|]; [destruct (truthy r)|]; cbn [append]; discriminate.
Qed.

Lemma invalid_is_not_int_error (handler : option string) (s : string)
      (base : Z) :
  int_of_str s base <> Raise (exc.InvalidHashError handler).
Proof.
  unfold int_of_str, exc.InvalidHashError.
  destruct ((base =? 0) || ((2 <=? base) && (base <=? 36)));
    [destruct (int_literal s base)|]; cbn [append]; discriminate.
Qed.

Section mcf.

Variable to_unicode : pyval -> string -> string -> result string.
Hypothesis to_unicode_text :
  forall s encoding param, to_unicode (PyStr s) encoding param = Ok s.

Lemma parse_mc2_with_prefix (h prefix sep : string) (handler : option string) :
  startswith h prefix = true ->
  parse_mc2 to_unicode (PyStr h) prefix sep handler =
  (parts <- split (slice_from (String.length prefix) h) sep ;;
   match parts with
   | [salt; chk] => Ok (salt, or_None chk)
   | [salt] => Ok (salt, None)
   | _ => Raise (exc.MalformedHashError handler None)
   end).
Proof.
  intros H. unfold parse_mc2. rewrite to_unicode_text. cbn [bind].
  now rewrite H.
Qed.

Lemma parse_mc2_without_prefix (h prefix sep : string)
      (handler : option string) :
  startswith h prefix = false ->
  parse_mc2 to_unicode (PyStr h) prefix sep handler
  = Raise (exc.InvalidHashError handler).
Proof.
  intros H. unfold parse_mc2. rewrite to_unicode_text. cbn [bind].
  now rewrite H.
Qed.

Lemma parse_mc3_with_prefix (h prefix sep : string) (rounds_base : Z)
      (default_rounds : option Z) (handler : option string) :
  startswith h prefix = true ->
  parse_mc3 to_unicode (PyStr h) prefix sep rounds_base default_rounds handler =
  (parts <- split (slice_from (String.length prefix) h) sep ;;
   match parts with
   | [rounds; salt; chk] =>
       n <- rounds_field_value rounds rounds_base default_rounds handler ;;
       Ok (n, salt, or_None chk)
   | [rounds; salt] =>
       n <- rounds_field_value rounds rounds_base default_rounds handler ;;
       Ok (n, salt, None)
   | _ => Raise (exc.MalformedHashError handler None)
   end).
Proof.
  intros H. unfold parse_mc3. rewrite to_unicode_text. cbn [bind].
  rewrite H. cbn [negb].
  destruct (split (slice_from (String.length prefix) h) sep) as [parts|e];
    [|reflexivity].
  cbn [bind].
  destruct parts as [|r [|s [|c [|x parts]]]]; reflexivity.
Qed.

Lemma parse_mc3_without_prefix (h prefix sep : string) (rounds_base : Z)
      (default_rounds : option Z) (handler : option string) :
  startswith h prefix = false ->
  parse_mc3 to_unicode (PyStr h) prefix sep rounds_base default_rounds handler
  = Raise (exc.InvalidHashError handler).
Proof.
  intros H. unfold parse_mc3. rewrite to_unicode_text. cbn [bind].
  now rewrite H.
Qed.

End mcf.

Section mcf_claims.

Variable to_unicode : pyval -> string -> string -> result string.
Hypothesis to_unicode_text :
  forall s encoding param, to_unicode (PyStr s) encoding param = Ok s.

Lemma rounds_field_not_invalid (rounds : string) (rounds_base : Z)
      (default_rounds : option Z) (handler : option string) :
  rounds_field_value rounds rounds_base default_rounds handler
  <> Raise (exc.InvalidHashError handler).
Proof.
  unfold rounds_field_value, exc.ZeroPaddedRoundsError.
  destruct (startswith rounds _UZERO && negb (String.eqb rounds _UZERO)).
  - intros H. apply raise_inj in H. symmetry in H.
    now apply invalid_is_not_malformed in H.
  - destruct (truthy rounds); [apply invalid_is_not_int_error|].
    destruct default_rounds; [discriminate|].
    intros H. apply raise_inj in H. symmetry in H.
    now apply invalid_is_not_malformed in H.
Qed.

Lemma split_not_invalid (s sep : string) (handler : option string) :
  split s sep <> Raise (exc.InvalidHashError handler).
Proof. unfold split. destruct sep; discriminate. Qed.

(** C7: [parse_mc2] and [parse_mc3] raise the invalid-hash error
    exactly when the text lacks the prefix; with the prefix present and
    a number of fields other than 1 or 2 ([parse_mc2]), 2 or 3
    ([parse_mc3]), they raise the malformed-hash error; the two errors
    differ, whatever the handler and the reason. *)
Theorem hash_format_errors (h prefix sep : string) (handler : option string)
        (rounds_base : Z) (default_rounds : option Z) :
  (parse_mc2 to_unicode (PyStr h) prefix sep handler
   = Raise (exc.InvalidHashError handler)
   <-> startswith h prefix = false)
  /\ (parse_mc3 to_unicode (PyStr h) prefix sep rounds_base default_rounds
        handler
      = Raise (exc.InvalidHashError handler)
      <-> startswith h prefix = false)
  /\ (forall parts,
         startswith h prefix = true ->
         split (slice_from (String.length prefix) h) sep = Ok parts ->
         List.length parts <> 1%nat -> List.length parts <> 2%nat ->
         parse_mc2 to_unicode (PyStr h) prefix sep handler
         = Raise (exc.MalformedHashError handler None))
  /\ (forall parts,
         startswith h prefix = true ->
         split (slice_from (String.length prefix) h) sep = Ok parts ->
         List.length parts <> 2%nat -> List.length parts <> 3%nat ->
         parse_mc3 to_unicode (PyStr h) prefix sep rounds_base
           default_rounds handler
         = Raise (exc.MalformedHashError handler None))
  /\ (forall handler' reason,
         exc.InvalidHashError handler
         <> exc.MalformedHashError handler' reason).
Proof.
  split; [|split; [|split; [|split]]].
  - split; [|now apply parse_mc2_without_prefix].
    intros H. destruct (startswith h prefix) eqn:E; [exfalso|reflexivity].
    rewrite (parse_mc2_with_prefix _ to_unicode_text) in H by assumption.
    destruct (split (slice_from (String.length prefix) h) sep)
      as [parts|e] eqn:Es; cbn [bind] in H.
    + destruct parts as [|a [|b [|c parts]]]; try discriminate;
        apply raise_inj in H; symmetry in H;
        now apply invalid_is_not_malformed in H.
    + apply raise_inj in H. subst e. now apply split_not_invalid in Es.
  - split; [|now apply parse_mc3_without_prefix].
    intros H. destruct (startswith h prefix) eqn:E; [exfalso|reflexivity].
    rewrite (parse_mc3_with_prefix _ to_unicode_text) in H by assumption.
    destruct (split (slice_from (String.length prefix) h) sep)
      as [parts|e] eqn:Es; cbn [bind] in H.
    + destruct parts as [|a [|b [|c [|x parts]]]];
        try (apply raise_inj in H; symmetry in H;
             now apply invalid_is_not_malformed in H);
        destruct (rounds_field_value a rounds_base default_rounds handler)
          eqn:Er; cbn [bind] in H; try discriminate;
        apply raise_inj in H; subst;
        now apply rounds_field_not_invalid in Er.
    + apply raise_inj in H. subst e. now apply split_not_invalid in Es.
  - intros parts Hp Hs H1 H2.
    rewrite (parse_mc2_with_prefix _ to_unicode_text) by assumption.
    rewrite Hs. cbn [bind].
    destruct parts as [|a [|b [|c parts]]]; simpl in *; congruence.
  - intros parts Hp Hs H2 H3.
    rewrite (parse_mc3_with_prefix _ to_unicode_text) by assumption.
    rewrite Hs. cbn [bind].
    destruct parts as [|a [|b [|c [|x parts]]]]; simpl in *; congruence.
  - intros handler' reason. apply invalid_is_not_malformed.
Qed.

(** C6: with the prefix present and the fields rounds, salt and an
    optional checksum, a rounds field that starts with 0 and is longer
    than one character raises the zero-padded-rounds error; any other
    non-empty rounds field is handed to [int] in the given base; an
    empty one gives [default_rounds], or the malformed-hash error when
    there is none.  The two strings of the specification behave so. *)
Theorem zero_padded_rounds (h prefix sep : string) (rounds_base : Z)
        (default_rounds : option Z) (handler : option string)
        (rounds salt : string) (chk : option string) :
  startswith h prefix = true ->
  split (slice_from (String.length prefix) h) sep
  = Ok (rounds :: salt :: match chk with Some c => [c] | None => [] end) ->
  let parsed :=
    parse_mc3 to_unicode (PyStr h) prefix sep rounds_base default_rounds
      handler in
  (forall c rest, rounds = String "0" (String c rest) ->
                  parsed = Raise (exc.ZeroPaddedRoundsError handler))
  /\ (rounds <> "" ->
      (forall c rest, rounds <> String "0" (String c rest)) ->
      parsed = (n <- int_of_str rounds rounds_base ;;
                Ok (n, salt, checksum_given chk)))
  /\ (rounds = "" ->
      parsed = match default_rounds with
               | Some d => Ok (d, salt, checksum_given chk)
               | None => Raise (exc.MalformedHashError handler
                                  (Some "empty rounds field"))
               end)
  /\ parse_mc3 to_unicode (PyStr "$1$0012$abc$xyz") "$1$" "$" 10 None None
     = Raise (ValueError "malformed <unnamed> hash (zero-padded rounds)")
  /\ parse_mc3 to_unicode (PyStr "$1$12$abc$xyz") "$1$" "$" 10 None None
     = Ok (12, "abc", Some "xyz").
Proof.
  intros Hp Hs parsed.
  assert (Hparsed : parsed =
            (n <- rounds_field_value rounds rounds_base default_rounds handler ;;
             Ok (n, salt, checksum_given chk))).
  { unfold parsed.
    rewrite (parse_mc3_with_prefix _ to_unicode_text) by assumption.
    rewrite Hs. cbn [bind]. destruct chk; reflexivity. }
  split; [|split; [|split; [|split]]].
  - intros c rest ->. rewrite Hparsed. reflexivity.
  - intros Hne Hnz. rewrite Hparsed. unfold rounds_field_value.
    destruct rounds as [|z [|c rest]]; [congruence| |].
    + unfold _UZERO. cbn [startswith String.eqb].
      destruct (Ascii.eqb_spec "0" z) as [<-|Hz]; reflexivity.
    + unfold _UZERO. cbn [startswith String.eqb].
      destruct (Ascii.eqb_spec "0" z) as [<-|Hz];
        [now specialize (Hnz c rest) | reflexivity].
  - intros ->. rewrite Hparsed. destruct default_rounds; reflexivity.
  - unfold parse_mc3. rewrite to_unicode_text. reflexivity.
  - unfold parse_mc3. rewrite to_unicode_text. vm_compute. reflexivity.
Qed.

(** C10: an empty checksum field is read as no checksum.  For a salt
    and a rounds field without separator, the string with a trailing
    separator parses as the string without it, to the salt and [None];
    rendering what was parsed leaves the trailing separator out. *)
Theorem empty_checksum_is_none (p s : string) (handler : option string) :
  contains s "$" = false ->
  parse_mc2 to_unicode (PyStr (p ++ s ++ "$")) p "$" handler = Ok (s, None)
  /\ parse_mc2 to_unicode (PyStr (p ++ s)) p "$" handler = Ok (s, None)
  /\ render_mc2 p s None "$" = p ++ s
  /\ p ++ s <> p ++ s ++ "$"
  /\ (forall r rounds_base default_rounds,
         contains r "$" = false ->
         parse_mc3 to_unicode (PyStr (p ++ r ++ "$" ++ s ++ "$")) p "$"
           rounds_base default_rounds handler
         = parse_mc3 to_unicode (PyStr (p ++ r ++ "$" ++ s)) p "$"
             rounds_base default_rounds handler
         /\ parse_mc3 to_unicode (PyStr (p ++ r ++ "$" ++ s)) p "$"
              rounds_base default_rounds handler
            = (n <- rounds_field_value r rounds_base default_rounds handler ;;
               Ok (n, s, None))
         /\ (forall n, render_mc3 p (Some n) s None "$" 10
                       = Ok (p ++ str_of_int n ++ "$" ++ s))).
Proof.
  intros Hs.
  assert (H1 : split_go "$" 0 (s ++ "$") = [s; ""]).
  { change (s ++ "$") with (s ++ String "$" "").
    now rewrite split_go_field. }
  assert (H2 : split_go "$" 0 s = [s]) by now apply split_go_single.
  split; [|split; [|split; [|split]]].
  - rewrite (parse_mc2_with_prefix _ to_unicode_text)
      by apply startswith_app.
    rewrite slice_from_app. unfold split. rewrite H1. reflexivity.
  - rewrite (parse_mc2_with_prefix _ to_unicode_text)
      by apply startswith_app.
    rewrite slice_from_app. unfold split. rewrite H2. reflexivity.
  - reflexivity.
  - intros H. assert (Hl := f_equal String.length H).
    rewrite !length_app in Hl. simpl in Hl. lia.
  - intros r rounds_base default_rounds Hr.
    assert (H3 : split_go "$" 0 (r ++ "$" ++ s ++ "$") = [r; s; ""]).
    { change (r ++ "$" ++ s ++ "$") with (r ++ String "$" (s ++ "$")).
      now rewrite split_go_field, H1. }
    assert (H4 : split_go "$" 0 (r ++ "$" ++ s) = [r; s]).
    { change (r ++ "$" ++ s) with (r ++ String "$" s).
      now rewrite split_go_field, H2. }
    rewrite !(parse_mc3_with_prefix _ to_unicode_text)
      by apply startswith_app.
    rewrite !slice_from_app. unfold split. rewrite H3, H4. cbn [bind].
    repeat split.
Qed.

End mcf_claims.

Lemma rounds_field_value_format (base n : Z) (default_rounds : option Z)
      (handler : option string) :
  2 <= base <= 36 ->
  rounds_field_value (format_int base n) base default_rounds handler = Ok n.
Proof.
  intros Hb. unfold rounds_field_value.
  destruct (format_int_shape base Hb n) as (Ht & Hz & _).
  rewrite Hz, Ht. now apply int_of_str_format_int.
Qed.

Section mcf_round_trip_claim.

Variable to_unicode : pyval -> string -> string -> result string.
Hypothesis to_unicode_text :
  forall s encoding param, to_unicode (PyStr s) encoding param = Ok s.

Lemma render_mc2_text (ident salt : string) (checksum : option string) :
  valid_checksum checksum ->
  render_mc2 ident salt checksum "$" =
  match checksum with
  | Some c => ident ++ salt ++ String "$" c
  | None => ident ++ salt
  end.
Proof.
  unfold render_mc2, checksum_given, or_None.
  destruct checksum as [c|]; [|reflexivity].
  intros [Ht _]. now rewrite Ht.
Qed.

Lemma render_mc3_text (ident salt : string) (checksum : option string)
      (rounds base : Z) :
  base = 10 \/ base = 16 ->
  valid_checksum checksum ->
  render_mc3 ident (Some rounds) salt checksum "$" base =
  Ok match checksum with
     | Some c => ident ++ format_int base rounds
                 ++ String "$" (salt ++ String "$" c)
     | None => ident ++ format_int base rounds ++ String "$" salt
     end.
Proof.
  intros Hb Hc. unfold render_mc3, checksum_given, or_None.
  assert (Hr : (if base =? 16 then Ok (hex_of_int rounds)
                else if base =? 10 then Ok (str_of_int rounds)
                else Raise (AssertionError ""))
               = Ok (format_int base rounds))
    by (destruct Hb as [-> | ->]; reflexivity).
  rewrite Hr. cbn [bind].
  destruct checksum as [c|]; [|reflexivity].
  destruct Hc as [Ht _]. now rewrite Ht.
Qed.

Lemma parse_mc2_rendered (ident salt : string) (checksum : option string)
      (handler : option string) :
  contains salt "$" = false -> valid_checksum checksum ->
  parse_mc2 to_unicode
    (PyStr match checksum with
           | Some c => ident ++ salt ++ String "$" c
           | None => ident ++ salt
           end) ident "$" handler
  = Ok (salt, checksum).
Proof.
  intros Hs Hc.
  rewrite (parse_mc2_with_prefix _ to_unicode_text)
    by (destruct checksum; apply startswith_app).
  unfold split. destruct checksum as [c|]; rewrite slice_from_app.
  - destruct Hc as [Ht Hcl].
    rewrite split_go_field, split_go_single by assumption.
    cbn [bind]. unfold or_None. now rewrite Ht.
  - now rewrite split_go_single.
Qed.

Lemma parse_mc3_rendered (ident salt : string) (checksum : option string)
      (rounds base : Z) (default_rounds : option Z)
      (handler : option string) :
  2 <= base <= 36 ->
  contains salt "$" = false -> valid_checksum checksum ->
  parse_mc3 to_unicode
    (PyStr match checksum with
           | Some c => ident ++ format_int base rounds
                       ++ String "$" (salt ++ String "$" c)
           | None => ident ++ format_int base rounds ++ String "$" salt
           end) ident "$" base default_rounds handler
  = Ok (rounds, salt, checksum).
Proof.
  intros Hb Hs Hc.
  destruct (format_int_shape base Hb rounds) as (_ & _ & Hd).
  rewrite (parse_mc3_with_prefix _ to_unicode_text)
    by (destruct checksum; apply startswith_app).
  unfold split. destruct checksum as [c|]; rewrite slice_from_app.
  - destruct Hc as [Ht Hcl].
    rewrite split_go_field by assumption.
    rewrite split_go_field, split_go_single by assumption.
    cbn [bind]. rewrite rounds_field_value_format by assumption.
    cbn [bind]. unfold or_None. now rewrite Ht.
  - rewrite split_go_field, split_go_single by assumption.
    cbn [bind]. now rewrite rounds_field_value_format by assumption.
Qed.

(** C2: for a salt without separator and a checksum that is absent or
    non-empty without separator, parsing what [render_mc2] wrote gives
    the salt and the checksum back; the same holds for [render_mc3] and
    [parse_mc3] with any integer rounds, in base 10 and in base 16; and
    a canonical string is rendered back from what it parses to. *)
Theorem mcf_round_trip (ident salt : string) (checksum : option string)
        (handler : option string) :
  contains salt "$" = false ->
  valid_checksum checksum ->
  parse_mc2 to_unicode (PyStr (render_mc2 ident salt checksum "$"))
    ident "$" handler
  = Ok (salt, checksum)
  /\ (forall rounds rounds_base default_rounds,
         rounds_base = 10 \/ rounds_base = 16 ->
         exists x,
           render_mc3 ident (Some rounds) salt checksum "$" rounds_base
           = Ok x
           /\ parse_mc3 to_unicode (PyStr x) ident "$" rounds_base
                default_rounds handler
              = Ok (rounds, salt, checksum))
  /\ (forall x,
         canonical_mc2 ident x ->
         exists salt' chk',
           parse_mc2 to_unicode (PyStr x) ident "$" handler
           = Ok (salt', chk')
           /\ render_mc2 ident salt' chk' "$" = x)
  /\ (forall x default_rounds,
         canonical_mc3 ident x ->
         exists n salt' chk',
           parse_mc3 to_unicode (PyStr x) ident "$" 10 default_rounds
             handler
           = Ok (n, salt', chk')
           /\ render_mc3 ident (Some n) salt' chk' "$" 10 = Ok x).
Proof.
  intros Hs Hc. split; [|split; [|split]].
  - rewrite render_mc2_text by assumption.
    now apply parse_mc2_rendered.
  - intros rounds rounds_base default_rounds Hb.
    eexists. split; [now apply render_mc3_text|].
    apply parse_mc3_rendered; try assumption.
    destruct Hb as [-> | ->]; lia.
  - intros x [Hp Hparts].
    apply startswith_slice in Hp.
    remember (slice_from (String.length ident) x) as sl eqn:Hsl in *.
    clear Hsl. subst x.
    pose proof (join_split_go "$" sl) as Hj.
    pose proof (split_go_fields_clean "$" sl) as Hclean.
    destruct (split_go "$" 0 sl) as [|a [|c [|y parts]]];
      try contradiction; cbn [join] in Hj; subst sl.
    + inversion Hclean as [|? ? Ha _].
      exists a, None.
      split; [now apply (parse_mc2_rendered ident a None)|reflexivity].
    + inversion Hclean as [|? ? Ha Hrest].
      inversion Hrest as [|? ? Hcc _].
      assert (Hv : valid_checksum (Some c)) by (split; assumption).
      exists a, (Some c). split.
      * now apply (parse_mc2_rendered ident a (Some c)).
      * now rewrite render_mc2_text.
  - intros x default_rounds [Hp Hparts].
    apply startswith_slice in Hp.
    remember (slice_from (String.length ident) x) as sl eqn:Hsl in *.
    clear Hsl. subst x.
    pose proof (join_split_go "$" sl) as Hj.
    pose proof (split_go_fields_clean "$" sl) as Hclean.
    assert (Hb : 2 <= 10 <= 36) by lia.
    assert (Hten : 10 = 10 \/ 10 = 16) by now left.
    destruct (split_go "$" 0 sl) as [|r [|a [|c [|y parts]]]];
      try contradiction; cbn [join] in Hj; subst sl.
    + destruct Hparts as [n ->].
      inversion Hclean as [|? ? _ Hrest].
      inversion Hrest as [|? ? Ha _].
      exists n, a, None. split.
      * now apply (parse_mc3_rendered ident a None n 10).
      * now rewrite render_mc3_text.
    + destruct Hparts as [[n ->] Ht].
      inversion Hclean as [|? ? _ Hrest].
      inversion Hrest as [|? ? Ha Hrest'].
      inversion Hrest' as [|? ? Hcc _].
      assert (Hv : valid_checksum (Some c)) by (split; assumption).
      exists n, a, (Some c). split.
      * now apply (parse_mc3_rendered ident a (Some c) n 10).
      * now rewrite render_mc3_text.
Qed.

End mcf_round_trip_claim.

(** ** Rounds *)

(** C8: with [min_rounds = 1000] and [max_rounds = 9999], relaxed
    normalisation of 50 (and of any value below 1000) returns 1000 with
    one warning and strict normalisation raises [ValueError]; a value
    above 9999 is clamped to 9999 with one warning when relaxed and
    raises [ValueError] when strict; a value that is not an integer
    raises [TypeError] in both modes. *)
Theorem rounds_clamping (cls : HasRounds.class) (param : string) :
  HasRounds.min_rounds cls = 1000 ->
  HasRounds.max_rounds cls = Some 9999 ->
  let low v := HasRounds.name cls ++ ": " ++ param ++ " (" ++ str_of_int v
               ++ ") is too low, must be at least 1000" in
  let high v := HasRounds.name cls ++ ": " ++ param ++ " (" ++ str_of_int v
                ++ ") is too large, cannot be more than 9999" in
  HasRounds._norm_rounds cls (PyInt 50) true param
  = ([PasslibHashWarning (low 50)], Ok 1000)
  /\ HasRounds._norm_rounds cls (PyInt 50) false param
     = ([], Raise (ValueError (low 50)))
  /\ (forall v, v < 1000 ->
        HasRounds._norm_rounds cls (PyInt v) true param
        = ([PasslibHashWarning (low v)], Ok 1000)
        /\ HasRounds._norm_rounds cls (PyInt v) false param
           = ([], Raise (ValueError (low v))))
  /\ (forall v, v > 9999 ->
        HasRounds._norm_rounds cls (PyInt v) true param
        = ([PasslibHashWarning (high v)], Ok 9999)
        /\ HasRounds._norm_rounds cls (PyInt v) false param
           = ([], Raise (ValueError (high v))))
  /\ (forall v relaxed, 1000 <= v <= 9999 ->
        HasRounds._norm_rounds cls (PyInt v) relaxed param = ([], Ok v))
  /\ (forall value relaxed, as_int value = None ->
        HasRounds._norm_rounds cls value relaxed param
        = ([], Raise (TypeError (param ++ " must be integer, not "
                                 ++ exc.type_name value)))).
Proof.
  intros Hmin Hmax low high.
  assert (Hlow : forall v, v < 1000 ->
            HasRounds._norm_rounds cls (PyInt v) true param
            = ([PasslibHashWarning (low v)], Ok 1000)
            /\ HasRounds._norm_rounds cls (PyInt v) false param
               = ([], Raise (ValueError (low v)))).
  { intros v Hv. unfold HasRounds._norm_rounds, norm_integer.
    rewrite Hmin, Hmax. cbn [as_int bound_given].
    destruct (Z.ltb_spec v 1000); [|lia]. split; reflexivity. }
  split; [apply Hlow; lia|]. split; [apply Hlow; lia|]. split; [exact Hlow|].
  split; [|split].
  - intros v Hv. unfold HasRounds._norm_rounds, norm_integer.
    rewrite Hmin, Hmax. cbn [as_int bound_given].
    destruct (Z.ltb_spec v 1000); [lia|].
    change (9999 =? 0) with false. cbv iota.
    destruct (Z.gtb_spec v 9999); [|lia]. split; reflexivity.
  - intros v relaxed Hv. unfold HasRounds._norm_rounds, norm_integer.
    rewrite Hmin, Hmax. cbn [as_int bound_given].
    destruct (Z.ltb_spec v 1000); [lia|].
    change (9999 =? 0) with false. cbv iota.
    destruct (Z.gtb_spec v 9999); [lia|reflexivity].
  - intros value relaxed Hv. unfold HasRounds._norm_rounds, norm_integer.
    rewrite Hv. reflexivity.
Qed.

Lemma rounds_clamping_witness :
  HasRounds.min_rounds Samples.rounds_1000_9999 = 1000
  /\ HasRounds.max_rounds Samples.rounds_1000_9999 = Some 9999
  /\ HasRounds._norm_rounds Samples.rounds_1000_9999 (PyInt 50) true "rounds"
     = ([PasslibHashWarning
           "sample: rounds (50) is too low, must be at least 1000"],
        Ok 1000).
Proof.
  split; [reflexivity|]. split; [reflexivity|].
  exact (proj1 (rounds_clamping Samples.rounds_1000_9999 "rounds"
                  eq_refl eq_refl)).
Defined.

(** ** The prefix wrapper *)

Section prefix_wrapper_claim.

Variable decode_utf8 : list byte -> option string.

(** C4: for a hash [h] of the wrapped handler, which starts with
    [orig_prefix], unwrapping the wrapped hash gives [h] back; the
    wrapper identifies the wrapped hash whenever the wrapped handler
    identifies [h]; and it does not identify [h] itself when [h] does
    not start with the wrapper's prefix. *)
Theorem prefix_wrapper_bijective (w : PrefixWrapper.class) (h : string) :
  startswith h (PrefixWrapper.orig_prefix w) = true ->
  exists wrapped,
    PrefixWrapper._wrap_hash w (PyStr h) = Ok wrapped
    /\ PrefixWrapper._unwrap_hash w wrapped = Ok h
    /\ (PrefixWrapper.wrapped_identify w (PyStr h) = Ok true ->
        PrefixWrapper.identify decode_utf8 w (PyStr wrapped) = Ok true)
    /\ (startswith h (PrefixWrapper.prefix w) = false ->
        PrefixWrapper.identify decode_utf8 w (PyStr h) = Ok false).
Proof.
  intros Hq.
  exists (PrefixWrapper.prefix w
          ++ slice_from (String.length (PrefixWrapper.orig_prefix w)) h).
  assert (Hun : PrefixWrapper._unwrap_hash w
                  (PrefixWrapper.prefix w
                   ++ slice_from
                        (String.length (PrefixWrapper.orig_prefix w)) h)
                = Ok h).
  { unfold PrefixWrapper._unwrap_hash.
    rewrite startswith_app, slice_from_app. cbn [negb].
    now rewrite (startswith_slice _ _ Hq). }
  split; [|split; [exact Hun|split]].
  - unfold PrefixWrapper._wrap_hash. cbn [bind]. now rewrite Hq.
  - intros Hid. unfold PrefixWrapper.identify, to_unicode_for_identify.
    cbn [bind]. rewrite startswith_app. cbn [negb].
    rewrite Hun. cbn [bind]. exact Hid.
  - intros Hp. unfold PrefixWrapper.identify, to_unicode_for_identify.
    cbn [bind]. now rewrite Hp.
Qed.

End prefix_wrapper_claim.

Lemma prefix_wrapper_bijective_witness :
  startswith "8846f7eaee8fb117ad06bdd830b7586c"
    (PrefixWrapper.orig_prefix Samples.bsd_nthash) = true
  /\ exists wrapped,
      PrefixWrapper._wrap_hash Samples.bsd_nthash
        (PyStr "8846f7eaee8fb117ad06bdd830b7586c") = Ok wrapped
      /\ PrefixWrapper._unwrap_hash Samples.bsd_nthash wrapped
         = Ok "8846f7eaee8fb117ad06bdd830b7586c"
      /\ (PrefixWrapper.wrapped_identify Samples.bsd_nthash
            (PyStr "8846f7eaee8fb117ad06bdd830b7586c") = Ok true ->
          PrefixWrapper.identify Samples.decode_utf8 Samples.bsd_nthash
            (PyStr wrapped) = Ok true)
      /\ (startswith "8846f7eaee8fb117ad06bdd830b7586c"
            (PrefixWrapper.prefix Samples.bsd_nthash) = false ->
          PrefixWrapper.identify Samples.decode_utf8 Samples.bsd_nthash
            (PyStr "8846f7eaee8fb117ad06bdd830b7586c") = Ok false).
Proof.
  split; [reflexivity|].
  exact (prefix_wrapper_bijective Samples.decode_utf8 Samples.bsd_nthash
           "8846f7eaee8fb117ad06bdd830b7586c" eq_refl).
Defined.

(** The sample hash is one that [nthash] identifies, and its wrapped form
    is the FreeBSD string. *)
Lemma bsd_nthash_sample :
  PrefixWrapper.wrapped_identify Samples.bsd_nthash
    (PyStr "8846f7eaee8fb117ad06bdd830b7586c") = Ok true
  /\ PrefixWrapper._wrap_hash Samples.bsd_nthash
       (PyStr "8846f7eaee8fb117ad06bdd830b7586c")
     = Ok "$3$$8846f7eaee8fb117ad06bdd830b7586c"
  /\ PrefixWrapper.identify Samples.decode_utf8 Samples.bsd_nthash
       (PyStr "$3$$8846f7eaee8fb117ad06bdd830b7586c") = Ok true.
Proof. repeat split; vm_compute; reflexivity. Qed.

(** ** The codec on concrete strings *)

Lemma sample_to_unicode_text (s encoding param : string) :
  Samples.to_unicode (PyStr s) encoding param = Ok s.
Proof. reflexivity. Defined.

Lemma mcf_round_trip_witness :
  (forall s encoding param,
      Samples.to_unicode (PyStr s) encoding param = Ok s)
  /\ contains "abc" "$" = false
  /\ valid_checksum (Some "xyz")
  /\ parse_mc2 Samples.to_unicode
       (PyStr (render_mc2 "$1$" "abc" (Some "xyz") "$")) "$1$" "$" None
     = Ok ("abc", Some "xyz").
Proof.
  split; [exact sample_to_unicode_text|].
  split; [reflexivity|].
  split; [split; reflexivity|].
  exact (proj1 (mcf_round_trip Samples.to_unicode sample_to_unicode_text
                  "$1$" "abc" (Some "xyz") None eq_refl
                  (conj eq_refl eq_refl))).
Defined.

Lemma zero_padded_rounds_witness :
  (forall s encoding param,
      Samples.to_unicode (PyStr s) encoding param = Ok s)
  /\ startswith "$1$0012$abc$xyz" "$1$" = true
  /\ split (slice_from (String.length "$1$") "$1$0012$abc$xyz") "$"
     = Ok ["0012"; "abc"; "xyz"]
  /\ parse_mc3 Samples.to_unicode (PyStr "$1$0012$abc$xyz") "$1$" "$" 10
       None (Some "md5_crypt")
     = Raise (exc.ZeroPaddedRoundsError (Some "md5_crypt")).
Proof.
  split; [exact sample_to_unicode_text|].
  split; [reflexivity|].
  split; [reflexivity|].
  exact (proj1 (zero_padded_rounds Samples.to_unicode sample_to_unicode_text
                  "$1$0012$abc$xyz" "$1$" "$" 10 None (Some "md5_crypt")
                  "0012" "abc" (Some "xyz") eq_refl eq_refl)
           "0"%char "12" eq_refl).
Defined.

Lemma hash_format_errors_witness :
  (forall s encoding param,
      Samples.to_unicode (PyStr s) encoding param = Ok s)
  /\ (parse_mc2 Samples.to_unicode (PyStr "$5$abc$xyz") "$1$" "$"
        (Some "md5_crypt")
      = Raise (exc.InvalidHashError (Some "md5_crypt"))
      <-> startswith "$5$abc$xyz" "$1$" = false).
Proof.
  split; [exact sample_to_unicode_text|].
  exact (proj1 (hash_format_errors Samples.to_unicode sample_to_unicode_text
                  "$5$abc$xyz" "$1$" "$" (Some "md5_crypt") 10 None)).
Defined.

Lemma empty_checksum_is_none_witness :
  (forall s encoding param,
      Samples.to_unicode (PyStr s) encoding param = Ok s)
  /\ contains "abc" "$" = false
  /\ parse_mc2 Samples.to_unicode (PyStr "$1$abc$") "$1$" "$" None
     = Ok ("abc", None).
Proof.
  split; [exact sample_to_unicode_text|].
  split; [reflexivity|].
  exact (proj1 (empty_checksum_is_none Samples.to_unicode
                  sample_to_unicode_text "$1$" "abc" None eq_refl)).
Defined.

(** The codec on the strings of the specification and a few more. *)
Lemma codec_samples :
  parse_mc3 Samples.to_unicode (PyStr "$1$0012$abc$xyz") "$1$" "$" 10 None None
  = Raise (ValueError "malformed <unnamed> hash (zero-padded rounds)")
  /\ parse_mc3 Samples.to_unicode (PyStr "$1$12$abc$xyz") "$1$" "$" 10 None
       None
     = Ok (12, "abc", Some "xyz")
  /\ parse_mc3 Samples.to_unicode (PyStr "$1$$abc$xyz") "$1$" "$" 10
       (Some 5000) None
     = Ok (5000, "abc", Some "xyz")
  /\ parse_mc3 Samples.to_unicode (PyStr "$1$$abc$xyz") "$1$" "$" 10 None None
     = Raise (ValueError "malformed <unnamed> hash (empty rounds field)")
  /\ parse_mc3 Samples.to_unicode (PyStr "$1$1f$abc") "$1$" "$" 16 None None
     = Ok (31, "abc", None)
  /\ parse_mc2 Samples.to_unicode (PyStr "$1$a$b$c") "$1$" "$" None
     = Raise (ValueError "malformed <unnamed> hash")
  /\ parse_mc2 Samples.to_unicode (PyStr "abc") "$1$" "$" None
     = Raise (ValueError "not a valid <unnamed> hash")
  /\ render_mc3 "$5$" (Some 5000) "abc" (Some "xyz") "$" 10
     = Ok "$5$5000$abc$xyz".
Proof. repeat split; vm_compute; reflexivity. Qed.

(** ** The secret's type and size *)

Lemma validate_secret_oversized (MAX : Z) (secret : pyval) :
  is_text_or_bytes secret = true -> py_len secret > MAX ->
  validate_secret MAX secret
  = Raise (PasswordSizeError MAX "password exceeds maximum allowed size").
Proof.
  intros Ht Hl. destruct secret; try discriminate; simpl in *;
    match goal with
    | |- context [?a >? ?b] => destruct (Z.gtb_spec a b); [reflexivity|lia]
    end.
Qed.

Lemma validate_secret_wrong_type (MAX : Z) (secret : pyval) :
  is_text_or_bytes secret = false ->
  validate_secret MAX secret
  = Raise (TypeError ("secret must be str or bytes, not "
                      ++ exc.type_name secret)).
Proof. intros Ht. destruct secret; try discriminate; reflexivity. Qed.

Section handler_claims.

Context {S Rng : Type}.
Variable consteq : pyval -> pyval -> result bool.
Variable MAX_PASSWORD_SIZE : Z.
Variable decode_utf8 : list byte -> option string.
Variable to_unicode : pyval -> string -> string -> result string.
Variable using_ : GenericHandler.class S Rng -> kwds
                  -> result (GenericHandler.class S Rng).

Local Abbreviation hash := (GenericHandler.hash MAX_PASSWORD_SIZE using_).
Local Abbreviation verify := (GenericHandler.verify consteq MAX_PASSWORD_SIZE).
Local Abbreviation identify := (GenericHandler.identify decode_utf8).
Local Abbreviation settings_of cls kw :=
  (fst (GenericHandler.extract_settings_kwds
          (GenericHandler.context_kwds (GenericHandler.attrs cls)) kw)).

(** With context keywords only, [hash] goes straight to the statements
    that start with the validation of the secret. *)
Lemma hash_context_only (fuel : nat) (cls : GenericHandler.class S Rng)
      (secret : pyval) (kw : kwds) (rng : Rng) :
  settings_of cls kw = [] ->
  hash (Datatypes.S fuel) cls secret kw rng
  = GenericHandler.hash_with_context MAX_PASSWORD_SIZE cls secret kw rng.
Proof.
  intros Hk. cbn [GenericHandler.hash].
  destruct kw as [|k kw]; [reflexivity|].
  unfold GenericHandler.extract_settings_kwds in *.
  destruct (partition _ (k :: kw)) as [settings rest] eqn:Ep.
  simpl in Hk. subst settings.
  assert (Hrest : rest = k :: kw); [|now rewrite Hrest].
  clear - Ep. revert rest Ep.
  generalize (k :: kw) as l.
  induction l as [|x l IH]; intros rest Ep; simpl in Ep.
  - now inversion Ep.
  - destruct (partition _ l) as [s r] eqn:El.
    destruct (negb _); [discriminate|].
    inversion Ep; subst. f_equal. now apply IH.
Qed.

(** With a settings keyword, [hash] calls [using] before anything
    else. *)
Lemma hash_with_settings (fuel : nat) (cls : GenericHandler.class S Rng)
      (secret : pyval) (kw : kwds) (rng : Rng) (e : exn) :
  settings_of cls kw <> [] ->
  using_ cls (settings_of cls kw) = Raise e ->
  hash (Datatypes.S fuel) cls secret kw rng = Raise e.
Proof.
  intros Hne Hu. cbn [GenericHandler.hash].
  destruct kw as [|k kw]; [now elim Hne|].
  destruct (GenericHandler.extract_settings_kwds _ (k :: kw))
    as [settings rest].
  cbn [fst] in Hne, Hu.
  destruct settings as [|x settings]; [now elim Hne|].
  now rewrite Hu.
Qed.

(** C5 (amended): [verify], and [hash] called with context keywords
    only, validate the secret before anything else: a text or bytes
    secret longer than the maximum raises the size-limit error that
    carries the maximum, and a secret of another type raises
    [TypeError], whatever the handler's own methods do.  With a settings
    keyword [hash] calls [using] first, whose error is the one raised;
    and [PrefixWrapper.verify] converts and unwraps the hash first, so
    that a hash without the wrapper's prefix raises the invalid-hash
    error whatever the secret, while on a hash with the prefix the
    wrapped handler's check of the secret is reached. *)
Theorem secret_size_ceiling (cls : GenericHandler.class S Rng)
        (secret hash_string : pyval) (kw context : kwds) (rng : Rng)
        (fuel : nat) :
  (is_text_or_bytes secret = true ->
   py_len secret > MAX_PASSWORD_SIZE ->
   verify cls secret hash_string context
   = Raise (PasswordSizeError MAX_PASSWORD_SIZE
              "password exceeds maximum allowed size")
   /\ (settings_of cls kw = [] ->
       hash (Datatypes.S fuel) cls secret kw rng
       = Raise (PasswordSizeError MAX_PASSWORD_SIZE
                  "password exceeds maximum allowed size")))
  /\ (is_text_or_bytes secret = false ->
      verify cls secret hash_string context
      = Raise (TypeError ("secret must be str or bytes, not "
                          ++ exc.type_name secret))
      /\ (settings_of cls kw = [] ->
          hash (Datatypes.S fuel) cls secret kw rng
          = Raise (TypeError ("secret must be str or bytes, not "
                              ++ exc.type_name secret))))
  /\ (forall e,
         settings_of cls kw <> [] ->
         using_ cls (settings_of cls kw) = Raise e ->
         hash (Datatypes.S fuel) cls secret kw rng = Raise e)
  /\ (forall (w : PrefixWrapper.class) (h : string),
         to_unicode hash_string "ascii" "hash" = Ok h ->
         (startswith h (PrefixWrapper.prefix w) = false ->
          Wrapper.verify to_unicode (verify cls) w secret hash_string context
          = Raise (exc.InvalidHashError (Some (PrefixWrapper.name w))))
         /\ (startswith h (PrefixWrapper.prefix w) = true ->
             is_text_or_bytes secret = true ->
             py_len secret > MAX_PASSWORD_SIZE ->
             Wrapper.verify to_unicode (verify cls) w secret hash_string
               context
             = Raise (PasswordSizeError MAX_PASSWORD_SIZE
                        "password exceeds maximum allowed size"))).
Proof.
  split; [|split; [|split]].
  - intros Ht Hl. split.
    + unfold GenericHandler.verify.
      now rewrite validate_secret_oversized.
    + intros Hk. rewrite hash_context_only by assumption.
      unfold GenericHandler.hash_with_context.
      now rewrite validate_secret_oversized.
  - intros Ht. split.
    + unfold GenericHandler.verify.
      now rewrite validate_secret_wrong_type.
    + intros Hk. rewrite hash_context_only by assumption.
      unfold GenericHandler.hash_with_context.
      now rewrite validate_secret_wrong_type.
  - intros e Hne Hu. now apply hash_with_settings.
  - intros w h Hu. split.
    + intros Hp. unfold Wrapper.verify, PrefixWrapper._unwrap_hash.
      rewrite Hu. cbn [bind]. now rewrite Hp.
    + intros Hp Ht Hl. unfold Wrapper.verify, PrefixWrapper._unwrap_hash.
      rewrite Hu. cbn [bind]. rewrite Hp. cbn [negb bind].
      unfold GenericHandler.verify.
      now rewrite validate_secret_oversized.
Qed.

(** When settings keywords are passed, [using] runs first; once it has
    returned a class, an oversized secret is rejected all the same,
    unless the recursion limit is hit. *)
Lemma hash_oversized_any_keywords (fuel : nat) :
  forall (cls : GenericHandler.class S Rng) (secret : pyval) (kw : kwds)
         (rng : Rng),
    is_text_or_bytes secret = true ->
    py_len secret > MAX_PASSWORD_SIZE ->
    hash fuel cls secret kw rng
    = Raise (PasswordSizeError MAX_PASSWORD_SIZE
               "password exceeds maximum allowed size")
    \/ hash fuel cls secret kw rng = Raise RecursionError
    \/ exists sub settings e,
        using_ sub settings = Raise e
        /\ hash fuel cls secret kw rng = Raise e.
Proof.
  induction fuel as [|f IH]; intros cls secret kw rng Ht Hl.
  - right; left; reflexivity.
  - cbn [GenericHandler.hash].
    assert (Hbody : forall (c : GenericHandler.class S Rng) k,
               GenericHandler.hash_with_context MAX_PASSWORD_SIZE c secret
                 k rng
               = Raise (PasswordSizeError MAX_PASSWORD_SIZE
                          "password exceeds maximum allowed size")).
    { intros c k. unfold GenericHandler.hash_with_context.
      now rewrite validate_secret_oversized. }
    destruct kw as [|k kw]; [left; apply Hbody|].
    destruct (GenericHandler.extract_settings_kwds _ (k :: kw))
      as [settings rest].
    destruct settings as [|x settings]; [left; apply Hbody|].
    destruct (using_ cls (x :: settings)) as [sub|e] eqn:Eu; cbn [bind].
    + apply IH; assumption.
    + right; right. now exists cls, (x :: settings), e.
Qed.

(** C9 (amended): an input that is neither text nor bytes makes
    [identify] raise [TypeError]; on a text or bytes input [identify]
    returns a boolean, unless its fallback parse raises an error that is
    not a [ValueError]: when the fallback parse raises, a [ValueError]
    becomes [False] and any other error is raised by [identify] itself;
    so [identify] returns a boolean on every text or bytes input for a
    handler whose [from_string] raises nothing but [ValueError]. *)
Theorem identify_on_text (cls : GenericHandler.class S Rng) (hash_string : pyval) :
  (is_text_or_bytes hash_string = false ->
   identify cls hash_string
   = Raise (TypeError ("hash must be str or bytes, not "
                       ++ exc.type_name hash_string)))
  /\ (is_text_or_bytes hash_string = true ->
      (exists b, identify cls hash_string = Ok b)
      \/ (exists text e,
             to_unicode_for_identify decode_utf8 hash_string = Ok text
             /\ GenericHandler.from_string cls (PyStr text) [] = Raise e
             /\ is_ValueError e = false
             /\ identify cls hash_string = Raise e))
  /\ (forall text e,
         to_unicode_for_identify decode_utf8 hash_string = Ok text ->
         truthy text = true ->
         GenericHandler.ident (GenericHandler.attrs cls) = None ->
         GenericHandler._hash_regex (GenericHandler.attrs cls) = None ->
         GenericHandler.from_string cls (PyStr text) [] = Raise e ->
         identify cls hash_string
         = if is_ValueError e then Ok false else Raise e)
  /\ ((forall h e, GenericHandler.from_string cls (PyStr h) [] = Raise e ->
                   is_ValueError e = true) ->
      is_text_or_bytes hash_string = true ->
      exists b, identify cls hash_string = Ok b).
Proof.
  assert (Htext : is_text_or_bytes hash_string = true ->
            (exists b, identify cls hash_string = Ok b)
            \/ (exists text e,
                   to_unicode_for_identify decode_utf8 hash_string = Ok text
                   /\ GenericHandler.from_string cls (PyStr text) []
                      = Raise e
                   /\ is_ValueError e = false
                   /\ identify cls hash_string = Raise e)).
  { intros Ht. unfold GenericHandler.identify.
    assert (Hu : exists text,
               to_unicode_for_identify decode_utf8 hash_string = Ok text).
    { destruct hash_string; try discriminate; simpl; eauto.
      destruct (decode_utf8 b); eauto. }
    destruct Hu as [text Hu]. rewrite Hu. cbn [bind].
    destruct (truthy text); cbn [negb]; [|eauto].
    destruct (GenericHandler.ident _); [eauto|].
    destruct (GenericHandler._hash_regex _); [eauto|].
    destruct (GenericHandler.from_string cls (PyStr text) []) as [self|e]
      eqn:Ef; [eauto|].
    destruct (is_ValueError e) eqn:Ev; [eauto|].
    right. exists text, e. auto. }
  split; [|split; [exact Htext|split]].
  - intros Ht. unfold GenericHandler.identify.
    destruct hash_string; try discriminate; reflexivity.
  - intros text e Hu Ht Hi Hr Hf. unfold GenericHandler.identify.
    rewrite Hu. cbn [bind]. rewrite Ht, Hi, Hr, Hf. reflexivity.
  - intros Hval Ht.
    destruct (Htext Ht) as [Hb|(text & e & _ & Hf & Hv & _)];
      [exact Hb|].
    rewrite (Hval _ _ Hf) in Hv. discriminate.
Qed.

(** [hash] returns what [to_string] renders, when each of its steps
    returns. *)
Lemma hash_returns (cls : GenericHandler.class S Rng)
      (secret : pyval) (kw : kwds) (rng : Rng) (fuel : nat)
      (st : S) (chk : pyval) (h : string) :
  validate_secret MAX_PASSWORD_SIZE secret = Ok tt ->
  settings_of cls kw = [] ->
  GenericHandler.construct cls rng kw = Ok st ->
  GenericHandler._calc_checksum cls
    {| GenericHandler.settings := st;
       GenericHandler.checksum := None;
       GenericHandler.use_defaults := true |} secret = Ok chk ->
  GenericHandler.to_string cls
    {| GenericHandler.settings := st;
       GenericHandler.checksum := Some chk;
       GenericHandler.use_defaults := true |} = Ok h ->
  hash (Datatypes.S fuel) cls secret kw rng = Ok h.
Proof.
  intros Hv Hk Hc Hchk Hts.
  rewrite hash_context_only by assumption.
  unfold GenericHandler.hash_with_context.
  rewrite Hv. cbn [bind]. rewrite Hc. cbn [bind].
  rewrite Hchk. cbn [bind]. exact Hts.
Qed.

(** [verify] compares the checksum it computes on the parsed instance
    with the parsed one. *)
Lemma verify_compares (cls : GenericHandler.class S Rng)
      (secret hash_string : pyval) (context : kwds)
      (self : GenericHandler.instance S) (chk c : pyval) :
  validate_secret MAX_PASSWORD_SIZE secret = Ok tt ->
  GenericHandler.from_string cls hash_string context = Ok self ->
  GenericHandler.checksum self = Some chk ->
  GenericHandler._calc_checksum cls self secret = Ok c ->
  verify cls secret hash_string context = consteq c chk.
Proof.
  intros Hv Hfs Hck Hc. unfold GenericHandler.verify.
  rewrite Hv. cbn [bind]. rewrite Hfs. cbn [bind].
  rewrite Hck, Hc. reflexivity.
Qed.

(** C1 (amended): for a handler whose checksum routine is a function of
    the secret and of the settings of the instance, and whose
    [from_string] parses the string that [to_string] rendered back to
    the same settings and checksum, [hash] of a valid secret returns
    that string; [verify] of any valid secret against it is [consteq] of
    the checksum recomputed for that secret on the parsed instance and
    the parsed checksum; and [verify] of the hashed secret is [True]
    when the checksum is bytes or ASCII text, the values on which
    [consteq] compares a value equal to itself. *)
Theorem verify_accepts_hash (cls : GenericHandler.class S Rng)
        (secret : pyval) (kw : kwds) (rng : Rng) (fuel : nat)
        (st : S) (chk : pyval) (h : string)
        (self : GenericHandler.instance S) :
  validate_secret MAX_PASSWORD_SIZE secret = Ok tt ->
  settings_of cls kw = [] ->
  (forall (a b : GenericHandler.instance S) (s : pyval),
      GenericHandler.settings a = GenericHandler.settings b ->
      GenericHandler._calc_checksum cls a s
      = GenericHandler._calc_checksum cls b s) ->
  GenericHandler.construct cls rng kw = Ok st ->
  GenericHandler._calc_checksum cls
    {| GenericHandler.settings := st;
       GenericHandler.checksum := None;
       GenericHandler.use_defaults := true |} secret = Ok chk ->
  GenericHandler.to_string cls
    {| GenericHandler.settings := st;
       GenericHandler.checksum := Some chk;
       GenericHandler.use_defaults := true |} = Ok h ->
  GenericHandler.from_string cls (PyStr h) kw = Ok self ->
  GenericHandler.settings self = st ->
  GenericHandler.checksum self = Some chk ->
  (forall c, is_ascii_or_bytes c = true -> consteq c c = Ok true) ->
  hash (Datatypes.S fuel) cls secret kw rng = Ok h
  /\ (forall other c,
         validate_secret MAX_PASSWORD_SIZE other = Ok tt ->
         GenericHandler._calc_checksum cls self other = Ok c ->
         verify cls other (PyStr h) kw = consteq c chk)
  /\ (is_ascii_or_bytes chk = true ->
      verify cls secret (PyStr h) kw = Ok true).
Proof.
  intros Hv Hk Hdet Hc Hchk Hts Hfs Hst Hck Hsame.
  split; [|split].
  - now apply (hash_returns cls secret kw rng fuel st chk h).
  - intros other c Hvo Hco.
    now apply (verify_compares cls other (PyStr h) kw self chk c).
  - intros Hcmp. rewrite <- (Hsame chk Hcmp).
    apply (verify_compares cls secret (PyStr h) kw self chk chk);
      try assumption.
    rewrite <- Hchk. apply Hdet. exact Hst.
Qed.

End handler_claims.

(** ** Static handlers *)

Lemma malformed_is_ValueError (handler reason : option string) :
  is_ValueError (exc.MalformedHashError handler reason) = true.
Proof.
  unfold exc.MalformedHashError.
  destruct reason as [r|]; [destruct (truthy r)|]; reflexivity.
Qed.

(** A text checksum is rejected with [ValueError] only. *)
Lemma norm_checksum_text_errors (self : GenericHandler.attributes)
      (s : string) (relaxed : bool) (e : exn) :
  GenericHandler._checksum_is_bytes self = false ->
  snd (GenericHandler._norm_checksum self (PyStr s) relaxed) = Raise e ->
  is_ValueError e = true.
Proof.
  intros Hraw. unfold GenericHandler._norm_checksum. rewrite Hraw.
  destruct (bound_given (GenericHandler.checksum_size self)) as [cc|].
  - destruct (negb (py_len (PyStr s) =? cc)); cbn [snd].
    + intros H. apply raise_inj in H. subst e.
      apply malformed_is_ValueError.
    + destruct (GenericHandler.checksum_chars self) as [cs|]; cbn [snd];
        [|discriminate].
      destruct (truthy cs && any_not_in cs s); cbn [snd]; [|discriminate].
      intros H. apply raise_inj in H. now subst e.
  - destruct (GenericHandler.checksum_chars self) as [cs|]; cbn [snd];
      [|discriminate].
    destruct (truthy cs && any_not_in cs s); cbn [snd]; [|discriminate].
    intros H. apply raise_inj in H. now subst e.
Qed.

Section static_handlers.

Context {C Rng : Type}.
Variable consteq : pyval -> pyval -> result bool.
Variable MAX_PASSWORD_SIZE : Z.
Variable to_unicode : pyval -> string -> string -> result string.
Variable using_ : GenericHandler.class C Rng -> kwds
                  -> result (GenericHandler.class C Rng).
Hypothesis to_unicode_text :
  forall s encoding param, to_unicode (PyStr s) encoding param = Ok s.

(** A checksum that passes [_norm_checksum] and that [_norm_hash]
    leaves alone is parsed back from the rendered string. *)
Lemma static_from_string_to_string (cls : StaticHandler.class C) (st : C)
      (c : string) (context : kwds) :
  StaticHandler.init_context cls context = Ok st ->
  StaticHandler._norm_hash cls (StaticHandler._hash_prefix cls ++ c)
  = StaticHandler._hash_prefix cls ++ c ->
  snd (GenericHandler._norm_checksum (StaticHandler.attrs cls) (PyStr c)
         false) = Ok (PyStr c) ->
  StaticHandler.from_string to_unicode cls
    (PyStr (StaticHandler._hash_prefix cls ++ c)) context
  = Ok {| GenericHandler.settings := st;
          GenericHandler.checksum := Some (PyStr c);
          GenericHandler.use_defaults := false |}.
Proof.
  intros Hi Hn Hc. unfold StaticHandler.from_string.
  rewrite to_unicode_text. cbn [bind]. rewrite Hn.
  rewrite startswith_app, slice_from_app.
  assert (Hp : (if truthy (StaticHandler._hash_prefix cls)
                then Ok c else Ok (StaticHandler._hash_prefix cls ++ c))
               = Ok c)
    by (destruct (StaticHandler._hash_prefix cls); reflexivity).
  rewrite Hp. cbn [bind]. unfold StaticHandler.init_with_checksum.
  rewrite Hi. cbn [bind]. rewrite Hc. reflexivity.
Qed.

(** For a static handler whose checksum routine is a function of the
    secret and of the context, [verify] accepts what [hash] returns
    whenever the checksum routine returns a text that is a valid
    checksum in normal form and that [consteq] compares equal to
    itself. *)
Lemma static_verify_accepts_hash (cls : StaticHandler.class C)
      (secret : pyval) (kw : kwds) (rng : Rng) (fuel : nat) (st : C)
      (c : string) :
  validate_secret MAX_PASSWORD_SIZE secret = Ok tt ->
  fst (GenericHandler.extract_settings_kwds
         (GenericHandler.context_kwds (StaticHandler.attrs cls)) kw) = [] ->
  (forall (a b : GenericHandler.instance C) (s : pyval),
      GenericHandler.settings a = GenericHandler.settings b ->
      StaticHandler._calc_checksum cls a s
      = StaticHandler._calc_checksum cls b s) ->
  StaticHandler.init_context cls kw = Ok st ->
  StaticHandler._calc_checksum cls
    {| GenericHandler.settings := st;
       GenericHandler.checksum := None;
       GenericHandler.use_defaults := true |} secret = Ok (PyStr c) ->
  StaticHandler._norm_hash cls (StaticHandler._hash_prefix cls ++ c)
  = StaticHandler._hash_prefix cls ++ c ->
  snd (GenericHandler._norm_checksum (StaticHandler.attrs cls) (PyStr c)
         false) = Ok (PyStr c) ->
  consteq (PyStr c) (PyStr c) = Ok true ->
  GenericHandler.hash MAX_PASSWORD_SIZE using_ (Datatypes.S fuel)
    (@StaticHandler.generic C to_unicode Rng cls) secret kw rng
  = Ok (StaticHandler._hash_prefix cls ++ c)
  /\ GenericHandler.verify consteq MAX_PASSWORD_SIZE
       (@StaticHandler.generic C to_unicode Rng cls) secret
       (PyStr (StaticHandler._hash_prefix cls ++ c)) kw
     = Ok true.
Proof.
  intros Hv Hk Hdet Hi Hc Hn Hck Heq. split.
  - now apply (hash_returns MAX_PASSWORD_SIZE using_
                 (@StaticHandler.generic C to_unicode Rng cls) secret kw rng
                 fuel st (PyStr c)).
  - rewrite <- Heq.
    apply (verify_compares consteq MAX_PASSWORD_SIZE
             (@StaticHandler.generic C to_unicode Rng cls) secret _ kw
             {| GenericHandler.settings := st;
                GenericHandler.checksum := Some (PyStr c);
                GenericHandler.use_defaults := false |});
      try assumption; try reflexivity.
    + cbn [StaticHandler.generic GenericHandler.from_string].
      apply static_from_string_to_string; eassumption.
    + cbn [StaticHandler.generic GenericHandler._calc_checksum].
      rewrite <- Hc. now apply Hdet.
Qed.

(** Parsing a text with a static handler fails with [ValueError] only,
    when the constructors of the context do. *)
Lemma static_from_string_errors (cls : StaticHandler.class C) (h : string)
      (context : kwds) (e : exn) :
  GenericHandler._checksum_is_bytes (StaticHandler.attrs cls) = false ->
  (forall e', StaticHandler.init_context cls context = Raise e' ->
              is_ValueError e' = true) ->
  StaticHandler.from_string to_unicode cls (PyStr h) context = Raise e ->
  is_ValueError e = true.
Proof.
  intros Hraw Hinit. unfold StaticHandler.from_string.
  rewrite to_unicode_text. cbn [bind].
  set (stripped :=
         if truthy (StaticHandler._hash_prefix cls) then _ else _).
  destruct stripped as [hash'|e0] eqn:Es; cbn [bind].
  - unfold StaticHandler.init_with_checksum.
    destruct (StaticHandler.init_context cls context) as [st|e1] eqn:Ei;
      cbn [bind].
    + destruct (snd (GenericHandler._norm_checksum (StaticHandler.attrs cls)
                       (PyStr hash') false)) as [chk|e2] eqn:En;
        cbn [bind]; [discriminate|].
      intros H. apply raise_inj in H. subst e2.
      now apply (norm_checksum_text_errors _ _ _ _ Hraw En).
    + intros H. apply raise_inj in H. subst e1. now apply Hinit.
  - intros H. apply raise_inj in H. subst e0.
    unfold stripped in Es.
    destruct (truthy _); [|discriminate].
    destruct (startswith _ _); [discriminate|].
    apply raise_inj in Es. now subst e.
Qed.

End static_handlers.

(** [nthash.from_string] raises nothing but [ValueError]. *)
Lemma nthash_from_string_errors (h : string) (e : exn) :
  GenericHandler.from_string
    (@StaticHandler.generic unit Samples.to_unicode unit Samples.nthash)
    (PyStr h) [] = Raise e ->
  is_ValueError e = true.
Proof.
  apply (static_from_string_errors Samples.to_unicode sample_to_unicode_text
           Samples.nthash h [] e eq_refl).
  intros e' H. discriminate H.
Qed.

(** The sample [consteq] compares bytes and ASCII text equal to
    themselves. *)
Lemma sample_consteq_same (c : pyval) :
  is_ascii_or_bytes c = true -> Samples.consteq c c = Ok true.
Proof.
  destruct c; try discriminate; cbn [is_ascii_or_bytes Samples.consteq].
  - intros ->. cbn [andb]. now rewrite String.eqb_refl.
  - intros _. now rewrite String.eqb_refl.
Qed.

Lemma verify_accepts_hash_witness :
  validate_secret 4096 (PyStr "password") = Ok tt
  /\ GenericHandler.hash 4096 Samples.no_using 1
       (@StaticHandler.generic unit Samples.to_unicode unit Samples.plain)
       (PyStr "password") [] tt = Ok "password"
  /\ (forall other c,
         validate_secret 4096 other = Ok tt ->
         GenericHandler._calc_checksum
           (@StaticHandler.generic unit Samples.to_unicode unit
              Samples.plain)
           {| GenericHandler.settings := tt;
              GenericHandler.checksum := Some (PyStr "password");
              GenericHandler.use_defaults := false |} other = Ok c ->
         GenericHandler.verify Samples.consteq 4096
           (@StaticHandler.generic unit Samples.to_unicode unit
              Samples.plain) other (PyStr "password") []
         = Samples.consteq c (PyStr "password"))
  /\ (is_ascii_or_bytes (PyStr "password") = true ->
      GenericHandler.verify Samples.consteq 4096
        (@StaticHandler.generic unit Samples.to_unicode unit Samples.plain)
        (PyStr "password") (PyStr "password") [] = Ok true).
Proof.
  split; [reflexivity|].
  exact (verify_accepts_hash Samples.consteq 4096 Samples.no_using
           (@StaticHandler.generic unit Samples.to_unicode unit Samples.plain)
           (PyStr "password") [] tt 0 tt (PyStr "password") "password"
           {| GenericHandler.settings := tt;
              GenericHandler.checksum := Some (PyStr "password");
              GenericHandler.use_defaults := false |}
           eq_refl eq_refl (fun a b s _ => eq_refl) eq_refl eq_refl eq_refl
           eq_refl eq_refl eq_refl sample_consteq_same).
Defined.

(** [verify] of a secret against its own hash raises, for a handler
    whose checksum is a text with a character outside ASCII: [hash]
    returns, and [consteq] refuses the comparison. *)
Lemma verify_raises_on_non_ascii_checksum :
  validate_secret 4096 (PyStr MoreSamples.e_acute) = Ok tt
  /\ GenericHandler.hash 4096 Samples.no_using 1
       (@StaticHandler.generic unit Samples.to_unicode unit Samples.plain)
       (PyStr MoreSamples.e_acute) [] tt = Ok MoreSamples.e_acute
  /\ GenericHandler.verify Samples.consteq 4096
       (@StaticHandler.generic unit Samples.to_unicode unit Samples.plain)
       (PyStr MoreSamples.e_acute) (PyStr MoreSamples.e_acute) []
     = Raise (TypeError
                "comparing strings with non-ASCII characters is not supported").
Proof. repeat split; vm_compute; reflexivity. Qed.

Lemma secret_size_ceiling_witness :
  is_text_or_bytes (PyStr "password") = true
  /\ py_len (PyStr "password") > 4
  /\ GenericHandler.verify Samples.consteq 4
       (@StaticHandler.generic unit Samples.to_unicode unit Samples.plain)
       (PyStr "password") (PyStr "password") []
     = Raise (PasswordSizeError 4 "password exceeds maximum allowed size")
  /\ (fst (GenericHandler.extract_settings_kwds
            (GenericHandler.context_kwds
               (GenericHandler.attrs
                  (@StaticHandler.generic unit Samples.to_unicode unit
                     Samples.plain))) []) = [] ->
      GenericHandler.hash 4 Samples.no_using 1
        (@StaticHandler.generic unit Samples.to_unicode unit Samples.plain)
        (PyStr "password") [] tt
      = Raise (PasswordSizeError 4 "password exceeds maximum allowed size")).
Proof.
  split; [reflexivity|]. split; [reflexivity|].
  exact (proj1 (secret_size_ceiling Samples.consteq 4 Samples.to_unicode
                  Samples.no_using
                  (@StaticHandler.generic unit Samples.to_unicode unit
                     Samples.plain)
                  (PyStr "password") (PyStr "password") [] [] tt 0)
           eq_refl eq_refl).
Defined.

(** An oversized secret does not raise the size-limit error everywhere:
    [bsd_nthash.verify], given a hash without its prefix, raises the
    invalid-hash error, although the wrapped [nthash] alone raises the
    size-limit error on the same arguments. *)
Lemma oversized_secret_other_error :
  py_len MoreSamples.long_secret > 4096
  /\ Wrapper.verify Samples.to_unicode
       (GenericHandler.verify Samples.consteq 4096
          (@StaticHandler.generic unit Samples.to_unicode unit
             Samples.nthash))
       Samples.bsd_nthash MoreSamples.long_secret
       (PyStr "8846f7eaee8fb117ad06bdd830b7586c") []
     = Raise (ValueError "not a valid bsd_nthash hash")
  /\ GenericHandler.verify Samples.consteq 4096
       (@StaticHandler.generic unit Samples.to_unicode unit Samples.nthash)
       MoreSamples.long_secret (PyStr "8846f7eaee8fb117ad06bdd830b7586c") []
     = Raise (PasswordSizeError 4096
                "password exceeds maximum allowed size").
Proof. repeat split; vm_compute; reflexivity. Qed.

Lemma identify_on_text_witness :
  is_text_or_bytes PyNone = false
  /\ GenericHandler.identify Samples.decode_utf8
       (@StaticHandler.generic unit Samples.to_unicode unit Samples.nthash)
       PyNone
     = Raise (TypeError ("hash must be str or bytes, not "
                         ++ exc.type_name PyNone)).
Proof.
  split; [reflexivity|].
  exact (proj1 (identify_on_text Samples.decode_utf8
                  (@StaticHandler.generic unit Samples.to_unicode unit
                     Samples.nthash) PyNone) eq_refl).
Defined.

(** [identify] raises on [None], and lets an error of the fallback parse
    that is not a [ValueError] through. *)
Lemma identify_raises :
  GenericHandler.identify Samples.decode_utf8
    (@StaticHandler.generic unit Samples.to_unicode unit Samples.nthash)
    PyNone
  = Raise (TypeError "hash must be str or bytes, not None")
  /\ GenericHandler.identify Samples.decode_utf8 Samples.abstract
       (PyStr "$1$abc$xyz")
     = Raise (NotImplementedError "must implement from_string()").
Proof. split; reflexivity. Qed.

(** [nthash] recognises its own 32 hexadecimal characters and nothing
    else. *)
Lemma nthash_identify_samples :
  GenericHandler.identify Samples.decode_utf8
    (@StaticHandler.generic unit Samples.to_unicode unit Samples.nthash)
    (PyStr "8846F7EAEE8FB117AD06BDD830B7586C") = Ok true
  /\ GenericHandler.identify Samples.decode_utf8
       (@StaticHandler.generic unit Samples.to_unicode unit Samples.nthash)
       (PyStr "$1$abc$xyz") = Ok false
  /\ GenericHandler.identify Samples.decode_utf8
       (@StaticHandler.generic unit Samples.to_unicode unit Samples.nthash)
       (PyStr "") = Ok false.
Proof. repeat split; vm_compute; reflexivity. Qed.

(** ** Backend selection *)

Section backends.

Variable cls : BackendMixin.class.
Variable dryrun : bool.

Local Abbreviation candidates_ok cs :=
  (forall c, In c cs ->
             In c (BackendMixin.backends cls)
             /\ c <> "any" /\ c <> "default").

(** [set_backend] on the name of a backend, in any state: the active
    backend is returned as it is, another one is loaded. *)
Lemma set_backend_named (fuel : nat) (st : BackendMixin.state) (c : string) :
  In c (BackendMixin.backends cls) -> c <> "any" -> c <> "default" ->
  BackendMixin.set_backend (S fuel) cls c dryrun st =
  if BackendMixin.already_active st c then (st, Ok c)
  else
    match BackendMixin._set_backend cls c dryrun with
    | Raise err => (st, Raise err)
    | Ok _ => (if dryrun then st else BackendMixin.activate st c, Ok c)
    end.
Proof.
  intros Hin Hany Hdef. cbn [BackendMixin.set_backend].
  apply String.eqb_neq in Hany, Hdef. rewrite Hany, Hdef. cbn [andb orb].
  unfold BackendMixin.already_active.
  destruct (truthy c && BackendMixin.is_active st c) eqn:Eact.
  - apply andb_prop in Eact as [_ Hact].
    unfold BackendMixin.is_active in Hact.
    destruct (BackendMixin.__backend st) as [b|]; [|discriminate].
    apply String.eqb_eq in Hact. now subst b.
  - assert (Hex : existsb (String.eqb c) (BackendMixin.backends cls) = true).
    { apply existsb_exists. exists c. split; [assumption|].
      apply String.eqb_refl. }
    rewrite Hex. cbn [negb fst snd].
    destruct st as [b pb pd]. unfold BackendMixin.activate.
    cbn [BackendMixin.__backend BackendMixin._pending_backend
         BackendMixin._pending_dry_run].
    destruct (BackendMixin._set_backend cls c dryrun); [|reflexivity].
    destruct dryrun; reflexivity.
Qed.

(** The loop passes over candidates that are missing or refused, and
    remembers the first refusal. *)
Lemma first_available_passes (fuel : nat) (st : BackendMixin.state) :
  forall pre rest default_error,
    candidates_ok pre ->
    forallb (BackendMixin.passed_over_in cls dryrun st) pre = true ->
    BackendMixin.first_available cls
      (fun c => BackendMixin.set_backend (S fuel) cls c dryrun)
      (pre ++ rest)%list default_error st
    = BackendMixin.first_available cls
        (fun c => BackendMixin.set_backend (S fuel) cls c dryrun)
        rest
        (match default_error with
         | Some err => Some err
         | None => BackendMixin.first_refusal cls dryrun pre
         end) st.
Proof.
  intros pre. induction pre as [|c pre IH];
    intros rest default_error Hok Hpass.
  - simpl. now destruct default_error.
  - simpl in Hpass. apply andb_prop in Hpass as [Hc Hpre].
    destruct (Hok c (or_introl eq_refl)) as (Hin & Hany & Hdef).
    assert (Hok' : candidates_ok pre)
      by (intros x Hx; apply Hok; now right).
    cbn [app BackendMixin.first_available BackendMixin.first_refusal].
    rewrite (set_backend_named fuel st c Hin Hany Hdef).
    unfold BackendMixin.passed_over_in in Hc.
    apply andb_prop in Hc as [Hact Hc].
    apply negb_true_iff in Hact. rewrite Hact.
    unfold BackendMixin.passed_over in Hc.
    unfold BackendMixin._set_backend.
    destruct (BackendMixin.loader cls c dryrun) as [v|err]; cbn [bind].
    + destruct v as [|[|]| | | |]; try discriminate.
      rewrite (IH rest default_error Hok' Hpre). reflexivity.
    + destruct err; try discriminate.
      * rewrite (IH rest default_error Hok' Hpre). reflexivity.
      * rewrite (IH rest _ Hok' Hpre). now destruct default_error.
Qed.

Lemma first_refusal_is_refusal (cs : list string) (err : exn) :
  BackendMixin.first_refusal cls dryrun cs = Some err ->
  exists msg, err = PasslibSecurityError msg.
Proof.
  induction cs as [|c cs IH]; simpl; [discriminate|].
  destruct (BackendMixin.loader cls c dryrun) as [v|e]; [assumption|].
  destruct e; try assumption.
  intros H. inversion H. eauto.
Qed.

(** Selecting [any] or [default] returns the active backend when the
    test at the head of [set_backend] holds, and enters the loop over
    the candidates otherwise. *)
Lemma set_backend_any (fuel : nat) (st : BackendMixin.state) (name : string) :
  name = "any" \/ name = "default" ->
  BackendMixin.set_backend (S (S fuel)) cls name dryrun st
  = if (String.eqb name "any" && BackendMixin.loaded st)
       || BackendMixin.already_active st name
    then match BackendMixin.__backend st with
         | Some active => (st, Ok active)
         | None => (st, Raise (AssertionError "no active backend"))
         end
    else BackendMixin.first_available cls
           (fun c => BackendMixin.set_backend (S fuel) cls c dryrun)
           (BackendMixin.backends cls) None st.
Proof.
  intros Hname.
  change (BackendMixin.set_backend (S (S fuel)) cls name dryrun st)
    with (if (String.eqb name "any" && BackendMixin.loaded st)
             || (truthy name && BackendMixin.is_active st name)
          then match BackendMixin.__backend st with
               | Some active => (st, Ok active)
               | None => (st, Raise (AssertionError "no active backend"))
               end
          else if String.eqb name "any" || String.eqb name "default"
               then BackendMixin.first_available cls
                      (fun c => BackendMixin.set_backend (S fuel) cls c dryrun)
                      (BackendMixin.backends cls) None st
               else if negb (existsb (String.eqb name)
                               (BackendMixin.backends cls))
                    then (st, Raise (UnknownBackendError
                                       (BackendMixin.name cls) name))
                    else
                      let orig := (BackendMixin._pending_backend st,
                                   BackendMixin._pending_dry_run st) in
                      let outcome :=
                        BackendMixin._set_backend cls name dryrun in
                      let restored :=
                        {| BackendMixin.__backend :=
                             BackendMixin.__backend st;
                           BackendMixin._pending_backend := fst orig;
                           BackendMixin._pending_dry_run := snd orig |} in
                      match outcome with
                      | Raise err => (restored, Raise err)
                      | Ok _ =>
                          if dryrun then (restored, Ok name)
                          else ({| BackendMixin.__backend := Some name;
                                   BackendMixin._pending_backend := fst orig;
                                   BackendMixin._pending_dry_run := snd orig
                                |}, Ok name)
                      end).
  unfold BackendMixin.already_active.
  destruct ((String.eqb name "any" && BackendMixin.loaded st)
            || (truthy name && BackendMixin.is_active st name));
    [reflexivity|].
  destruct Hname as [-> | ->]; reflexivity.
Qed.

End backends.

(** C3: in any state, on a handler whose backends are not named any or
    default.  When the test at the head of [set_backend] holds (the name
    is [any] and a backend is active, or the name is that of the active
    backend), [set_backend] with [any] or [default] returns the active
    backend and calls no loader.  Otherwise it tries the candidates in
    order: it passes over those whose loader reports a missing backend
    or refuses for security, and returns the first candidate that is the
    active backend already, or whose loader returns [True] and which
    then becomes the active backend unless [dryrun] is set; when every
    candidate is passed over and one was refused, it raises the first
    refusal; when all were missing, it raises the missing-backend
    error. *)
Theorem backend_security_refusal (cls : BackendMixin.class) (name : string)
        (dryrun : bool) (st : BackendMixin.state) (fuel : nat) :
  name = "any" \/ name = "default" ->
  ~ In "any" (BackendMixin.backends cls) ->
  ~ In "default" (BackendMixin.backends cls) ->
  ((String.eqb name "any" && BackendMixin.loaded st)
   || BackendMixin.already_active st name = true ->
   exists active,
     BackendMixin.__backend st = Some active
     /\ BackendMixin.set_backend (S (S fuel)) cls name dryrun st
        = (st, Ok active))
  /\ ((String.eqb name "any" && BackendMixin.loaded st)
      || BackendMixin.already_active st name = false ->
      (forall pre b post,
          BackendMixin.backends cls = (pre ++ b :: post)%list ->
          forallb (BackendMixin.passed_over_in cls dryrun st) pre = true ->
          (BackendMixin.already_active st b = true ->
           BackendMixin.set_backend (S (S fuel)) cls name dryrun st
           = (st, Ok b))
          /\ (BackendMixin.already_active st b = false ->
              BackendMixin.loader cls b dryrun = Ok (PyBool true) ->
              BackendMixin.set_backend (S (S fuel)) cls name dryrun st
              = (if dryrun then st else BackendMixin.activate st b, Ok b)))
      /\ (forallb (BackendMixin.passed_over_in cls dryrun st)
            (BackendMixin.backends cls) = true ->
          forall err,
            BackendMixin.first_refusal cls dryrun (BackendMixin.backends cls)
            = Some err ->
            (exists msg, err = PasslibSecurityError msg)
            /\ BackendMixin.set_backend (S (S fuel)) cls name dryrun st
               = (st, Raise err))
      /\ (forallb (BackendMixin.passed_over_in cls dryrun st)
            (BackendMixin.backends cls) = true ->
          BackendMixin.first_refusal cls dryrun (BackendMixin.backends cls)
          = None ->
          BackendMixin.set_backend (S (S fuel)) cls name dryrun st
          = (st, Raise (BackendMixin.no_backends_error cls)))).
Proof.
  intros Hname Hany Hdef.
  assert (Hok : forall cs, (forall c, In c cs -> In c (BackendMixin.backends cls)) ->
                           forall c, In c cs ->
                                     In c (BackendMixin.backends cls)
                                     /\ c <> "any" /\ c <> "default").
  { intros cs Hsub c Hc. split; [now apply Hsub|].
    split; intros ->; [apply Hany | apply Hdef]; now apply Hsub. }
  rewrite (set_backend_any cls dryrun fuel st name Hname).
  split.
  - intros Hearly. rewrite Hearly.
    destruct (BackendMixin.__backend st) as [active|] eqn:Eb; [eauto|].
    exfalso. revert Hearly.
    unfold BackendMixin.already_active, BackendMixin.loaded,
      BackendMixin.is_active.
    rewrite Eb, !andb_false_r. discriminate.
  - intros Hearly. rewrite Hearly. split; [|split].
    + intros pre b post Hb Hpass.
      assert (Hin : In b (BackendMixin.backends cls))
        by (rewrite Hb; apply in_or_app; right; now left).
      destruct (Hok [b]) with (c := b) as (_ & Hb1 & Hb2);
        [intros c [<-|[]]; assumption | now left |].
      assert (Hrun :
                BackendMixin.first_available cls
                  (fun c => BackendMixin.set_backend (S fuel) cls c dryrun)
                  (BackendMixin.backends cls) None st
                = BackendMixin.first_available cls
                    (fun c => BackendMixin.set_backend (S fuel) cls c dryrun)
                    (b :: post)
                    (BackendMixin.first_refusal cls dryrun pre) st).
      { rewrite Hb.
        apply (first_available_passes cls dryrun fuel st pre (b :: post)
                 None); [|assumption].
        apply Hok. intros c Hc. rewrite Hb. apply in_or_app. now left. }
      rewrite Hrun. cbn [BackendMixin.first_available].
      rewrite (set_backend_named cls dryrun fuel st b Hin Hb1 Hb2).
      split.
      * intros Hact. now rewrite Hact.
      * intros Hact Hload. rewrite Hact.
        unfold BackendMixin._set_backend. rewrite Hload. reflexivity.
    + intros Hpass err Herr.
      split; [now apply (first_refusal_is_refusal cls dryrun _ _ Herr)|].
      rewrite <- (app_nil_r (BackendMixin.backends cls)) at 1.
      rewrite (first_available_passes cls dryrun fuel st _ [] None).
      * now rewrite Herr.
      * apply Hok. auto.
      * assumption.
    + intros Hpass Hnone'.
      rewrite <- (app_nil_r (BackendMixin.backends cls)) at 1.
      rewrite (first_available_passes cls dryrun fuel st _ [] None).
      * now rewrite Hnone'.
      * apply Hok. auto.
      * assumption.
Qed.

Lemma backend_security_refusal_witness :
  ~ In "any" (BackendMixin.backends Samples.three_backends)
  /\ ~ In "default" (BackendMixin.backends Samples.three_backends)
  /\ forallb (BackendMixin.passed_over_in Samples.three_backends false
               Samples.unresolved) ["native"; "os_crypt"] = true
  /\ BackendMixin.loader Samples.three_backends "builtin" false
     = Ok (PyBool true)
  /\ BackendMixin.set_backend 2 Samples.three_backends "any" false
       Samples.unresolved
     = (BackendMixin.activate Samples.unresolved "builtin", Ok "builtin").
Proof.
  assert (Hany : ~ In "any" (BackendMixin.backends Samples.three_backends))
    by (simpl; intros [H|[H|[H|[]]]]; discriminate H).
  assert (Hdef : ~ In "default" (BackendMixin.backends Samples.three_backends))
    by (simpl; intros [H|[H|[H|[]]]]; discriminate H).
  split; [exact Hany|]. split; [exact Hdef|].
  split; [reflexivity|]. split; [reflexivity|].
  exact (proj2 (proj1 (proj2 (backend_security_refusal
                                Samples.three_backends "any" false
                                Samples.unresolved 0 (or_introl eq_refl)
                                Hany Hdef) eq_refl)
                  ["native"; "os_crypt"] "builtin" [] eq_refl eq_refl)
           eq_refl eq_refl).
Defined.

(** The sample handlers, run: the refused backend is passed over for the
    one that loads; with no usable backend the refusal is raised, also
    when it is not the first candidate; a dry run leaves the state as it
    was; and a candidate that is the active backend already is returned
    without a call of its loader, here one that would refuse. *)
Lemma backend_samples :
  BackendMixin.set_backend 2 Samples.three_backends "default" false
    Samples.unresolved
  = ({| BackendMixin.__backend := Some "builtin";
        BackendMixin._pending_backend := None;
        BackendMixin._pending_dry_run := false |}, Ok "builtin")
  /\ BackendMixin.set_backend 2 Samples.three_backends "any" true
       Samples.unresolved
     = (Samples.unresolved, Ok "builtin")
  /\ BackendMixin.set_backend 2 Samples.no_safe_backend "any" false
       Samples.unresolved
     = (Samples.unresolved,
        Raise (PasslibSecurityError "native backend is vulnerable"))
  /\ BackendMixin.set_backend 2 Samples.three_backends "native" false
       Samples.unresolved
     = (Samples.unresolved,
        Raise (PasslibSecurityError "native backend is vulnerable"))
  /\ BackendMixin.set_backend 2 Samples.three_backends "scrypt" false
       Samples.unresolved
     = (Samples.unresolved, Raise (UnknownBackendError "sample" "scrypt"))
  /\ BackendMixin.set_backend 2 Samples.no_safe_backend "default" false
       MoreSamples.native_active
     = (MoreSamples.native_active, Ok "native").
Proof. repeat split; vm_compute; reflexivity. Qed.

(** * Further properties *)

(** ** [parse_int] *)

(** X1: [parse_int] reads back what [str] writes in base 10 and what
    [%x] writes in base 16, for every integer, whatever the default. *)
Theorem parse_int_reads_written (n : Z) (default : option Z)
        (param : string) (handler : option string) :
  parse_int (str_of_int n) 10 default param handler = Ok n
  /\ parse_int (hex_of_int n) 16 default param handler = Ok n.
Proof.
  assert (H : forall base, 2 <= base <= 36 ->
                parse_int (format_int base n) base default param handler
                = Ok n).
  { intros base Hb. unfold parse_int.
    destruct (format_int_shape base Hb n) as (Ht & Hz & _).
    rewrite Hz, Ht. now apply int_of_str_format_int. }
  split; apply H; lia.
Qed.

Section parse_int_and_parse_mc3.

Variable to_unicode : pyval -> string -> string -> result string.
Hypothesis to_unicode_text :
  forall s encoding param, to_unicode (PyStr s) encoding param = Ok s.

(** X2: [parse_mc3] reads its rounds field as [parse_int] reads a field
    named rounds: on a string with the prefix and the fields rounds and
    salt, one returns a number exactly when the other returns it, and
    when one raises so does the other. *)
Theorem parse_mc3_rounds_as_parse_int (h prefix rounds salt : string)
        (base : Z) (default : option Z) (handler : option string) :
  startswith h prefix = true ->
  split (slice_from (String.length prefix) h) "$" = Ok [rounds; salt] ->
  (forall n,
      parse_mc3 to_unicode (PyStr h) prefix "$" base default handler
      = Ok (n, salt, None)
      <-> parse_int rounds base default "rounds" handler = Ok n)
  /\ ((exists e, parse_mc3 to_unicode (PyStr h) prefix "$" base default
                   handler = Raise e)
      <-> (exists e, parse_int rounds base default "rounds" handler
                     = Raise e)).
Proof.
  intros Hp Hs.
  rewrite (parse_mc3_with_prefix _ to_unicode_text) by assumption.
  rewrite Hs. cbn [bind].
  unfold rounds_field_value, parse_int, exc.ZeroPaddedRoundsError.
  destruct (startswith rounds _UZERO && negb (String.eqb rounds _UZERO)).
  - cbn [bind]. split.
    + intros n. split; intros H; discriminate H.
    + split; intros _; eexists; reflexivity.
  - destruct (truthy rounds).
    + destruct (int_of_str rounds base) as [v|e]; cbn [bind]; split.
      * intros n. split; intros H; inversion H; reflexivity.
      * split; intros [e H]; discriminate H.
      * intros n. split; intros H; discriminate H.
      * split; intros _; eexists; reflexivity.
    + destruct default as [d|]; cbn [bind]; split.
      * intros n. split; intros H; inversion H; reflexivity.
      * split; intros [e H]; discriminate H.
      * intros n. split; intros H; discriminate H.
      * split; intros _; eexists; reflexivity.
Qed.

End parse_int_and_parse_mc3.

Lemma parse_mc3_rounds_as_parse_int_witness :
  (forall s encoding param,
      Samples.to_unicode (PyStr s) encoding param = Ok s)
  /\ startswith "$5$5000$abc" "$5$" = true
  /\ split (slice_from (String.length "$5$") "$5$5000$abc") "$"
     = Ok ["5000"; "abc"]
  /\ (parse_mc3 Samples.to_unicode (PyStr "$5$5000$abc") "$5$" "$" 10 None
        None = Ok (5000, "abc", None)
      <-> parse_int "5000" 10 None "rounds" None = Ok 5000).
Proof.
  split; [exact sample_to_unicode_text|].
  split; [reflexivity|]. split; [reflexivity|].
  exact (proj1 (parse_mc3_rounds_as_parse_int Samples.to_unicode
                  sample_to_unicode_text "$5$5000$abc" "$5$" "5000" "abc"
                  10 None None eq_refl eq_refl) 5000).
Defined.

(** ** [norm_integer] *)

(** The bounds are consistent when the minimum does not exceed a given
    maximum. *)
Lemma norm_integer_cases (handler : string) (v min : Z) (max : option Z)
      (param : string) (relaxed : bool) :
  (forall mx, bound_given max = Some mx -> min <= mx) ->
  (v < min /\
   (if relaxed
    then exists w, norm_integer handler (PyInt v) min max param relaxed
                   = ([w], Ok min)
    else exists msg, norm_integer handler (PyInt v) min max param relaxed
                     = ([], Raise (ValueError msg))))
  \/ (min <= v /\ (forall mx, bound_given max = Some mx -> v <= mx) /\
      norm_integer handler (PyInt v) min max param relaxed = ([], Ok v))
  \/ (exists mx, bound_given max = Some mx /\ mx < v /\
      (if relaxed
       then exists w, norm_integer handler (PyInt v) min max param relaxed
                      = ([w], Ok mx)
       else exists msg, norm_integer handler (PyInt v) min max param relaxed
                        = ([], Raise (ValueError msg)))).
Proof.
  intros Hc. unfold norm_integer. cbn [as_int].
  destruct (Z.ltb_spec v min) as [Hlt|Hge].
  - left. split; [assumption|].
    destruct relaxed; [|eexists; reflexivity].
    destruct (bound_given max) as [mx|] eqn:Eb; [|eexists; reflexivity].
    specialize (Hc mx eq_refl).
    destruct (Z.gtb_spec min mx); [lia|]. eexists; reflexivity.
  - destruct (bound_given max) as [mx|] eqn:Eb.
    + destruct (Z.gtb_spec v mx) as [Hgt|Hle].
      * right; right. exists mx. split; [reflexivity|]. split; [lia|].
        destruct relaxed; eexists; reflexivity.
      * right; left. split; [assumption|]. split; [|reflexivity].
        intros mx' H. inversion H. lia.
    + right; left. split; [assumption|]. split; [|reflexivity].
      intros mx' H. discriminate H.
Qed.

Lemma norm_integer_as_int (handler : string) (value : pyval) (min : Z)
      (max : option Z) (param : string) (relaxed : bool) (v : Z) :
  as_int value = Some v ->
  norm_integer handler value min max param relaxed
  = norm_integer handler (PyInt v) min max param relaxed.
Proof. intros H. unfold norm_integer. now rewrite H. Qed.

Lemma norm_integer_ok_is_int (handler : string) (value : pyval) (min : Z)
      (max : option Z) (param : string) (relaxed : bool)
      (ws : list warning) (r : Z) :
  norm_integer handler value min max param relaxed = (ws, Ok r) ->
  exists v, as_int value = Some v.
Proof.
  unfold norm_integer. destruct (as_int value) as [v|]; [eauto|discriminate].
Qed.

(** Where a returned value lies. *)
Lemma norm_integer_ok_range (handler : string) (v min : Z) (max : option Z)
      (param : string) (relaxed : bool) (ws : list warning) (r : Z) :
  (forall mx, bound_given max = Some mx -> min <= mx) ->
  norm_integer handler (PyInt v) min max param relaxed = (ws, Ok r) ->
  min <= r /\ (forall mx, bound_given max = Some mx -> r <= mx).
Proof.
  intros Hc H.
  destruct (norm_integer_cases handler v min max param relaxed Hc)
    as [(Hlt & Hr)|[(Hge & Hle & Hr)|(mx & Hb & Hgt & Hr)]].
  - destruct relaxed; destruct Hr as [w Hr]; rewrite Hr in H;
      inversion H; subst. split; [lia|]. intros mx Hb. now apply Hc.
  - rewrite Hr in H. inversion H; subst. split; assumption.
  - destruct relaxed; destruct Hr as [w Hr]; rewrite Hr in H;
      inversion H; subst. split; [now apply Hc|].
    intros mx' Hb'. rewrite Hb in Hb'. inversion Hb'. lia.
Qed.

(** X3: with consistent bounds, whatever [norm_integer] returns lies
    between the minimum and the maximum, in both modes. *)
Theorem norm_integer_within_bounds (handler : string) (value : pyval)
        (min : Z) (max : option Z) (param : string) (relaxed : bool)
        (ws : list warning) (r : Z) :
  (forall mx, bound_given max = Some mx -> min <= mx) ->
  norm_integer handler value min max param relaxed = (ws, Ok r) ->
  min <= r /\ (forall mx, bound_given max = Some mx -> r <= mx).
Proof.
  intros Hc H.
  destruct (norm_integer_ok_is_int _ _ _ _ _ _ _ _ H) as [v Hv].
  rewrite (norm_integer_as_int _ _ _ _ _ _ _ Hv) in H.
  destruct (norm_integer_cases handler v min max param relaxed Hc)
    as [(Hlt & Hr)|[(Hge & Hle & Hr)|(mx & Hb & Hgt & Hr)]].
  - destruct relaxed; destruct Hr as [w Hr]; rewrite Hr in H;
      inversion H; subst. split; [lia|]. intros mx Hb. now apply Hc.
  - rewrite Hr in H. inversion H; subst. split; assumption.
  - destruct relaxed; destruct Hr as [w Hr]; rewrite Hr in H;
      inversion H; subst. split; [now apply Hc|].
    intros mx' Hb'. rewrite Hb in Hb'. inversion Hb'. lia.
Qed.

Lemma norm_integer_within_bounds_witness :
  (forall mx, bound_given (Some 9999) = Some mx -> 1000 <= mx)
  /\ 1000 <= 9999
     /\ (forall mx, bound_given (Some 9999) = Some mx -> 9999 <= mx).
Proof.
  assert (Hc : forall mx, bound_given (Some 9999) = Some mx -> 1000 <= mx)
    by (intros mx H; inversion H; lia).
  split; [exact Hc|].
  exact (norm_integer_within_bounds "sample" (PyInt 123456) 1000 (Some 9999)
           "rounds" true _ 9999 Hc eq_refl).
Defined.

(** X4: with consistent bounds, a value that [norm_integer] returned is
    returned unchanged and without warning when it is normalised again,
    in either mode. *)
Theorem norm_integer_idempotent (handler : string) (value : pyval)
        (min : Z) (max : option Z) (param : string) (relaxed again : bool)
        (ws : list warning) (r : Z) :
  (forall mx, bound_given max = Some mx -> min <= mx) ->
  norm_integer handler value min max param relaxed = (ws, Ok r) ->
  norm_integer handler (PyInt r) min max param again = ([], Ok r).
Proof.
  intros Hc H.
  destruct (norm_integer_ok_is_int _ _ _ _ _ _ _ _ H) as [v Hv].
  rewrite (norm_integer_as_int _ _ _ _ _ _ _ Hv) in H.
  destruct (norm_integer_ok_range _ _ _ _ _ _ _ _ Hc H) as [Hlo Hhi].
  destruct (norm_integer_cases handler r min max param again Hc)
    as [(Hlt & _)|[(_ & _ & Hr)|(mx & Hb & Hgt & _)]].
  - lia.
  - exact Hr.
  - specialize (Hhi mx Hb). lia.
Qed.

Lemma norm_integer_idempotent_witness :
  (forall mx, bound_given (Some 9999) = Some mx -> 1000 <= mx)
  /\ norm_integer "sample" (PyInt 1000) 1000 (Some 9999) "rounds" false
     = ([], Ok 1000).
Proof.
  assert (Hc : forall mx, bound_given (Some 9999) = Some mx -> 1000 <= mx)
    by (intros mx H; inversion H; lia).
  split; [exact Hc|].
  exact (norm_integer_idempotent "sample" (PyInt 50) 1000 (Some 9999)
           "rounds" true false _ 1000 Hc eq_refl).
Defined.

(** X5: in relaxed mode [norm_integer] never raises on an integer: it
    returns the value raised to the minimum and then lowered to the
    maximum, if one is given. *)
Theorem norm_integer_relaxed_clamps (handler : string) (value : pyval)
        (v min : Z) (max : option Z) (param : string) :
  as_int value = Some v ->
  snd (norm_integer handler value min max param true)
  = Ok (match bound_given max with
        | Some mx => Z.min (Z.max v min) mx
        | None => Z.max v min
        end).
Proof.
  intros Hv. rewrite (norm_integer_as_int _ _ _ _ _ _ _ Hv).
  unfold norm_integer. cbn [as_int].
  destruct (Z.ltb_spec v min) as [Hlt|Hge].
  - rewrite Z.max_r by lia.
    destruct (bound_given max) as [mx|]; [|reflexivity].
    destruct (Z.gtb_spec min mx); cbn [snd]; f_equal; lia.
  - rewrite Z.max_l by lia.
    destruct (bound_given max) as [mx|]; [|reflexivity].
    destruct (Z.gtb_spec v mx); cbn [snd]; f_equal; lia.
Qed.

Lemma norm_integer_relaxed_clamps_witness :
  as_int (PyBool true) = Some 1
  /\ snd (norm_integer "sample" (PyBool true) 1000 (Some 9999) "rounds" true)
     = Ok 1000.
Proof.
  split; [reflexivity|].
  exact (norm_integer_relaxed_clamps "sample" (PyBool true) 1 1000
           (Some 9999) "rounds" eq_refl).
Defined.

(** X6: with consistent bounds, [norm_integer] warns exactly when it
    returns a value other than the one it was given, and in strict mode
    it returns the value it was given or raises. *)
Theorem norm_integer_warns_iff_changed (handler : string) (value : pyval)
        (v min : Z) (max : option Z) (param : string) (relaxed : bool)
        (ws : list warning) (r : Z) :
  (forall mx, bound_given max = Some mx -> min <= mx) ->
  as_int value = Some v ->
  norm_integer handler value min max param relaxed = (ws, Ok r) ->
  (ws = [] <-> r = v) /\ (relaxed = false -> r = v /\ ws = []).
Proof.
  intros Hc Hv H. rewrite (norm_integer_as_int _ _ _ _ _ _ _ Hv) in H.
  destruct (norm_integer_cases handler v min max param relaxed Hc)
    as [(Hlt & Hr)|[(Hge & Hle & Hr)|(mx & Hb & Hgt & Hr)]].
  - destruct relaxed; destruct Hr as [w Hr]; rewrite Hr in H;
      inversion H; subst.
    split; [split; [discriminate|lia]|discriminate].
  - rewrite Hr in H. inversion H; subst. repeat split; reflexivity.
  - destruct relaxed; destruct Hr as [w Hr]; rewrite Hr in H;
      inversion H; subst.
    split; [split; [discriminate|lia]|discriminate].
Qed.

Lemma norm_integer_warns_iff_changed_witness :
  (forall mx, bound_given (Some 9999) = Some mx -> 1000 <= mx)
  /\ as_int (PyInt 5000) = Some 5000
  /\ (([] : list warning) = [] <-> 5000 = 5000).
Proof.
  assert (Hc : forall mx, bound_given (Some 9999) = Some mx -> 1000 <= mx)
    by (intros mx H; inversion H; lia).
  split; [exact Hc|]. split; [reflexivity|].
  exact (proj1 (norm_integer_warns_iff_changed "sample" (PyInt 5000) 5000
                  1000 (Some 9999) "rounds" false [] 5000 Hc eq_refl
                  eq_refl)).
Defined.

(** ** Desired rounds *)

(** X7: for a rounds value that is not negative, an instance needs an
    update on account of its rounds exactly when clipping its rounds to
    the desired range would change them. *)
Theorem needs_update_iff_clipped (cls : DesiredRounds.class) (rounds : Z) :
  0 <= rounds ->
  DesiredRounds._calc_needs_update cls rounds false
  = negb (DesiredRounds._clip_to_desired_rounds cls rounds =? rounds).
Proof.
  intros Hr.
  unfold DesiredRounds._calc_needs_update,
    DesiredRounds._clip_to_desired_rounds.
  destruct (bound_given (DesiredRounds.min_desired_rounds cls)) as [m|];
    destruct (bound_given (DesiredRounds.max_desired_rounds cls)) as [mx|];
    repeat match goal with
           | |- context [?a <? ?b] => destruct (Z.ltb_spec a b)
           | |- context [?a >? ?b] => destruct (Z.gtb_spec a b)
           end;
    match goal with
    | |- _ = negb (?a =? ?b) =>
        destruct (Z.eqb_spec a b); try reflexivity; lia
    end.
Qed.

Lemma needs_update_iff_clipped_witness :
  0 <= 500
  /\ DesiredRounds._calc_needs_update
       {| DesiredRounds.min_desired_rounds := Some 1000;
          DesiredRounds.max_desired_rounds := None |} 500 false
     = negb (DesiredRounds._clip_to_desired_rounds
               {| DesiredRounds.min_desired_rounds := Some 1000;
                  DesiredRounds.max_desired_rounds := None |} 500 =? 500).
Proof.
  split; [lia|].
  apply (needs_update_iff_clipped
           {| DesiredRounds.min_desired_rounds := Some 1000;
              DesiredRounds.max_desired_rounds := None |} 500).
  lia.
Defined.

(** X8: when the desired minimum does not exceed the desired maximum,
    rounds that were clipped to the desired range are never flagged:
    the update check returns what the other mixins decide. *)
Theorem clipped_rounds_need_no_update (cls : DesiredRounds.class)
        (rounds : Z) (inherited : bool) :
  (forall m mx,
      bound_given (DesiredRounds.min_desired_rounds cls) = Some m ->
      bound_given (DesiredRounds.max_desired_rounds cls) = Some mx ->
      m <= mx) ->
  (forall mx,
      bound_given (DesiredRounds.max_desired_rounds cls) = Some mx ->
      0 <= mx) ->
  DesiredRounds._calc_needs_update cls
    (DesiredRounds._clip_to_desired_rounds cls rounds) inherited
  = inherited.
Proof.
  intros Hc Hpos.
  assert (Hin : (forall m,
                    bound_given (DesiredRounds.min_desired_rounds cls)
                    = Some m ->
                    m <= DesiredRounds._clip_to_desired_rounds cls rounds)
                /\ (forall mx,
                       bound_given (DesiredRounds.max_desired_rounds cls)
                       = Some mx ->
                       DesiredRounds._clip_to_desired_rounds cls rounds
                       <= mx)).
  { unfold DesiredRounds._clip_to_desired_rounds.
    destruct (bound_given (DesiredRounds.min_desired_rounds cls)) as [m|];
      destruct (bound_given (DesiredRounds.max_desired_rounds cls)) as [mx|];
      try specialize (Hc _ _ eq_refl eq_refl);
      try specialize (Hpos _ eq_refl);
      repeat match goal with
             | |- context [?a <? ?b] => destruct (Z.ltb_spec a b)
             | |- context [?a >? ?b] => destruct (Z.gtb_spec a b)
             end;
      split; intros x Hx; inversion Hx; subst; lia. }
  destruct Hin as [Hlo Hhi].
  generalize dependent (DesiredRounds._clip_to_desired_rounds cls rounds).
  intros c Hlo Hhi. unfold DesiredRounds._calc_needs_update.
  destruct (bound_given (DesiredRounds.min_desired_rounds cls)) as [m|];
    destruct (bound_given (DesiredRounds.max_desired_rounds cls)) as [mx|];
    try specialize (Hlo _ eq_refl); try specialize (Hhi _ eq_refl);
    repeat match goal with
           | |- context [?a <? ?b] => destruct (Z.ltb_spec a b)
           | |- context [?a >? ?b] => destruct (Z.gtb_spec a b)
           end;
    try reflexivity; lia.
Qed.

Lemma clipped_rounds_need_no_update_witness :
  (forall m mx,
      bound_given (Some 1000) = Some m -> bound_given (Some 9999) = Some mx ->
      m <= mx)
  /\ (forall mx, bound_given (Some 9999) = Some mx -> 0 <= mx)
  /\ DesiredRounds._calc_needs_update
       {| DesiredRounds.min_desired_rounds := Some 1000;
          DesiredRounds.max_desired_rounds := Some 9999 |}
       (DesiredRounds._clip_to_desired_rounds
          {| DesiredRounds.min_desired_rounds := Some 1000;
             DesiredRounds.max_desired_rounds := Some 9999 |} 50) false
     = false.
Proof.
  assert (H1 : forall m mx,
             bound_given (Some 1000) = Some m ->
             bound_given (Some 9999) = Some mx -> m <= mx)
    by (intros m mx Hm Hx; inversion Hm; inversion Hx; lia).
  assert (H2 : forall mx, bound_given (Some 9999) = Some mx -> 0 <= mx)
    by (intros mx Hx; inversion Hx; lia).
  split; [exact H1|]. split; [exact H2|].
  exact (clipped_rounds_need_no_update
           {| DesiredRounds.min_desired_rounds := Some 1000;
              DesiredRounds.max_desired_rounds := Some 9999 |} 50 false
           H1 H2).
Defined.

(** ** Salts *)

Lemma slice_to_length (n : nat) (s : string) :
  String.length (slice_to n s) = Nat.min n (String.length s).
Proof.
  revert s; induction n as [|n IH]; intros s; [reflexivity|].
  destruct s as [|c s]; simpl; [reflexivity | now rewrite IH].
Qed.

Lemma any_not_in_slice_to (cs : string) (n : nat) (s : string) :
  any_not_in cs s = false -> any_not_in cs (slice_to n s) = false.
Proof.
  revert s; induction n as [|n IH]; intros s H; [reflexivity|].
  destruct s as [|c s]; [reflexivity|].
  simpl in *. apply orb_false_elim in H as [Hc Hs].
  now rewrite Hc, (IH _ Hs).
Qed.

(** A salt of the type the class works with, made of its characters. *)
Lemma check_type_and_chars_ok (cls : HasSalt.class) (salt s : pyval)
      (relaxed : bool) :
  HasSalt.check_type_and_chars cls salt relaxed = Ok s ->
  if HasSalt._salt_is_bytes cls then exists b, s = PyBytes b
  else exists t, s = PyStr t
                 /\ forall sc, HasSalt.salt_chars cls = Some sc ->
                               any_not_in sc t = false.
Proof.
  unfold HasSalt.check_type_and_chars.
  destruct (HasSalt._salt_is_bytes cls).
  - destruct salt; try discriminate. intros H. inversion H. eauto.
  - set (text := match salt with
                 | PyStr s0 => Ok s0
                 | PyBytes b => _
                 | _ => _
                 end).
    destruct text as [t|e]; cbn [bind]; [|discriminate].
    destruct (HasSalt.salt_chars cls) as [sc|].
    + destruct (any_not_in sc t) eqn:E; [discriminate|].
      intros H. inversion H. exists t. split; [reflexivity|].
      intros sc' Hsc. now inversion Hsc; subst.
    + intros H. inversion H. exists t. split; [reflexivity|discriminate].
Qed.

Lemma check_type_and_chars_fixed (cls : HasSalt.class) (s : pyval)
      (relaxed : bool) :
  (if HasSalt._salt_is_bytes cls then exists b, s = PyBytes b
   else exists t, s = PyStr t
                  /\ forall sc, HasSalt.salt_chars cls = Some sc ->
                                any_not_in sc t = false) ->
  HasSalt.check_type_and_chars cls s relaxed = Ok s.
Proof.
  unfold HasSalt.check_type_and_chars.
  destruct (HasSalt._salt_is_bytes cls).
  - intros [b ->]. reflexivity.
  - intros (t & -> & Hsc). cbn [bind].
    destruct (HasSalt.salt_chars cls) as [sc|]; [|reflexivity].
    now rewrite (Hsc sc eq_refl).
Qed.

Lemma py_len_nonneg (value : pyval) : 0 <= py_len value.
Proof. destruct value; simpl; lia. Qed.

Lemma truncate_salt_length (s : pyval) (mx : Z) :
  is_text_or_bytes s = true -> 0 <= mx < py_len s ->
  py_len (HasSalt._truncate_salt s mx) = mx.
Proof.
  intros Ht Hm. unfold HasSalt._truncate_salt, py_slice_to.
  destruct (Z.ltb_spec mx 0); [lia|].
  destruct s; try discriminate; simpl in *.
  - rewrite slice_to_length. lia.
  - rewrite length_firstn. lia.
Qed.

(** What a salt accepted by [_norm_salt] looks like. *)
Lemma norm_salt_ok (cls : HasSalt.class) (salt s : pyval) (relaxed : bool)
      (ws : list warning) :
  0 <= HasSalt.min_salt_size cls ->
  (forall mx, bound_given (HasSalt.max_salt_size cls) = Some mx ->
              HasSalt.min_salt_size cls <= mx) ->
  HasSalt._norm_salt cls salt relaxed = (ws, Ok s) ->
  (if HasSalt._salt_is_bytes cls then exists b, s = PyBytes b
   else exists t, s = PyStr t
                  /\ forall sc, HasSalt.salt_chars cls = Some sc ->
                                any_not_in sc t = false)
  /\ HasSalt.min_salt_size cls <= py_len s
  /\ (forall mx, bound_given (HasSalt.max_salt_size cls) = Some mx ->
                 py_len s <= mx).
Proof.
  intros Hmn Hc. unfold HasSalt._norm_salt.
  destruct (HasSalt.check_type_and_chars cls salt relaxed) as [s0|e] eqn:Et;
    [|discriminate].
  pose proof (check_type_and_chars_ok _ _ _ _ Et) as Hshape.
  assert (Htb : is_text_or_bytes s0 = true).
  { destruct (HasSalt._salt_is_bytes cls).
    - destruct Hshape as [b ->]. reflexivity.
    - destruct Hshape as (t & -> & _). reflexivity. }
  pose proof (py_len_nonneg s0) as Hlen.
  set (mn := HasSalt.min_salt_size cls) in *.
  assert (Hsmall : (negb (mn =? 0) && (py_len s0 <? mn)) = false
                   -> mn <= py_len s0).
  { destruct (Z.eqb_spec mn 0); [lia|].
    destruct (Z.ltb_spec (py_len s0) mn); [discriminate|lia]. }
  destruct (negb (mn =? 0) && (py_len s0 <? mn)) eqn:Es; [discriminate|].
  specialize (Hsmall eq_refl).
  destruct (bound_given (HasSalt.max_salt_size cls)) as [mx|] eqn:Eb.
  - specialize (Hc mx eq_refl).
    destruct (Z.gtb_spec (py_len s0) mx) as [Hgt|Hle].
    + destruct relaxed; [|discriminate].
      intros H. inversion H; subst. clear H.
      assert (Hl : py_len (HasSalt._truncate_salt s0 mx) = mx)
        by (apply truncate_salt_length; [assumption|lia]).
      split; [|split; [lia|]].
      * destruct (HasSalt._salt_is_bytes cls).
        -- destruct Hshape as [b ->]. eexists. reflexivity.
        -- destruct Hshape as (t & -> & Hsc). eexists. split; [reflexivity|].
           intros sc Hs. apply any_not_in_slice_to. now apply Hsc.
      * intros mx' [= <-]. lia.
    + intros H. inversion H; subst. split; [assumption|]. split; [lia|].
      intros mx' [= <-]. lia.
  - intros H. inversion H; subst. split; [assumption|]. split; [lia|].
    discriminate.
Qed.

(** X9: with a minimum that is not negative and does not exceed the
    maximum, a salt that [_norm_salt] returns has a size between the
    minimum and the maximum and, when it is a text, is made of the
    class's salt characters only, in relaxed as in strict mode. *)
Theorem norm_salt_within_limits (cls : HasSalt.class) (salt s : pyval)
        (relaxed : bool) (ws : list warning) :
  0 <= HasSalt.min_salt_size cls ->
  (forall mx, bound_given (HasSalt.max_salt_size cls) = Some mx ->
              HasSalt.min_salt_size cls <= mx) ->
  HasSalt._norm_salt cls salt relaxed = (ws, Ok s) ->
  HasSalt.min_salt_size cls <= py_len s
  /\ (forall mx, bound_given (HasSalt.max_salt_size cls) = Some mx ->
                 py_len s <= mx)
  /\ (forall t sc, s = PyStr t -> HasSalt._salt_is_bytes cls = false ->
                   HasSalt.salt_chars cls = Some sc ->
                   any_not_in sc t = false).
Proof.
  intros Hmn Hc H.
  destruct (norm_salt_ok cls salt s relaxed ws Hmn Hc H)
    as (Hshape & Hlo & Hhi).
  split; [exact Hlo|]. split; [exact Hhi|].
  intros t sc -> Hraw Hsc. rewrite Hraw in Hshape.
  destruct Hshape as (t' & Ht & Hchars). inversion Ht; subst.
  now apply Hchars.
Qed.

(** X10: under the same conditions, a salt that [_norm_salt] returned is
    returned unchanged and without warning when it is normalised again,
    in either mode. *)
Theorem norm_salt_idempotent (cls : HasSalt.class) (salt s : pyval)
        (relaxed again : bool) (ws : list warning) :
  0 <= HasSalt.min_salt_size cls ->
  (forall mx, bound_given (HasSalt.max_salt_size cls) = Some mx ->
              HasSalt.min_salt_size cls <= mx) ->
  HasSalt._norm_salt cls salt relaxed = (ws, Ok s) ->
  HasSalt._norm_salt cls s again = ([], Ok s).
Proof.
  intros Hmn Hc H.
  destruct (norm_salt_ok cls salt s relaxed ws Hmn Hc H)
    as (Hshape & Hlo & Hhi).
  unfold HasSalt._norm_salt.
  rewrite (check_type_and_chars_fixed cls s again Hshape).
  destruct (Z.ltb_spec (py_len s) (HasSalt.min_salt_size cls)); [lia|].
  rewrite andb_false_r.
  destruct (bound_given (HasSalt.max_salt_size cls)) as [mx|];
    [|reflexivity].
  specialize (Hhi mx eq_refl).
  destruct (Z.gtb_spec (py_len s) mx); [lia|reflexivity].
Qed.

Lemma norm_salt_within_limits_witness :
  2 <= py_len (PyStr "abca")
  /\ (forall mx, bound_given (Some 4) = Some mx -> py_len (PyStr "abca") <= mx)
  /\ (forall t sc, PyStr "abca" = PyStr t -> false = false ->
                   Some "abc" = Some sc -> any_not_in sc t = false).
Proof.
  apply (norm_salt_within_limits MoreSamples.salted (PyStr "abcabc")
           (PyStr "abca") true
           [PasslibHashWarning
              "salt too large (sample requires <= 4 chars)"]).
  - simpl. lia.
  - intros mx H. inversion H. simpl. lia.
  - reflexivity.
Defined.

Lemma norm_salt_idempotent_witness :
  HasSalt._norm_salt MoreSamples.salted (PyStr "abca") false
  = ([], Ok (PyStr "abca")).
Proof.
  apply (norm_salt_idempotent MoreSamples.salted (PyStr "abcabc")
           (PyStr "abca") true false
           [PasslibHashWarning
              "salt too large (sample requires <= 4 chars)"]).
  - simpl. lia.
  - intros mx H. inversion H. simpl. lia.
  - reflexivity.
Defined.

(** X11: with a minimum that does not exceed the maximum, the relaxed
    [_clip_to_valid_salt_size] never raises: it returns a size between
    the minimum and the maximum, and it warns exactly when that size
    differs from the one requested. *)
Theorem clip_salt_size_relaxed (cls : HasSalt.class) (salt_size : Z)
        (param : string) :
  (forall mx, bound_given (HasSalt.max_salt_size cls) = Some mx ->
              HasSalt.min_salt_size cls <= mx) ->
  exists ws r,
    HasSalt._clip_to_valid_salt_size cls salt_size param true = (ws, Ok r)
    /\ HasSalt.min_salt_size cls <= r
    /\ (forall mx, bound_given (HasSalt.max_salt_size cls) = Some mx ->
                   r <= mx)
    /\ (ws = [] <-> r = salt_size).
Proof.
  intros Hc. unfold HasSalt._clip_to_valid_salt_size.
  set (mn := HasSalt.min_salt_size cls) in *.
  destruct (HasSalt.same_size mn (HasSalt.max_salt_size cls)) eqn:Esame.
  - assert (Hmx : forall mx,
               bound_given (HasSalt.max_salt_size cls) = Some mx -> mn <= mx)
      by exact Hc.
    assert (Hfix : forall mx,
               bound_given (HasSalt.max_salt_size cls) = Some mx -> mn = mx).
    { unfold HasSalt.same_size, bound_given in *.
      destruct (HasSalt.max_salt_size cls) as [m|]; [|discriminate].
      apply Z.eqb_eq in Esame. intros mx.
      destruct (m =? 0); [discriminate|]. intros [= <-]. exact Esame. }
    destruct (Z.eqb_spec salt_size mn) as [->|Hne]; cbn [negb].
    + exists [], mn. repeat split; try lia.
      intros mx Hb. rewrite (Hfix mx Hb). lia.
    + eexists _, mn. split; [reflexivity|]. split; [lia|]. split.
      * intros mx Hb. rewrite (Hfix mx Hb). lia.
      * split; [discriminate | intros E; congruence].
  - destruct (Z.ltb_spec salt_size mn) as [Hlt|Hge].
    + destruct (bound_given (HasSalt.max_salt_size cls)) as [mx|] eqn:Eb.
      * specialize (Hc mx eq_refl).
        destruct (Z.gtb_spec mn mx); [lia|].
        eexists _, mn. split; [reflexivity|]. split; [lia|]. split.
        -- intros mx' [= <-]. exact Hc.
        -- split; [discriminate | lia].
      * eexists _, mn. split; [reflexivity|]. split; [lia|]. split.
        -- discriminate.
        -- split; [discriminate | lia].
    + destruct (bound_given (HasSalt.max_salt_size cls)) as [mx|] eqn:Eb.
      * specialize (Hc mx eq_refl).
        destruct (Z.gtb_spec salt_size mx) as [Hgt|Hle].
        -- eexists _, mx. split; [reflexivity|]. split; [lia|]. split.
           ++ intros mx' [= <-]. lia.
           ++ split; [discriminate | lia].
        -- exists [], salt_size. split; [reflexivity|]. split; [lia|]. split.
           ++ intros mx' [= <-]. lia.
           ++ split; reflexivity.
      * exists [], salt_size. split; [reflexivity|]. split; [lia|]. split.
        -- discriminate.
        -- split; reflexivity.
Qed.

Lemma clip_salt_size_relaxed_witness :
  exists ws r,
    HasSalt._clip_to_valid_salt_size MoreSamples.salted 9 "salt_size" true
    = (ws, Ok r)
    /\ 2 <= r
    /\ (forall mx, bound_given (Some 4) = Some mx -> r <= mx)
    /\ (ws = [] <-> r = 9).
Proof.
  apply (clip_salt_size_relaxed MoreSamples.salted 9 "salt_size").
  intros mx H. inversion H. simpl. lia.
Defined.

(** X12: in strict mode [_clip_to_valid_salt_size] returns nothing but
    the size it was given, without warning, and only if that size lies
    between the minimum and the maximum. *)
Theorem clip_salt_size_strict (cls : HasSalt.class) (salt_size : Z)
        (param : string) (ws : list warning) (r : Z) :
  HasSalt._clip_to_valid_salt_size cls salt_size param false = (ws, Ok r) ->
  ws = [] /\ r = salt_size
  /\ HasSalt.min_salt_size cls <= salt_size
  /\ (forall mx, bound_given (HasSalt.max_salt_size cls) = Some mx ->
                 salt_size <= mx).
Proof.
  unfold HasSalt._clip_to_valid_salt_size.
  set (mn := HasSalt.min_salt_size cls) in *.
  destruct (HasSalt.same_size mn (HasSalt.max_salt_size cls)) eqn:Esame.
  - assert (Hfix : forall mx,
               bound_given (HasSalt.max_salt_size cls) = Some mx -> mn = mx).
    { unfold HasSalt.same_size, bound_given in *.
      destruct (HasSalt.max_salt_size cls) as [m|]; [|discriminate].
      apply Z.eqb_eq in Esame. intros mx.
      destruct (m =? 0); [discriminate|]. intros [= <-]. exact Esame. }
    destruct (Z.eqb_spec salt_size mn) as [->|Hne]; cbn [negb];
      [|discriminate].
    intros [= <- <-]. repeat split; try lia.
    intros mx Hb. rewrite (Hfix mx Hb). lia.
  - destruct (Z.ltb_spec salt_size mn) as [Hlt|Hge]; [discriminate|].
    destruct (bound_given (HasSalt.max_salt_size cls)) as [mx|] eqn:Eb.
    + destruct (Z.gtb_spec salt_size mx) as [Hgt|Hle]; [discriminate|].
      intros [= <- <-]. repeat split; try lia. intros mx' [= <-]. lia.
    + intros [= <- <-]. repeat split; try lia. discriminate.
Qed.

Lemma clip_salt_size_strict_witness :
  @nil warning = [] /\ 3 = 3 /\ 2 <= 3
  /\ (forall mx, bound_given (Some 4) = Some mx -> 3 <= mx).
Proof.
  exact (clip_salt_size_strict MoreSamples.salted 3 "salt_size" [] 3
           eq_refl).
Defined.

(** ** Identifiers *)

Lemma is_ident_value_In (cls : HasManyIdents.class) (value : string) :
  HasManyIdents.is_ident_value cls value = true
  <-> In value (HasManyIdents.ident_values cls).
Proof.
  unfold HasManyIdents.is_ident_value. rewrite existsb_exists. split.
  - intros (x & Hin & Heq). apply String.eqb_eq in Heq. now subst.
  - intros Hin. exists value. split; [assumption | apply String.eqb_refl].
Qed.

(** X13: an identifier that [_norm_ident] returns is one of the class's
    [ident_values], and [_norm_ident] returns it unchanged when it is
    given again. *)
Theorem norm_ident_is_ident_value (cls : HasManyIdents.class)
        (ident : pyval) (value : string) :
  HasManyIdents._norm_ident cls ident = Ok value ->
  In value (HasManyIdents.ident_values cls)
  /\ HasManyIdents._norm_ident cls (PyStr value) = Ok value.
Proof.
  intros H.
  assert (Hin : HasManyIdents.is_ident_value cls value = true).
  { unfold HasManyIdents._norm_ident in H.
    set (first := match ident with
                  | PyNone => _
                  | PyBytes b => _
                  | _ => Ok ident
                  end) in H.
    destruct first as [i|e]; cbn [bind] in H; [|discriminate].
    destruct i; try discriminate.
    destruct (HasManyIdents.is_ident_value cls s) eqn:E.
    - now inversion H; subst.
    - destruct (HasManyIdents.alias_of cls s) as [v|]; [|discriminate].
      destruct (HasManyIdents.is_ident_value cls v) eqn:Ev; [|discriminate].
      now inversion H; subst. }
  split; [now apply is_ident_value_In|].
  unfold HasManyIdents._norm_ident. cbn [bind]. now rewrite Hin.
Qed.

Lemma norm_ident_is_ident_value_witness :
  In "$2a$" (HasManyIdents.ident_values MoreSamples.many_idents)
  /\ HasManyIdents._norm_ident MoreSamples.many_idents (PyStr "$2a$")
     = Ok "$2a$".
Proof.
  exact (norm_ident_is_ident_value MoreSamples.many_idents (PyStr "2a")
           "$2a$" eq_refl).
Defined.

Section many_idents.

Variable to_unicode : pyval -> string -> string -> result string.
Variable decode_utf8 : list byte -> option string.

Hypothesis to_unicode_text :
  forall s encoding param, to_unicode (PyStr s) encoding param = Ok s.

Lemma first_ident_some (hash : string) (idents : list string)
      (ident rest : string) :
  HasManyIdents.first_ident hash idents = Some (ident, rest) ->
  In ident idents /\ hash = ident ++ rest.
Proof.
  induction idents as [|i idents IH]; simpl; [discriminate|].
  destruct (startswith hash i) eqn:E.
  - intros [= <- <-]. split; [now left|].
    symmetry. now apply startswith_slice.
  - intros H. destruct (IH H). split; [now right | assumption].
Qed.

Lemma first_ident_none (hash : string) (idents : list string) :
  HasManyIdents.first_ident hash idents = None
  <-> existsb (startswith hash) idents = false.
Proof.
  induction idents as [|i idents IH]; simpl; [tauto|].
  destruct (startswith hash i); simpl; [split; discriminate | exact IH].
Qed.

(** X14: when [_parse_ident] accepts a text, the identifier it returns is
    one of the class's [ident_values] and, followed by the remainder it
    returns, it spells the text. *)
Theorem parse_ident_splits_hash (cls : HasManyIdents.class)
        (hash ident rest : string) :
  HasManyIdents._parse_ident to_unicode cls (PyStr hash) = Ok (ident, rest) ->
  In ident (HasManyIdents.ident_values cls) /\ hash = ident ++ rest.
Proof.
  unfold HasManyIdents._parse_ident. rewrite to_unicode_text. cbn [bind].
  destruct (HasManyIdents.first_ident hash (HasManyIdents.ident_values cls))
    as [[i r]|] eqn:E; [|discriminate].
  intros [= <- <-]. now apply first_ident_some.
Qed.

(** X15: [identify] accepts a text exactly when [_parse_ident] does; on
    any other text [_parse_ident] raises the error of
    [exc.InvalidHashError]. *)
Theorem identify_iff_parse_ident (cls : HasManyIdents.class) (hash : string) :
  (HasManyIdents.identify decode_utf8 cls (PyStr hash) = Ok true
   <-> exists found,
         HasManyIdents._parse_ident to_unicode cls (PyStr hash) = Ok found)
  /\ (HasManyIdents.identify decode_utf8 cls (PyStr hash) = Ok false
      <-> HasManyIdents._parse_ident to_unicode cls (PyStr hash)
          = Raise (exc.InvalidHashError (Some (HasManyIdents.name cls)))).
Proof.
  unfold HasManyIdents.identify, HasManyIdents._parse_ident.
  rewrite to_unicode_text. cbn [to_unicode_for_identify bind].
  destruct (HasManyIdents.first_ident hash (HasManyIdents.ident_values cls))
    as [found|] eqn:E.
  - assert (Hx : existsb (startswith hash) (HasManyIdents.ident_values cls)
                 = true).
    { destruct (existsb (startswith hash) (HasManyIdents.ident_values cls))
        eqn:Ex; [reflexivity|].
      apply first_ident_none in Ex. congruence. }
    rewrite Hx. split; split; try discriminate.
    + intros _. now exists found.
    + reflexivity.
  - apply first_ident_none in E. rewrite E.
    split; split; try discriminate; try reflexivity.
    intros [found H]. discriminate.
Qed.

End many_idents.

Lemma parse_ident_splits_hash_witness :
  In "$2a$" (HasManyIdents.ident_values MoreSamples.many_idents)
  /\ "$2a$12$abc" = "$2a$" ++ "12$abc".
Proof.
  exact (parse_ident_splits_hash Samples.to_unicode
           (fun s encoding param => eq_refl)
           MoreSamples.many_idents "$2a$12$abc" "$2a$" "12$abc" eq_refl).
Defined.

Lemma identify_iff_parse_ident_witness :
  HasManyIdents.identify Samples.decode_utf8 MoreSamples.many_idents
    (PyStr "$2a$12$abc") = Ok true
  <-> exists found,
        HasManyIdents._parse_ident Samples.to_unicode MoreSamples.many_idents
          (PyStr "$2a$12$abc") = Ok found.
Proof.
  exact (proj1 (identify_iff_parse_ident Samples.to_unicode
                  Samples.decode_utf8 (fun s encoding param => eq_refl)
                  MoreSamples.many_idents "$2a$12$abc")).
Defined.

(** ** Checksums, configuration strings and static handlers *)

Lemma repeat_char_length (c : ascii) (n : nat) :
  String.length (repeat_char c n) = n.
Proof. induction n as [|n IH]; simpl; [reflexivity | now rewrite IH]. Qed.

Lemma any_not_in_repeat_char (c : ascii) (rest : string) (n : nat) :
  any_not_in (String c rest) (repeat_char c n) = false.
Proof.
  induction n as [|n IH]; [reflexivity|].
  cbn [repeat_char any_not_in contains]. now rewrite Ascii.eqb_refl, IH.
Qed.

(** X16: when the handler declares a positive [checksum_size] and either
    raw checksums or a non-empty [checksum_chars], [_stub_checksum]
    returns, without computing a digest, a placeholder that
    [_norm_checksum] accepts unchanged and without warning. *)
Theorem stub_checksum_is_valid {S Rng : Type}
        (cls : GenericHandler.class S Rng) (at_min_rounds : option (S -> S))
        (self : GenericHandler.instance S) (size : Z) (relaxed : bool) :
  bound_given (GenericHandler.checksum_size (GenericHandler.attrs cls))
  = Some size ->
  0 < size ->
  (GenericHandler._checksum_is_bytes (GenericHandler.attrs cls) = true
   \/ exists c rest,
        GenericHandler.checksum_chars (GenericHandler.attrs cls)
        = Some (String c rest)) ->
  exists stub,
    GenConfig._stub_checksum cls at_min_rounds self = Ok stub
    /\ py_len stub = size
    /\ GenericHandler._norm_checksum (GenericHandler.attrs cls) stub relaxed
       = ([], Ok stub).
Proof.
  intros Hsize Hpos Hkind.
  unfold GenConfig._stub_checksum, GenericHandler._norm_checksum.
  rewrite Hsize.
  destruct (GenericHandler._checksum_is_bytes (GenericHandler.attrs cls))
    eqn:Eraw.
  - eexists. split; [reflexivity|].
    assert (Hl : py_len (PyBytes (repeat x00 (Z.to_nat size))) = size)
      by (cbn [py_len]; rewrite repeat_length; lia).
    split; [exact Hl|]. rewrite Hl, Z.eqb_refl. reflexivity.
  - destruct Hkind as [Hraw|(c & rest & Hchars)]; [discriminate|].
    rewrite Hchars. eexists. split; [reflexivity|].
    assert (Hl : py_len (PyStr (repeat_char c (Z.to_nat size))) = size)
      by (cbn [py_len]; rewrite repeat_char_length; lia).
    split; [exact Hl|]. rewrite Hl, Z.eqb_refl. cbn [negb].
    rewrite any_not_in_repeat_char, andb_false_r. reflexivity.
Qed.

Lemma stub_checksum_is_valid_witness :
  exists stub,
    GenConfig._stub_checksum
      (@StaticHandler.generic unit Samples.to_unicode unit Samples.nthash)
      None
      {| GenericHandler.settings := tt;
         GenericHandler.checksum := None;
         GenericHandler.use_defaults := true |} = Ok stub
    /\ py_len stub = 32
    /\ GenericHandler._norm_checksum
         (GenericHandler.attrs
            (@StaticHandler.generic unit Samples.to_unicode unit
               Samples.nthash)) stub false
       = ([], Ok stub).
Proof.
  apply (stub_checksum_is_valid
           (@StaticHandler.generic unit Samples.to_unicode unit
              Samples.nthash) None
           {| GenericHandler.settings := tt;
              GenericHandler.checksum := None;
              GenericHandler.use_defaults := true |} 32 false).
  - reflexivity.
  - lia.
  - right. eexists _, _. reflexivity.
Defined.

(** A text checksum that [_norm_checksum] accepts is returned as it is. *)
Lemma norm_checksum_text_ok (self : GenericHandler.attributes) (s : string)
      (relaxed : bool) (c : pyval) :
  snd (GenericHandler._norm_checksum self (PyStr s) relaxed) = Ok c ->
  c = PyStr s.
Proof.
  unfold GenericHandler._norm_checksum.
  destruct (GenericHandler._checksum_is_bytes self); [discriminate|].
  destruct (match bound_given (GenericHandler.checksum_size self) with
            | Some cc => negb (py_len (PyStr s) =? cc)
            | None => false
            end); [discriminate|].
  destruct (match GenericHandler.checksum_chars self with
            | Some cs => truthy cs && any_not_in cs s
            | None => false
            end); [discriminate|].
  cbn [snd]. now intros [= <-].
Qed.

Section static_round_trips.

Context {C Rng : Type}.
Variable MAX_PASSWORD_SIZE : Z.
Variable to_unicode : pyval -> string -> string -> result string.
Hypothesis to_unicode_text :
  forall s encoding param, to_unicode (PyStr s) encoding param = Ok s.

(** What [from_string] of a static handler returns on a text. *)
Lemma static_from_string_ok (cls : StaticHandler.class C) (h : string)
      (context : kwds) (self : GenericHandler.instance C) :
  StaticHandler.from_string to_unicode cls (PyStr h) context = Ok self ->
  exists st c,
    StaticHandler.init_context cls context = Ok st
    /\ self = {| GenericHandler.settings := st;
                 GenericHandler.checksum := Some (PyStr c);
                 GenericHandler.use_defaults := false |}
    /\ StaticHandler._hash_prefix cls ++ c = StaticHandler._norm_hash cls h.
Proof.
  unfold StaticHandler.from_string. rewrite to_unicode_text. cbn [bind].
  set (stripped :=
         if truthy (StaticHandler._hash_prefix cls) then _ else _).
  destruct stripped as [c|e] eqn:Es; cbn [bind]; [|discriminate].
  unfold StaticHandler.init_with_checksum.
  destruct (StaticHandler.init_context cls context) as [st|e1];
    cbn [bind]; [|discriminate].
  destruct (snd (GenericHandler._norm_checksum (StaticHandler.attrs cls)
                   (PyStr c) false)) as [chk|e2] eqn:En;
    cbn [bind]; [|discriminate].
  apply norm_checksum_text_ok in En. subst chk.
  intros [= <-]. exists st, c. split; [reflexivity|]. split; [reflexivity|].
  unfold stripped in Es.
  destruct (StaticHandler._hash_prefix cls) as [|a p] eqn:Ep.
  - cbn [truthy] in Es. now injection Es as <-.
  - cbn [truthy] in Es.
    destruct (startswith (StaticHandler._norm_hash cls h) (String a p))
      eqn:Esw; [|discriminate].
    injection Es as <-.
    exact (startswith_slice (StaticHandler._norm_hash cls h) (String a p)
             Esw).
Qed.

(** X17: whatever text a static handler's [from_string] accepts,
    [to_string] renders the parsed instance as that text in the normal
    form of [_norm_hash]. *)
Theorem static_to_string_from_string (cls : StaticHandler.class C)
        (h : string) (context : kwds) (self : GenericHandler.instance C) :
  StaticHandler.from_string to_unicode cls (PyStr h) context = Ok self ->
  StaticHandler.to_string cls self = Ok (StaticHandler._norm_hash cls h).
Proof.
  intros H. destruct (static_from_string_ok cls h context self H)
    as (st & c & _ & -> & Hh).
  unfold StaticHandler.to_string. cbn [GenericHandler.checksum].
  now rewrite Hh.
Qed.

(** X18: for a static handler whose [_calc_checksum] is a function of
    the secret and of the context stored on the instance (it reads
    neither [use_defaults] nor the stored checksum), [genhash] with any
    configuration text that [from_string] accepts does what [hash] does
    after its handling of settings keywords: the configuration text has
    no influence on the result. *)
Theorem static_genhash_is_hash (cls : StaticHandler.class C)
        (secret : pyval) (config : string) (context : kwds) (rng : Rng)
        (self : GenericHandler.instance C) :
  (forall (a b : GenericHandler.instance C) (s : pyval),
      GenericHandler.settings a = GenericHandler.settings b ->
      StaticHandler._calc_checksum cls a s
      = StaticHandler._calc_checksum cls b s) ->
  StaticHandler.from_string to_unicode cls (PyStr config) context = Ok self ->
  GenConfig.genhash MAX_PASSWORD_SIZE
    (@StaticHandler.generic C to_unicode Rng cls) secret (PyStr config)
    context
  = GenericHandler.hash_with_context MAX_PASSWORD_SIZE
      (@StaticHandler.generic C to_unicode Rng cls) secret context rng.
Proof.
  intros Hdet H. destruct (static_from_string_ok cls config context self H)
    as (st & c & Hi & Hself & _).
  unfold GenConfig.genhash, GenericHandler.hash_with_context.
  destruct (validate_secret MAX_PASSWORD_SIZE secret) as [[]|e];
    cbn [bind]; [|reflexivity].
  cbn [StaticHandler.generic GenericHandler.from_string
       GenericHandler.construct GenericHandler._calc_checksum
       GenericHandler.to_string].
  rewrite H, Hi. cbn [bind].
  rewrite (Hdet self {| GenericHandler.settings := st;
                        GenericHandler.checksum := None;
                        GenericHandler.use_defaults := true |} secret)
    by (subst self; reflexivity).
  destruct (StaticHandler._calc_checksum cls _ secret) as [chk|e];
    reflexivity.
Qed.

End static_round_trips.

Lemma static_to_string_from_string_witness :
  StaticHandler.to_string Samples.nthash
    {| GenericHandler.settings := tt;
       GenericHandler.checksum :=
         Some (PyStr "8846f7eaee8fb117ad06bdd830b7586c");
       GenericHandler.use_defaults := false |}
  = Ok (StaticHandler._norm_hash Samples.nthash
          "8846F7EAEE8FB117AD06BDD830B7586C").
Proof.
  exact (static_to_string_from_string Samples.to_unicode
           (fun s encoding param => eq_refl) Samples.nthash
           "8846F7EAEE8FB117AD06BDD830B7586C" [] _ eq_refl).
Defined.

Lemma static_genhash_is_hash_witness :
  GenConfig.genhash 4096
    (@StaticHandler.generic unit Samples.to_unicode unit Samples.plain)
    (PyStr "secret") (PyStr "anything") []
  = GenericHandler.hash_with_context 4096
      (@StaticHandler.generic unit Samples.to_unicode unit Samples.plain)
      (PyStr "secret") [] tt.
Proof.
  exact (static_genhash_is_hash 4096 Samples.to_unicode
           (fun s encoding param => eq_refl) Samples.plain
           (PyStr "secret") "anything" [] tt _ (fun a b s _ => eq_refl)
           eq_refl).
Defined.

(** Without that condition the two differ: for the handler that checks
    its truncation policy under [use_defaults] only, [hash] of a secret
    of more than 14 characters raises, while [genhash] of the same
    secret with a configuration string returns. *)
Lemma genhash_differs_when_use_defaults_is_read :
  GenericHandler.hash_with_context 4096
    (@StaticHandler.generic unit Samples.to_unicode unit
       MoreSamples.truncating) (PyStr "0123456789abcdef") [] tt
  = Raise (PasswordSizeError 14
             "Password too long (truncating truncates to 14 characters)")
  /\ GenConfig.genhash 4096
       (@StaticHandler.generic unit Samples.to_unicode unit
          MoreSamples.truncating) (PyStr "0123456789abcdef")
       (PyStr "anything") []
     = Ok "0123456789abcdef".
Proof. split; vm_compute; reflexivity. Qed.

(** ** [nthash] *)

Lemma lower_length (s : string) :
  String.length (windows.lower s) = String.length s.
Proof. induction s as [|c s IH]; simpl; [reflexivity | now rewrite IH]. Qed.

Section nthash_identify.

Variable to_unicode : pyval -> string -> string -> result string.
Variable decode_utf8 : list byte -> option string.
Variable HEX_CHARS : string.
Variable digest : pyval -> result pyval.
Hypothesis to_unicode_text :
  forall s encoding param, to_unicode (PyStr s) encoding param = Ok s.

(** X19: on a text, [nthash.identify] never raises: it answers [True]
    exactly when the text has 32 characters which, once lowered, all
    belong to [HEX_CHARS]. *)
Theorem nthash_identify_text (h : string) :
  GenericHandler.identify decode_utf8
    (@StaticHandler.generic unit to_unicode unit
       (windows.nthash HEX_CHARS digest)) (PyStr h)
  = Ok ((Z.of_nat (String.length h) =? 32)
        && negb (truthy HEX_CHARS
                 && any_not_in HEX_CHARS (windows.lower h))).
Proof.
  unfold GenericHandler.identify. cbn [to_unicode_for_identify bind].
  destruct h as [|a h]; [reflexivity|].
  cbn [truthy negb]. set (hash := String a h).
  cbn [StaticHandler.generic GenericHandler.attrs windows.nthash
       windows.hex32 GenericHandler.ident GenericHandler._hash_regex
       GenericHandler.from_string StaticHandler.attrs].
  unfold StaticHandler.from_string. rewrite to_unicode_text.
  cbn [bind windows.nthash StaticHandler._hash_prefix truthy
       StaticHandler._norm_hash].
  unfold StaticHandler.init_with_checksum.
  change (StaticHandler.init_context (windows.nthash HEX_CHARS digest) [])
    with (@Ok unit tt).
  change (StaticHandler.attrs (windows.nthash HEX_CHARS digest))
    with (windows.hex32 HEX_CHARS "nthash").
  unfold GenericHandler._norm_checksum, windows.hex32.
  cbn [bind GenericHandler._checksum_is_bytes
       GenericHandler.checksum_size GenericHandler.checksum_chars
       GenericHandler.name bound_given py_len].
  change (32 =? 0) with false. cbv iota.
  rewrite lower_length.
  destruct (Z.of_nat (String.length hash) =? 32); cbn [negb andb snd bind].
  - destruct (truthy HEX_CHARS && any_not_in HEX_CHARS (windows.lower hash));
      reflexivity.
  - unfold exc.ChecksumSizeError. now rewrite malformed_is_ValueError.
Qed.

End nthash_identify.

Lemma nthash_identify_text_witness :
  GenericHandler.identify Samples.decode_utf8
    (@StaticHandler.generic unit Samples.to_unicode unit
       (windows.nthash Samples.HEX_CHARS
          (fun _ => Raise (NotImplementedError "md4"))))
    (PyStr "8846F7EAEE8FB117AD06BDD830B7586C")
  = Ok ((Z.of_nat (String.length "8846F7EAEE8FB117AD06BDD830B7586C") =? 32)
        && negb (truthy Samples.HEX_CHARS
                 && any_not_in Samples.HEX_CHARS
                      (windows.lower "8846F7EAEE8FB117AD06BDD830B7586C"))).
Proof.
  exact (nthash_identify_text Samples.to_unicode Samples.decode_utf8
           Samples.HEX_CHARS (fun _ => Raise (NotImplementedError "md4"))
           (fun s encoding param => eq_refl)
           "8846F7EAEE8FB117AD06BDD830B7586C").
Defined.

(** ** Backends: the state of the class *)

Section backend_state.

Variable cls : BackendMixin.class.

(** What a call may do to the state: the pending fields are as before;
    a failure or a dry run leaves the state as it was; a real success
    makes the returned name the active backend. *)
Local Abbreviation effect dryrun st out :=
  (BackendMixin._pending_backend (fst out) = BackendMixin._pending_backend st
   /\ BackendMixin._pending_dry_run (fst out)
      = BackendMixin._pending_dry_run st
   /\ match snd out with
      | Raise _ => fst out = st
      | Ok active =>
          if (dryrun : bool) then fst out = st
          else BackendMixin.__backend (fst out) = Some active
      end).

Lemma first_available_effect (dryrun : bool)
      (attempt : string -> BackendMixin.state
                 -> BackendMixin.state * result string) :
  (forall c st, effect dryrun st (attempt c st)) ->
  forall candidates default_error st,
    effect dryrun st
      (BackendMixin.first_available cls attempt candidates default_error st).
Proof.
  intros Hatt candidates.
  induction candidates as [|c candidates IH]; intros default_error st.
  - cbn [BackendMixin.first_available].
    destruct default_error; cbn [fst snd]; auto.
  - cbn [BackendMixin.first_available].
    specialize (Hatt c st).
    destruct (attempt c st) as [st1 [active|err]]; cbn [fst snd] in Hatt.
    + exact Hatt.
    + destruct Hatt as (_ & _ & ->).
      destruct err; try (cbn [fst snd]; auto); apply IH.
Qed.

Lemma set_backend_effect (dryrun : bool) (fuel : nat) :
  forall name st,
    effect dryrun st (BackendMixin.set_backend fuel cls name dryrun st).
Proof.
  induction fuel as [|fuel IH]; intros name st.
  - cbn [BackendMixin.set_backend fst snd]. auto.
  - cbn [BackendMixin.set_backend].
    destruct ((String.eqb name "any" && BackendMixin.loaded st)
              || (truthy name && BackendMixin.is_active st name)).
    { destruct (BackendMixin.__backend st) as [active|] eqn:Eb;
        cbn [fst snd]; [|auto].
      destruct dryrun; auto. }
    destruct (String.eqb name "any" || String.eqb name "default").
    { apply first_available_effect. intros c st0. apply IH. }
    destruct (negb (existsb (String.eqb name) (BackendMixin.backends cls))).
    { cbn [fst snd]. auto. }
    destruct st as [b pb pd]. cbn [BackendMixin.__backend
      BackendMixin._pending_backend BackendMixin._pending_dry_run fst snd].
    destruct (BackendMixin._set_backend cls name dryrun) as [[]|err];
      [destruct dryrun|]; cbn [fst snd BackendMixin.__backend
        BackendMixin._pending_backend BackendMixin._pending_dry_run]; auto.
Qed.

(** X20: [set_backend] leaves the state of the class exactly as it was
    whenever it is a dry run or it raises, whatever the name and however
    many candidates its loop tried. *)
Theorem set_backend_keeps_state (fuel : nat) (name : string)
        (dryrun : bool) (st st' : BackendMixin.state) (r : result string) :
  BackendMixin.set_backend fuel cls name dryrun st = (st', r) ->
  dryrun = true \/ (exists err, r = Raise err) ->
  st' = st.
Proof.
  intros H Hwhy.
  pose proof (set_backend_effect dryrun fuel name st) as (_ & _ & He).
  rewrite H in He. cbn [fst snd] in He.
  destruct r as [active|err].
  - destruct Hwhy as [->|[err Herr]]; [exact He|discriminate].
  - exact He.
Qed.

(** X21: when [set_backend] succeeds outside a dry run, the name it
    returns is the active backend afterwards, and [_pending_backend]
    and [_pending_dry_run] are as they were before the call. *)
Theorem set_backend_activates (fuel : nat) (name active : string)
        (st st' : BackendMixin.state) :
  BackendMixin.set_backend fuel cls name false st = (st', Ok active) ->
  BackendMixin.__backend st' = Some active
  /\ BackendMixin._pending_backend st' = BackendMixin._pending_backend st
  /\ BackendMixin._pending_dry_run st' = BackendMixin._pending_dry_run st.
Proof.
  intros H.
  pose proof (set_backend_effect false fuel name st) as (Hpb & Hpd & He).
  rewrite H in Hpb, Hpd, He. cbn [fst snd] in Hpb, Hpd, He. auto.
Qed.


(** X23: when [get_backend] returns a name, that name is the active
    backend afterwards, and every later [get_backend] returns the same
    name without touching the state. *)
Theorem get_backend_is_stable (fuel : nat) (st st' : BackendMixin.state)
        (active : string) :
  Backends.get_backend fuel cls st = (st', Ok active) ->
  BackendMixin.__backend st' = Some active
  /\ forall fuel', Backends.get_backend fuel' cls st' = (st', Ok active).
Proof.
  assert (Hact : forall s a,
             BackendMixin.loaded s = true ->
             Backends.active_backend s = (st', Ok a) ->
             s = st' /\ BackendMixin.__backend st' = Some a
             /\ BackendMixin.loaded st' = true).
  { intros s a Hl. unfold Backends.active_backend.
    destruct (BackendMixin.__backend s) as [b|] eqn:Eb; [|discriminate].
    intros [= <- <-]. auto. }
  assert (Hagain : forall a,
             BackendMixin.__backend st' = Some a ->
             BackendMixin.loaded st' = true ->
             forall fuel', Backends.get_backend fuel' cls st' = (st', Ok a)).
  { intros a Hb Hl fuel'. unfold Backends.get_backend.
    rewrite Hl. cbn [negb]. unfold Backends.active_backend.
    now rewrite Hb. }
  intros H. unfold Backends.get_backend in H.
  destruct (BackendMixin.loaded st) eqn:El; cbn [negb] in H.
  - destruct (Hact _ _ El H) as (_ & Hb & Hl). auto.
  - destruct (BackendMixin.set_backend fuel cls "any" false st)
      as [st1 [a1|err]]; [|discriminate].
    destruct (BackendMixin.loaded st1) eqn:El1; [|discriminate].
    destruct (Hact _ _ El1 H) as (_ & Hb & Hl). auto.
Qed.

Lemma first_available_same_result
      (attempt1 attempt2 : string -> BackendMixin.state
                           -> BackendMixin.state * result string) :
  (forall c st, snd (attempt1 c st) = snd (attempt2 c st)) ->
  (forall c st err, snd (attempt1 c st) = Raise err ->
                    fst (attempt1 c st) = st) ->
  (forall c st err, snd (attempt2 c st) = Raise err ->
                    fst (attempt2 c st) = st) ->
  forall candidates default_error st,
    snd (BackendMixin.first_available cls attempt1 candidates default_error
           st)
    = snd (BackendMixin.first_available cls attempt2 candidates default_error
             st).
Proof.
  intros Hsame H1 H2 candidates.
  induction candidates as [|c candidates IH]; intros default_error st.
  - reflexivity.
  - cbn [BackendMixin.first_available].
    specialize (Hsame c st). specialize (H1 c st). specialize (H2 c st).
    destruct (attempt1 c st) as [s1 r1], (attempt2 c st) as [s2 r2].
    cbn [fst snd] in *. subst r2.
    destruct r1 as [active|err]; [reflexivity|].
    rewrite (H1 err eq_refl), (H2 err eq_refl).
    destruct err; try reflexivity; apply IH.
Qed.

Lemma set_backend_raise_keeps (dryrun : bool) (fuel : nat) (name : string)
      (st : BackendMixin.state) (err : exn) :
  snd (BackendMixin.set_backend fuel cls name dryrun st) = Raise err ->
  fst (BackendMixin.set_backend fuel cls name dryrun st) = st.
Proof.
  intros H.
  pose proof (set_backend_effect dryrun fuel name st) as (_ & _ & He).
  now rewrite H in He.
Qed.

Lemma set_backend_same_result (fuel : nat) :
  (forall name, BackendMixin.loader cls name true
                = BackendMixin.loader cls name false) ->
  forall name st,
    snd (BackendMixin.set_backend fuel cls name true st)
    = snd (BackendMixin.set_backend fuel cls name false st).
Proof.
  intros Hloader. induction fuel as [|fuel IH]; intros name st.
  - reflexivity.
  - cbn [BackendMixin.set_backend].
    destruct ((String.eqb name "any" && BackendMixin.loaded st)
              || (truthy name && BackendMixin.is_active st name));
      [reflexivity|].
    destruct (String.eqb name "any" || String.eqb name "default").
    { apply first_available_same_result.
      - intros c st0. apply IH.
      - intros c st0 err. apply set_backend_raise_keeps.
      - intros c st0 err. apply set_backend_raise_keeps. }
    destruct (negb (existsb (String.eqb name) (BackendMixin.backends cls)));
      [reflexivity|].
    unfold BackendMixin._set_backend. rewrite Hloader.
    destruct (bind _ _); reflexivity.
Qed.

(** X24: for loaders that do the same in a dry run as otherwise, a
    [has_backend] that answers [True] is right: [set_backend] with the
    same name, called in the same state, succeeds and activates a
    backend. *)
Theorem has_backend_predicts_set_backend (fuel : nat) (name : string)
        (st : BackendMixin.state) :
  (forall candidate, BackendMixin.loader cls candidate true
                     = BackendMixin.loader cls candidate false) ->
  snd (Backends.has_backend fuel cls name st) = Ok true ->
  exists st' active,
    BackendMixin.set_backend fuel cls name false st = (st', Ok active)
    /\ BackendMixin.__backend st' = Some active.
Proof.
  intros Hloader Hhas.
  pose proof (set_backend_same_result fuel Hloader name st) as Hsame.
  pose proof (set_backend_effect false fuel name st) as (_ & _ & He).
  unfold Backends.has_backend in Hhas.
  destruct (BackendMixin.set_backend fuel cls name true st)
    as [st1 [a1|err]]; cbn [snd] in Hsame.
  - destruct (BackendMixin.set_backend fuel cls name false st)
      as [st2 r2]. cbn [fst snd] in *. subst r2. eauto.
  - destruct err; discriminate.
Qed.

End backend_state.

Lemma set_backend_keeps_state_witness :
  Samples.unresolved = Samples.unresolved.
Proof.
  exact (set_backend_keeps_state Samples.three_backends 2 "any" true
           Samples.unresolved Samples.unresolved (Ok "builtin") eq_refl
           (or_introl eq_refl)).
Defined.

Lemma set_backend_activates_witness :
  BackendMixin.__backend
    {| BackendMixin.__backend := Some "builtin";
       BackendMixin._pending_backend := None;
       BackendMixin._pending_dry_run := false |} = Some "builtin"
  /\ BackendMixin._pending_backend
       {| BackendMixin.__backend := Some "builtin";
          BackendMixin._pending_backend := None;
          BackendMixin._pending_dry_run := false |}
     = BackendMixin._pending_backend Samples.unresolved
  /\ BackendMixin._pending_dry_run
       {| BackendMixin.__backend := Some "builtin";
          BackendMixin._pending_backend := None;
          BackendMixin._pending_dry_run := false |}
     = BackendMixin._pending_dry_run Samples.unresolved.
Proof.
  exact (set_backend_activates Samples.three_backends 2 "any" "builtin"
           Samples.unresolved _ eq_refl).
Defined.

Lemma get_backend_is_stable_witness :
  BackendMixin.__backend
    {| BackendMixin.__backend := Some "builtin";
       BackendMixin._pending_backend := None;
       BackendMixin._pending_dry_run := false |} = Some "builtin"
  /\ forall fuel',
       Backends.get_backend fuel' Samples.three_backends
         {| BackendMixin.__backend := Some "builtin";
            BackendMixin._pending_backend := None;
            BackendMixin._pending_dry_run := false |}
       = ({| BackendMixin.__backend := Some "builtin";
             BackendMixin._pending_backend := None;
             BackendMixin._pending_dry_run := false |}, Ok "builtin").
Proof.
  exact (get_backend_is_stable Samples.three_backends 2 Samples.unresolved
           _ "builtin" eq_refl).
Defined.

Lemma has_backend_predicts_set_backend_witness :
  exists st' active,
    BackendMixin.set_backend 2 Samples.three_backends "any" false
      Samples.unresolved = (st', Ok active)
    /\ BackendMixin.__backend st' = Some active.
Proof.
  exact (has_backend_predicts_set_backend Samples.three_backends 2 "any"
           Samples.unresolved (fun _ => eq_refl) eq_refl).
Defined.

(** ** PrefixWrapper: the other direction, [hash] and [verify] *)

(** X25: a hash that starts with the wrapper's prefix is unwrapped to a
    hash of the wrapped handler, and wrapping that hash gives the
    original back. *)
Theorem unwrap_then_wrap (w : PrefixWrapper.class) (h : string) :
  startswith h (PrefixWrapper.prefix w) = true ->
  exists orig,
    PrefixWrapper._unwrap_hash w h = Ok orig
    /\ startswith orig (PrefixWrapper.orig_prefix w) = true
    /\ PrefixWrapper._wrap_hash w (PyStr orig) = Ok h.
Proof.
  intros Hp.
  exists (PrefixWrapper.orig_prefix w
          ++ slice_from (String.length (PrefixWrapper.prefix w)) h).
  split; [|split].
  - unfold PrefixWrapper._unwrap_hash. now rewrite Hp.
  - apply startswith_app.
  - unfold PrefixWrapper._wrap_hash. cbn [bind].
    rewrite startswith_app, slice_from_app. cbn [negb].
    now rewrite (startswith_slice _ _ Hp).
Qed.

Lemma unwrap_then_wrap_witness :
  exists orig,
    PrefixWrapper._unwrap_hash Samples.bsd_nthash
      "$3$$8846f7eaee8fb117ad06bdd830b7586c" = Ok orig
    /\ startswith orig (PrefixWrapper.orig_prefix Samples.bsd_nthash) = true
    /\ PrefixWrapper._wrap_hash Samples.bsd_nthash (PyStr orig)
       = Ok "$3$$8846f7eaee8fb117ad06bdd830b7586c".
Proof.
  exact (unwrap_then_wrap Samples.bsd_nthash
           "$3$$8846f7eaee8fb117ad06bdd830b7586c" eq_refl).
Defined.

Section wrapper_methods.

Variable to_unicode : pyval -> string -> string -> result string.
Variable wrapped_hash : pyval -> kwds -> result string.
Variable wrapped_verify : pyval -> pyval -> kwds -> result bool.
Hypothesis to_unicode_text :
  forall s encoding param, to_unicode (PyStr s) encoding param = Ok s.

(** X26: when the wrapped handler's [hash] returns a text that starts
    with [orig_prefix], the wrapper's [hash] returns a text that starts
    with the wrapper's prefix, and the wrapper's [verify] on that text
    is the wrapped handler's [verify] on the hash it had returned. *)
Theorem wrapper_verify_of_hash (w : PrefixWrapper.class) (secret : pyval)
        (kw context : kwds) (h : string) :
  wrapped_hash secret kw = Ok h ->
  startswith h (PrefixWrapper.orig_prefix w) = true ->
  exists wrapped,
    Wrapper.hash wrapped_hash w secret kw = Ok wrapped
    /\ startswith wrapped (PrefixWrapper.prefix w) = true
    /\ forall candidate,
         Wrapper.verify to_unicode wrapped_verify w candidate
           (PyStr wrapped) context
         = wrapped_verify candidate (PyStr h) context.
Proof.
  intros Hh Hq.
  exists (PrefixWrapper.prefix w
          ++ slice_from (String.length (PrefixWrapper.orig_prefix w)) h).
  split; [|split].
  - unfold Wrapper.hash, PrefixWrapper._wrap_hash. rewrite Hh. cbn [bind].
    now rewrite Hq.
  - apply startswith_app.
  - intros candidate. unfold Wrapper.verify, PrefixWrapper._unwrap_hash.
    rewrite to_unicode_text. cbn [bind].
    rewrite startswith_app, slice_from_app. cbn [negb bind].
    now rewrite (startswith_slice _ _ Hq).
Qed.

(** X27: on a text that does not start with the wrapper's prefix, the
    wrapper's [verify] raises the error of [exc.InvalidHashError] for
    the wrapper, whatever the wrapped handler would have answered. *)
Theorem wrapper_verify_foreign_hash (w : PrefixWrapper.class)
        (secret : pyval) (context : kwds) (h : string) :
  startswith h (PrefixWrapper.prefix w) = false ->
  Wrapper.verify to_unicode wrapped_verify w secret (PyStr h) context
  = Raise (exc.InvalidHashError (Some (PrefixWrapper.name w))).
Proof.
  intros Hp. unfold Wrapper.verify, PrefixWrapper._unwrap_hash.
  rewrite to_unicode_text. cbn [bind]. now rewrite Hp.
Qed.

End wrapper_methods.

Lemma wrapper_verify_of_hash_witness :
  exists wrapped,
    Wrapper.hash (fun _ _ => Ok "8846f7eaee8fb117ad06bdd830b7586c")
      Samples.bsd_nthash (PyStr "password") [] = Ok wrapped
    /\ startswith wrapped (PrefixWrapper.prefix Samples.bsd_nthash) = true
    /\ forall candidate,
         Wrapper.verify Samples.to_unicode
           (fun secret hash _ => Samples.consteq hash hash)
           Samples.bsd_nthash candidate (PyStr wrapped) []
         = Samples.consteq (PyStr "8846f7eaee8fb117ad06bdd830b7586c")
             (PyStr "8846f7eaee8fb117ad06bdd830b7586c").
Proof.
  exact (wrapper_verify_of_hash Samples.to_unicode
           (fun _ _ => Ok "8846f7eaee8fb117ad06bdd830b7586c")
           (fun secret hash _ => Samples.consteq hash hash)
           (fun s encoding param => eq_refl)
           Samples.bsd_nthash (PyStr "password") [] []
           "8846f7eaee8fb117ad06bdd830b7586c" eq_refl eq_refl).
Defined.

Lemma wrapper_verify_foreign_hash_witness :
  Wrapper.verify Samples.to_unicode
    (fun secret hash _ => Samples.consteq hash hash)
    Samples.bsd_nthash (PyStr "password")
    (PyStr "8846f7eaee8fb117ad06bdd830b7586c") []
  = Raise (exc.InvalidHashError
             (Some (PrefixWrapper.name Samples.bsd_nthash))).
Proof.
  exact (wrapper_verify_foreign_hash Samples.to_unicode
           (fun secret hash _ => Samples.consteq hash hash)
           (fun s encoding param => eq_refl)
           Samples.bsd_nthash (PyStr "password") []
           "8846f7eaee8fb117ad06bdd830b7586c" eq_refl).
Defined.

Lemma slices_agree (prefix ident : string) :
  String.eqb (slice_to (String.length prefix) ident)
    (slice_to (String.length ident) prefix)
  = startswith prefix ident || startswith ident prefix.
Proof.
  revert ident; induction prefix as [|b prefix IH]; intros ident.
  - destruct ident; reflexivity.
  - destruct ident as [|a ident]; [reflexivity|].
    cbn [String.length slice_to startswith String.eqb].
    rewrite IH. rewrite (Ascii.eqb_sym b a).
    destruct (Ascii.eqb a b); reflexivity.
Qed.

(** X28: the constructor of [PrefixWrapper] accepts a text [ident]
    exactly when [ident] is the beginning of the prefix or the prefix is
    the beginning of [ident]; it then stores [ident] as given, and
    otherwise it raises [ValueError]. *)
Theorem init_ident_agrees_with_prefix (prefix ident : string) :
  Wrapper.init_ident prefix (PyStr ident)
  = if startswith prefix ident || startswith ident prefix
    then Ok (Some ident)
    else Raise (ValueError "ident must agree with prefix").
Proof.
  unfold Wrapper.init_ident. cbn [bind]. rewrite slices_agree.
  now destruct (startswith prefix ident || startswith ident prefix).
Qed.
